(** * Strategy and reconciliation engine: a shallow embedding

    The development follows the Go sources of the trading bot:
    - the mirror strategy (order reconciler and fill-offset tracker),
    - the volume filter (daily sell caps),
    - the sell-side TWAP level provider (time buckets and rounds),
    - the process registry of [kelpos].

    Conventions of the embedding.
    - [float64] values are read as exact rationals ([Q]); infinities, NaN and
      binary rounding are outside that reading, which keeps which
      expression the code evaluates and which branch it takes.  Where
      rounding decides a property, module [Binary64] evaluates the code's
      formula in IEEE binary64.
    - A Go function returning [(T, error)] returns a [result T]; a runtime
      panic is the separate outcome [Panic].
    - A method that mutates its receiver takes the receiver's state and
      returns the new state next to its result, so that whatever was written
      before an error is returned stays written.
    - Packages of the repository that the sources import but that are not
      part of the files embedded here ([model], [utils], the SDEX wrapper,
      [strconv]/[fmt] of the Go library) are interfaces: type classes whose
      operations the embedded functions call by their Go names. *)

From Stdlib Require Import ZArith QArith Qround Qpower Qabs Lia Lra Psatz.
From Stdlib Require Import String Ascii List Bool DecimalString.
From Stdlib Require Import PrimFloat FloatOps SpecFloat Uint63.
From stdpp Require Import base countable gmap strings.
Import ListNotations.

Local Open Scope string_scope.
Local Open Scope list_scope.
Local Open Scope Z_scope.

(** ** Go basics *)

Module Go.

(** The [error] values built by [fmt.Errorf]: a message, possibly wrapping
    the error it reports on. *)
Inductive error : Type :=
| Errorf (msg : string)
| Wrapf (msg : string) (cause : error).

Inductive result (A : Type) : Type :=
| Ok (a : A)
| Err (e : error)
| Panic.

Arguments Ok {A} a.
Arguments Err {A} e.
Arguments Panic {A}.

(** Stateful, fallible computations over a receiver state [S]. *)
Definition M (S A : Type) : Type := S -> result A * S.

Definition ret {S A} (a : A) : M S A := fun s => (Ok a, s).

Definition fail {S A} (e : error) : M S A := fun s => (Err e, s).

Definition bind {S A B} (m : M S A) (k : A -> M S B) : M S B :=
  fun s =>
    match m s with
    | (Ok a, s') => k a s'
    | (Err e, s') => (Err e, s')
    | (Panic, s') => (Panic, s')
    end.

Definition modify {S} (f : S -> S) : M S unit := fun s => (Ok tt, f s).

(** Comparison of floats. *)
Definition Qltb (x y : Q) : bool := (Qnum x * QDen y <? Qnum y * QDen x)%Z.
Definition Qleb (x y : Q) : bool := Qle_bool x y.

(** [int64] arithmetic wraps around. *)
Definition wrap64 (z : Z) : Z := (z + 2 ^ 63) mod 2 ^ 64 - 2 ^ 63.

(** [math.Ceil] followed by the conversion [int64(...)]. *)
Definition ceil_int64 (x : Q) : Z := wrap64 (Qceiling x).

End Go.

Export Go.

Declare Scope go_scope.
Delimit Scope go_scope with go.
Notation "x <- m ;; k" := (Go.bind m (fun x => k))
  (at level 100, m at next level, right associativity) : go_scope.
Notation "m ;;; k" := (Go.bind m (fun _ => k))
  (at level 100, right associativity) : go_scope.

(** ** The [model] package: numbers, orders, constraints *)

(** [model.Number]: a value with a precision.  The package is imported by
    the strategy sources; its operations are an interface here. *)
Class NumberOps : Type := {
  Number : Type;
  AsFloat : Number -> Q;
  Scale : Number -> Q -> Number;
  Add : Number -> Number -> Number;
  Subtract : Number -> Number -> Number;
  Multiply : Number -> Number -> Number;
  InvertNumber : Number -> Number;
  NumberFromFloat : Q -> Z -> Number;
  NumberByCappingPrecision : Number -> Z -> Number;
  (** [MustNumberFromString] panics on a malformed string: [None]. *)
  MustNumberFromString : string -> Z -> option Number;
  EqualsPrecisionNormalized : Number -> Number -> Q -> bool;
  (** [model.NumberConstants.Zero] *)
  NumberZero : Number
}.

Inductive OrderAction : Type := OrderActionBuy | OrderActionSell.

(** [OrderAction.Reverse] *)
Definition Reverse (a : OrderAction) : OrderAction :=
  match a with
  | OrderActionBuy => OrderActionSell
  | OrderActionSell => OrderActionBuy
  end.

Inductive OrderType : Type := OrderTypeMarket | OrderTypeLimit.

Record TradingPair : Type := mkTradingPair {
  Base : string;
  Quote : string
}.

(** [horizon.Asset] *)
Record Asset : Type := mkAsset {
  AssetType : string;
  Code : string;
  Issuer : string
}.

#[global] Instance Asset_eq_dec : EqDecision Asset.
Proof. solve_decision. Defined.

#[global] Instance Asset_countable : Countable Asset.
Proof.
  refine (inj_countable' (fun a => (AssetType a, Code a, Issuer a))
            (fun t => mkAsset t.1.1 t.1.2 t.2) _).
  intros []; reflexivity.
Defined.

(** [horizon.Offer]: a live offer as the venue reports it; price and amount
    are decimal strings. *)
Record Offer : Type := mkOffer {
  OfferID : Z;
  Selling : Asset;
  Buying : Asset;
  Amount : string;
  Price : string
}.

Section Model.
Context `{NumberOps}.

Record OrderConstraints : Type := mkOrderConstraints {
  PricePrecision : Z;
  VolumePrecision : Z;
  MinBaseVolume : Number
}.

(** [model.Order] *)
Record Order : Type := mkOrder {
  Pair : TradingPair;
  OrderAction_ : OrderAction;
  OrderType_ : OrderType;
  OrderPrice : Number;
  OrderVolume : Number;
  Timestamp : option Z
}.

(** [model.Trade]: an order that was filled, with its transaction. *)
Record Trade : Type := mkTrade {
  TradeOrder : Order;
  TradeTransactionID : string
}.

(** [model.OrderBook] *)
Record OrderBook : Type := mkOrderBook {
  Asks : list Order;
  Bids : list Order
}.

End Model.

(** ** Collaborators of the mirror strategy *)

(** The SDEX wrapper ([plugins.SDEX]): the venue the offers are placed on,
    with its cached liabilities.  [SDEX] is the state of that object.  The
    offer builders read it and answer with a builder, with [nil]
    ([None]: the offer is not viable) or with an error. *)
Class SDEXOps : Type := {
  SDEX : Type;
  ManageOfferBuilder : Type;
  ComputeIncrementalNativeAmountRaw : SDEX -> bool -> Q;
  AddLiabilities : SDEX -> Asset -> Asset -> Q -> Q -> Q -> SDEX;
  DeleteOffer : SDEX -> Offer -> ManageOfferBuilder;
  ModifyBuyOffer : SDEX -> Offer -> Q -> Q -> Q -> result (option ManageOfferBuilder);
  ModifySellOffer : SDEX -> Offer -> Q -> Q -> Q -> result (option ManageOfferBuilder);
  CreateBuyOffer : SDEX -> Asset -> Asset -> Q -> Q -> Q -> result (option ManageOfferBuilder);
  CreateSellOffer : SDEX -> Asset -> Asset -> Q -> Q -> Q -> result (option ManageOfferBuilder)
}.

(** [api.TradeAPI] of the backing exchange.  [Exchange] is the state of the
    remote venue; [AddOrder] submits an order and answers with a transaction
    identifier, with [nil] or with an error. *)
Class TradeAPI `{NumberOps} : Type := {
  Exchange : Type;
  GetOrderBook : Exchange -> TradingPair -> Z -> result OrderBook;
  AddOrder : Exchange -> Order -> result (option string) * Exchange
}.

(** [utils.PriceAsFloat] panics on a malformed price: [None]. *)
Class UtilsOps : Type := {
  PriceAsFloat : string -> option Q
}.

#[global] Instance OrderAction_eq_dec : EqDecision OrderAction.
Proof. solve_decision. Defined.

#[global] Instance OrderAction_countable : Countable OrderAction.
Proof.
  refine (inj_countable' (fun a => match a with OrderActionBuy => true | OrderActionSell => false end)
            (fun b : bool => if b then OrderActionBuy else OrderActionSell) _).
  intros []; reflexivity.
Defined.

(** ** The mirror strategy: reconciler and fill-offset tracker *)

Module Mirror.
Section Mirror.
Context `{NumberOps} `{SDEXOps} `{!TradeAPI} `{UtilsOps}.

(** [assetSurplus]: units of the base asset pending to be offset on the
    backing exchange, and the part of it already committed. *)
Record assetSurplus : Type := mkAssetSurplus {
  total : Number;
  committed : Number
}.

Definition makeAssetSurplus : assetSurplus :=
  {| total := NumberZero; committed := NumberZero |}.

(** The fields of [mirrorStrategy]; [sdex] and [tradeAPI] point to the
    collaborators, whose states are threaded separately. *)
Record mirrorStrategy : Type := mkMirrorStrategy {
  baseAsset : Asset;
  quoteAsset : Asset;
  primaryConstraints : OrderConstraints;
  backingPair : TradingPair;
  backingConstraints : OrderConstraints;
  orderbookDepth : Z;
  perLevelSpread : Q;
  volumeDivideBy : Q;
  offsetTrades : bool;
  baseSurplus : gmap OrderAction assetSurplus
}.

Definition set_baseSurplus (s : mirrorStrategy) (m : gmap OrderAction assetSurplus)
  : mirrorStrategy :=
  {| baseAsset := baseAsset s; quoteAsset := quoteAsset s;
     primaryConstraints := primaryConstraints s; backingPair := backingPair s;
     backingConstraints := backingConstraints s; orderbookDepth := orderbookDepth s;
     perLevelSpread := perLevelSpread s; volumeDivideBy := volumeDivideBy s;
     offsetTrades := offsetTrades s; baseSurplus := m |}.

(** The map built by [makeMirrorStrategy]. *)
Definition initialBaseSurplus : gmap OrderAction assetSurplus :=
  <[OrderActionSell := makeAssetSurplus]> (<[OrderActionBuy := makeAssetSurplus]> ∅).

(** A [build.TransactionMutator] of the operation list, tagged with the
    call that built it: [sdex.DeleteOffer], the [modifyOffer] argument or
    the [createOffer] argument. *)
Inductive TransactionMutator : Type :=
| DeleteOp (b : ManageOfferBuilder)
| ModifyOp (b : ManageOfferBuilder)
| CreateOp (b : ManageOfferBuilder).

Definition isDelete (op : TransactionMutator) : bool :=
  match op with DeleteOp _ => true | _ => false end.

Definition modifyFn : Type := SDEX -> Offer -> Q -> Q -> Q -> result (option ManageOfferBuilder).
Definition createFn : Type := SDEX -> Asset -> Asset -> Q -> Q -> Q -> result (option ManageOfferBuilder).

Definition epsilon : Q := 1 # 10000.

(** The old offer's price and volume as [doModifyOffer] compares them: for
    a buy offer the volume is multiplied by the original price and the
    price is inverted. *)
Definition canonicalOld (hackPriceInvertForBuyOrderChangeCheck : bool)
    (oldPrice oldVol : Number) : Number * Number :=
  if hackPriceInvertForBuyOrderChangeCheck
  then (InvertNumber oldPrice, Multiply oldVol oldPrice)
  else (oldPrice, oldVol).

Definition sameOrderParams (oldPrice oldVol price vol : Number) : bool :=
  EqualsPrecisionNormalized oldPrice price epsilon
  && EqualsPrecisionNormalized oldVol vol epsilon.

(** The [AddLiabilities] call of the three places that reserve capital:
    the selling amount comes first, so a buy offer passes volume times
    price first. *)
Definition reserve (hackPriceInvertForBuyOrderChangeCheck : bool)
    (selling buying : Asset) (vol price : Number) (incrementalNativeAmountRaw : Q)
    (sdex : SDEX) : SDEX :=
  if hackPriceInvertForBuyOrderChangeCheck
  then AddLiabilities sdex selling buying
         (AsFloat (Multiply vol price)) (AsFloat vol) incrementalNativeAmountRaw
  else AddLiabilities sdex selling buying
         (AsFloat vol) (AsFloat (Multiply vol price)) incrementalNativeAmountRaw.

(** [doModifyOffer] returns a new modifyOp, deleteOp, error. *)
Definition doModifyOffer (s : mirrorStrategy) (oldOffer : Offer) (newOrder : Order)
    (priceMultiplier : Q) (modifyOffer : modifyFn)
    (hackPriceInvertForBuyOrderChangeCheck : bool)
  : M SDEX (option TransactionMutator * option TransactionMutator) :=
  fun sdex =>
  let price := Scale (OrderPrice newOrder) priceMultiplier in
  let vol := Scale (OrderVolume newOrder) (1 / volumeDivideBy s) in
  match MustNumberFromString (Price oldOffer) (PricePrecision (primaryConstraints s)) with
  | None => (Panic, sdex)
  | Some oldPrice0 =>
  match MustNumberFromString (Amount oldOffer) (VolumePrecision (primaryConstraints s)) with
  | None => (Panic, sdex)
  | Some oldVol0 =>
    let (oldPrice, oldVol) :=
      canonicalOld hackPriceInvertForBuyOrderChangeCheck oldPrice0 oldVol0 in
    let incrementalNativeAmountRaw := ComputeIncrementalNativeAmountRaw sdex false in
    if sameOrderParams oldPrice oldVol price vol then
      (* update the cached liabilities if we keep the existing offer *)
      (Ok (None, None),
       reserve hackPriceInvertForBuyOrderChangeCheck (Selling oldOffer) (Buying oldOffer)
         oldVol oldPrice incrementalNativeAmountRaw sdex)
    else
      (* convert the precision from the backing exchange to the primary exchange *)
      let offerPrice := NumberByCappingPrecision price (PricePrecision (primaryConstraints s)) in
      let offerAmount := NumberByCappingPrecision vol (VolumePrecision (primaryConstraints s)) in
      if Qltb (AsFloat offerAmount) (AsFloat (MinBaseVolume (backingConstraints s))) then
        (Ok (None, Some (DeleteOp (DeleteOffer sdex oldOffer))), sdex)
      else
        match modifyOffer sdex oldOffer (AsFloat offerPrice) (AsFloat offerAmount)
                incrementalNativeAmountRaw with
        | Err e => (Err e, sdex)
        | Panic => (Panic, sdex)
        | Ok (Some mo) =>
            (* update the cached liabilities if we create a valid operation *)
            (Ok (Some (ModifyOp mo), None),
             reserve hackPriceInvertForBuyOrderChangeCheck (Selling oldOffer) (Buying oldOffer)
               offerAmount offerPrice incrementalNativeAmountRaw sdex)
        | Ok None =>
            (* since mo is nil we want to delete this offer *)
            (Ok (None, Some (DeleteOp (DeleteOffer sdex oldOffer))), sdex)
        end
  end
  end.

Definition appendOpt {A} (l : list A) (o : option A) : list A :=
  match o with Some a => l ++ [a] | None => l end.

(** The loop over the paired prefix, shared by both branches of
    [updateLevels]: [ops] and [deleteOps] are the two accumulators. *)
Fixpoint modifyLoop (s : mirrorStrategy) (pairs : list (Offer * Order))
    (priceMultiplier : Q) (modifyOffer : modifyFn) (hack : bool)
    (ops deleteOps : list TransactionMutator)
  : M SDEX (list TransactionMutator * list TransactionMutator) :=
  match pairs with
  | [] => ret (ops, deleteOps)
  | (oldOffer, newOrder) :: rest =>
      (r <- doModifyOffer s oldOffer newOrder priceMultiplier modifyOffer hack ;;
       modifyLoop s rest priceMultiplier modifyOffer hack
         (appendOpt ops (fst r)) (appendOpt deleteOps (snd r)))%go
  end.

(** The loop that creates offers for the remaining new orders. *)
Fixpoint createLoop (s : mirrorStrategy) (newOrders : list Order)
    (priceMultiplier : Q) (createOffer : createFn) (hack : bool)
    (ops : list TransactionMutator) : M SDEX (list TransactionMutator) :=
  match newOrders with
  | [] => ret ops
  | o :: rest =>
      fun sdex =>
      let price := AsFloat (Scale (OrderPrice o) priceMultiplier) in
      let vol := AsFloat (Scale (OrderVolume o) (1 / volumeDivideBy s)) in
      let incrementalNativeAmountRaw := ComputeIncrementalNativeAmountRaw sdex true in
      if Qltb vol (AsFloat (MinBaseVolume (backingConstraints s))) then
        createLoop s rest priceMultiplier createOffer hack ops sdex
      else
        match createOffer sdex (baseAsset s) (quoteAsset s) price vol
                incrementalNativeAmountRaw with
        | Err e => (Err e, sdex)
        | Panic => (Panic, sdex)
        | Ok (Some mo) =>
            createLoop s rest priceMultiplier createOffer hack (ops ++ [CreateOp mo])
              (if hack
               then AddLiabilities sdex (quoteAsset s) (baseAsset s) (vol * price) vol
                      incrementalNativeAmountRaw
               else AddLiabilities sdex (baseAsset s) (quoteAsset s) vol (vol * price)
                      incrementalNativeAmountRaw)
        | Ok None => createLoop s rest priceMultiplier createOffer hack ops sdex
        end
  end.

Definition updateLevels (s : mirrorStrategy) (oldOffers : list Offer)
    (newOrders : list Order) (modifyOffer : modifyFn) (createOffer : createFn)
    (priceMultiplier : Q) (hackPriceInvertForBuyOrderChangeCheck : bool)
  : M SDEX (list TransactionMutator) :=
  if (length oldOffers <=? length newOrders)%nat then
    (r <- modifyLoop s (combine oldOffers newOrders) priceMultiplier modifyOffer
            hackPriceInvertForBuyOrderChangeCheck [] [] ;;
     (* create offers for remaining new bids *)
     ops <- createLoop s (skipn (length oldOffers) newOrders) priceMultiplier createOffer
              hackPriceInvertForBuyOrderChangeCheck (fst r) ;;
     (* prepend deleteOps *)
     ret (snd r ++ ops))%go
  else
    (r <- modifyLoop s (combine oldOffers newOrders) priceMultiplier modifyOffer
            hackPriceInvertForBuyOrderChangeCheck [] [] ;;
     (* delete remaining prior offers *)
     fun sdex =>
       let deleteOps :=
         snd r ++ map (fun o => DeleteOp (DeleteOffer sdex o))
                      (skipn (length newOrders) oldOffers) in
       (Ok (deleteOps ++ fst r), sdex))%go.

(** [UpdateWithOps] builds the operations we want performed on the
    account. *)
Definition UpdateWithOps (s : mirrorStrategy) (ex : Exchange)
    (buyingAOffers sellingAOffers : list Offer) : M SDEX (list TransactionMutator) :=
  match GetOrderBook ex (backingPair s) (orderbookDepth s) with
  | Err e => fail e
  | Panic => fun sdex => (Panic, sdex)
  | Ok ob =>
      (* limit bids and asks to max 50 operations each *)
      let bids := firstn 50 (Bids ob) in
      let asks := firstn 50 (Asks ob) in
      (buyOps <- updateLevels s buyingAOffers bids ModifyBuyOffer CreateBuyOffer
                   (1 - perLevelSpread s) true ;;
       sellOps <- updateLevels s sellingAOffers asks ModifySellOffer CreateSellOffer
                    (1 + perLevelSpread s) false ;;
       fun sdex =>
         match Bids ob, sellingAOffers with
         | bid0 :: _, sell0 :: _ =>
             match PriceAsFloat (Price sell0) with
             | None => (Panic, sdex)
             | Some p =>
                 if Qleb p (AsFloat (OrderPrice bid0))
                 then (Ok (sellOps ++ buyOps), sdex)
                 else (Ok (buyOps ++ sellOps), sdex)
             end
         | _, _ => (Ok (buyOps ++ sellOps), sdex)
         end)%go
  end.

(** [baseVolumeToOffset]: the volume to offset and whether to offset at
    all.  A missing map entry is a nil dereference. *)
Definition baseVolumeToOffset (s : mirrorStrategy) (trade : Trade)
    (newOrderAction : OrderAction) : result (option Number) :=
  match baseSurplus s !! newOrderAction with
  | None => Panic
  | Some sp =>
      let uncommittedBase := Subtract (total sp) (committed sp) in
      if Qltb (AsFloat uncommittedBase)
              (AsFloat (Scale (MinBaseVolume (backingConstraints s)) (1 # 2)))
      then Ok None
      else
        let newVolume :=
          if Qltb (AsFloat (MinBaseVolume (backingConstraints s))) (AsFloat uncommittedBase)
          then uncommittedBase
          else
            (* we want to offset the MinBaseVolume and take a deficit *)
            MinBaseVolume (backingConstraints s) in
        Ok (Some (NumberByCappingPrecision newVolume
                    (VolumePrecision (backingConstraints s))))
  end.

Definition setTotal (sp : assetSurplus) (n : Number) : assetSurplus :=
  {| total := n; committed := committed sp |}.

Definition setCommitted (sp : assetSurplus) (n : Number) : assetSurplus :=
  {| total := total sp; committed := n |}.

(** The order [HandleFill] builds to offset a trade on the backing
    exchange: the backing exchange's trading pair, the reversed action,
    the trade's price capped to the backing precision. *)
Definition offsetOrder (s : mirrorStrategy) (trade : Trade)
    (newOrderAction : OrderAction) (newVolume : Number) : Order :=
  {| Pair := backingPair s;
     OrderAction_ := newOrderAction;
     OrderType_ := OrderTypeLimit;
     OrderPrice := NumberByCappingPrecision (OrderPrice (TradeOrder trade))
                     (PricePrecision (backingConstraints s));
     OrderVolume := newVolume;
     Timestamp := None |}.

(** [HandleFill]: runs under the strategy's mutex, so one call is one
    uninterrupted step on the pair (strategy, backing exchange). *)
Definition HandleFill (trade : Trade) (st : mirrorStrategy * Exchange)
  : result unit * (mirrorStrategy * Exchange) :=
  let (s, ex) := st in
  let newOrderAction := Reverse (OrderAction_ (TradeOrder trade)) in
  match baseSurplus s !! newOrderAction with
  | None => (Panic, st)
  | Some sp =>
      (* increase the baseSurplus for the additional amount to offset *)
      let sp1 := setTotal sp (Add (total sp) (OrderVolume (TradeOrder trade))) in
      let s1 := set_baseSurplus s (<[newOrderAction := sp1]> (baseSurplus s)) in
      match baseVolumeToOffset s1 trade newOrderAction with
      | Panic => (Panic, (s1, ex))
      | Err e => (Err e, (s1, ex))
      | Ok None => (Ok tt, (s1, ex))
      | Ok (Some newVolume) =>
          (* commit the newVolume that we are trying to use *)
          let sp2 := setCommitted sp1 (Add (committed sp1) newVolume) in
          let s2 := set_baseSurplus s1 (<[newOrderAction := sp2]> (baseSurplus s1)) in
          let newOrder := offsetOrder s trade newOrderAction newVolume in
          match AddOrder ex newOrder with
          | (Panic, ex') => (Panic, (s2, ex'))
          | (Err e, ex') =>
              (Err (Wrapf "error when offsetting trade" e), (s2, ex'))
          | (Ok None, ex') =>
              (Err (Errorf "error when offsetting trade: transactionID was <nil>"),
               (s2, ex'))
          | (Ok (Some transactionID), ex') =>
              (* update the baseSurplus on success *)
              let sp3 := setTotal sp2 (Subtract (total sp2) newVolume) in
              let sp4 := setCommitted sp3 (Subtract (committed sp3) newVolume) in
              (Ok tt,
               (set_baseSurplus s2 (<[newOrderAction := sp4]> (baseSurplus s2)), ex'))
          end
      end
  end.

(** "There is no index at which a modify or create operation precedes a
    delete operation." *)
Definition DeletesFirst (l : list TransactionMutator) : Prop :=
  forall (i j : nat) (a b : TransactionMutator),
    (i < j)%nat -> l !! i = Some a -> l !! j = Some b ->
    isDelete a = false -> isDelete b = true -> False.

(** The same as a test on the list. *)
Fixpoint deletesFirst (l : list TransactionMutator) : bool :=
  match l with
  | [] => true
  | op :: rest =>
      if isDelete op then deletesFirst rest
      else forallb (fun o => negb (isDelete o)) rest
  end.

Definition isCreate (op : TransactionMutator) : bool :=
  match op with CreateOp _ => true | _ => false end.

Definition isModify (op : TransactionMutator) : bool :=
  match op with ModifyOp _ => true | _ => false end.

(** The number of operations of a list that pass a test. *)
Definition countOps (test : TransactionMutator -> bool) (l : list TransactionMutator) : nat :=
  length (List.filter test l).

(** [PruneExistingOffers] deletes any extra offers: the mirror strategy
    deletes none and hands both lists back. *)
Definition PruneExistingOffers (s : mirrorStrategy) (buyingAOffers sellingAOffers : list Offer)
  : list TransactionMutator * list Offer * list Offer :=
  ([], buyingAOffers, sellingAOffers).

(** [GetFillHandlers] impl: the strategy itself when trades are offset,
    no handler ([nil]) otherwise. *)
Definition GetFillHandlers (s : mirrorStrategy) : result (list mirrorStrategy) :=
  if offsetTrades s then Ok [s] else Ok [].

End Mirror.
End Mirror.

(** ** The volume filter *)

(** [strconv.ParseFloat(s, 64)] ([None]: a parse error) and
    [fmt.Sprintf("%.7f", x)] of the Go library. *)
Class StrconvOps : Type := {
  ParseFloat : string -> option Q;
  Sprintf_7f : Q -> string
}.

(** [utils.IsSelling]: whether an operation sells the base asset for the
    quote asset of the configured pair. *)
Class IsSellingOps : Type := {
  IsSelling : Asset -> Asset -> Asset -> Asset -> result bool
}.

Module VolumeFilter.
Section VolumeFilter.
Context `{StrconvOps} `{IsSellingOps}.

Inductive volumeFilterMode : Type := volumeFilterModeExact | volumeFilterModeIgnore.

Definition parseVolumeFilterMode (mode : string) : result volumeFilterMode :=
  if String.eqb mode "exact" then Ok volumeFilterModeExact
  else if String.eqb mode "ignore" then Ok volumeFilterModeIgnore
  else Err (Errorf "invalid input mode").

Definition isExact (m : volumeFilterMode) : bool :=
  match m with volumeFilterModeExact => true | volumeFilterModeIgnore => false end.

(** The caps are pointers to floats: [None] is [nil]. *)
Record VolumeFilterConfig : Type := mkVolumeFilterConfig {
  SellBaseAssetCapInBaseUnits : option Q;
  SellBaseAssetCapInQuoteUnits : option Q;
  mode : volumeFilterMode;
  additionalMarketIDs : list string
}.

Record volumeFilter : Type := mkVolumeFilter {
  name : string;
  baseAsset : Asset;
  quoteAsset : Asset;
  config : VolumeFilterConfig
}.

(** [txnbuild.ManageSellOffer]: the operation the filter looks at. *)
Record ManageSellOffer : Type := mkManageSellOffer {
  Selling : Asset;
  Buying : Asset;
  Amount : string;
  Price : string;
  OfferID : Z
}.

Definition setAmount (op : ManageSellOffer) (a : string) : ManageSellOffer :=
  {| Selling := Selling op; Buying := Buying op; Amount := a;
     Price := Price op; OfferID := OfferID op |}.

(** [queries.DailyVolume] *)
Record DailyVolume : Type := mkDailyVolume {
  BaseVol : Q;
  QuoteVol : Q
}.

Definition isEmpty (c : VolumeFilterConfig) : bool :=
  match SellBaseAssetCapInBaseUnits c, SellBaseAssetCapInQuoteUnits c with
  | None, None => true
  | _, _ => false
  end.

Definition Validate (c : VolumeFilterConfig) : result unit :=
  if isEmpty c then Err (Errorf "the volumeFilterConfig was empty") else Ok tt.

(** Dereference of a float pointer. *)
Definition deref {S} (p : option Q) : M S Q :=
  fun s => match p with Some x => (Ok x, s) | None => (Panic, s) end.

Definition get {S} : M S S := fun s => (Ok s, s).

Definition setBase (c : VolumeFilterConfig) (x : Q) : VolumeFilterConfig :=
  {| SellBaseAssetCapInBaseUnits := Some x;
     SellBaseAssetCapInQuoteUnits := SellBaseAssetCapInQuoteUnits c;
     mode := mode c; additionalMarketIDs := additionalMarketIDs c |}.

Definition setQuote (c : VolumeFilterConfig) (x : Q) : VolumeFilterConfig :=
  {| SellBaseAssetCapInBaseUnits := SellBaseAssetCapInBaseUnits c;
     SellBaseAssetCapInQuoteUnits := Some x;
     mode := mode c; additionalMarketIDs := additionalMarketIDs c |}.

(** [volumeFilterFn]: [dailyOTB] is read, [dailyTBB] is read and written
    through its pointers, so it is the state.  The result is the operation
    to keep, or [nil] ([None]) for a dropped one.  The triples are
    [(opToReturn, newAmountBeingSold, keepSellingBase)] after the base
    block and [(opToReturn, newAmountBeingSold, keepSellingQuote)] after
    the quote block.  Sums, differences and comparisons are read over
    exact rationals here; [Binary64.volumeFilterFn] below evaluates the
    same arithmetic in binary64, as the code does. *)
Definition volumeFilterFn (f : volumeFilter) (dailyOTB : VolumeFilterConfig)
    (op : ManageSellOffer) : M VolumeFilterConfig (option ManageSellOffer) :=
  match IsSelling (baseAsset f) (quoteAsset f) (Selling op) (Buying op) with
  | Err e => fail (Wrapf "error when running the isSelling check for offer" e)
  | Panic => fun s => (Panic, s)
  | Ok isSell =>
  match ParseFloat (Price op) with
  | None => fail (Errorf "could not convert price to float")
  | Some sellPrice =>
  match ParseFloat (Amount op) with
  | None => fail (Errorf "could not convert amount to float")
  | Some amountValueUnitsBeingSold =>
    if isSell then
      (b <- match SellBaseAssetCapInBaseUnits (config f) with
            | Some cap =>
                (otb <- deref (SellBaseAssetCapInBaseUnits dailyOTB) ;;
                 dailyTBB <- get ;;
                 tbb <- deref (SellBaseAssetCapInBaseUnits dailyTBB) ;;
                 let projectedSoldInBaseUnits := otb + tbb + amountValueUnitsBeingSold in
                 let keepSellingBase := Qleb projectedSoldInBaseUnits cap in
                 if isExact (mode (config f)) && negb keepSellingBase then
                   let newAmount := cap - otb - tbb in
                   if Qltb 0 newAmount
                   then ret (setAmount op (Sprintf_7f newAmount), newAmount, true)
                   else ret (op, amountValueUnitsBeingSold, keepSellingBase)
                 else ret (op, amountValueUnitsBeingSold, keepSellingBase))
            | None => ret (op, amountValueUnitsBeingSold, true)
            end ;;
       let '(op1, newAmountBeingSold1, keepSellingBase) := b in
       q <- match SellBaseAssetCapInQuoteUnits (config f) with
            | Some cap =>
                (otb <- deref (SellBaseAssetCapInQuoteUnits dailyOTB) ;;
                 dailyTBB <- get ;;
                 tbb <- deref (SellBaseAssetCapInQuoteUnits dailyTBB) ;;
                 let projectedSoldInQuoteUnits :=
                   otb + tbb + newAmountBeingSold1 * sellPrice in
                 let keepSellingQuote := Qleb projectedSoldInQuoteUnits cap in
                 if isExact (mode (config f)) && negb keepSellingQuote then
                   let newAmount := (cap - otb - tbb) / sellPrice in
                   if Qltb 0 newAmount
                   then ret (setAmount op1 (Sprintf_7f newAmount), newAmount, true)
                   else ret (op1, newAmountBeingSold1, keepSellingQuote)
                 else ret (op1, newAmountBeingSold1, keepSellingQuote))
            | None => ret (op1, newAmountBeingSold1, true)
            end ;;
       let '(opToReturn, newAmountBeingSold, keepSellingQuote) := q in
       if keepSellingBase && keepSellingQuote then
         (* update the dailyTBB to include the additional amounts *)
         (dailyTBB <- get ;;
          tbbBase <- deref (SellBaseAssetCapInBaseUnits dailyTBB) ;;
          modify (fun c => setBase c (tbbBase + newAmountBeingSold)) ;;;
          dailyTBB' <- get ;;
          tbbQuote <- deref (SellBaseAssetCapInQuoteUnits dailyTBB') ;;
          modify (fun c => setQuote c (tbbQuote + newAmountBeingSold * sellPrice)) ;;;
          ret (Some opToReturn))
       else
         (* we don't want to keep it so return the dropped command *)
         ret None)%go%Q
    else
      (* TODO buying side *)
      (* we don't want to keep it so return the dropped command *)
      ret None
  end
  end
  end.

(** Modelled from the spec: [filterOps], the driver that [Apply] hands
    its inner function to, is not part of the embedded sources.  Following
    section 4.3 of the specification, the operations are processed in list
    order; an operation for which the function returns an operation stays
    in the output with that (possibly shrunk) operation, an operation for
    which it returns [nil] is dropped, and an error aborts the call. *)
Fixpoint filterOps {S} (filterName : string) (baseAsset_ quoteAsset_ : Asset)
    (sellingOffers buyingOffers : list Offer) (ops : list ManageSellOffer)
    (fn : ManageSellOffer -> M S (option ManageSellOffer)) : M S (list ManageSellOffer) :=
  match ops with
  | [] => ret []
  | op :: rest =>
      (r <- fn op ;;
       kept <- filterOps filterName baseAsset_ quoteAsset_ sellingOffers buyingOffers rest fn ;;
       ret (match r with Some op' => op' :: kept | None => kept end))%go
  end.

(** What [dailyVolumeByDateQuery.QueryRow] hands back: a value whose
    dynamic type is [*queries.DailyVolume], or something else. *)
Inductive QueryValue : Type :=
| IsDailyVolume (dv : DailyVolume)
| OtherValue.

Definition emptyTBB : VolumeFilterConfig :=
  {| SellBaseAssetCapInBaseUnits := Some 0%Q;
     SellBaseAssetCapInQuoteUnits := Some 0%Q;
     mode := volumeFilterModeExact; additionalMarketIDs := [] |}.

Definition makeOTB (dv : DailyVolume) : VolumeFilterConfig :=
  {| SellBaseAssetCapInBaseUnits := Some (BaseVol dv);
     SellBaseAssetCapInQuoteUnits := Some (QuoteVol dv);
     mode := volumeFilterModeExact; additionalMarketIDs := [] |}.

(** [Apply], with the answer of the daily-volume query as an input.  The
    second component is the final [dailyTBB], the local that the inner
    function closes over. *)
Definition ApplyRun (f : volumeFilter) (queryResult : result QueryValue)
    (ops : list ManageSellOffer) (sellingOffers buyingOffers : list Offer)
  : result (list ManageSellOffer) * VolumeFilterConfig :=
  match queryResult with
  | Err e => (Err (Wrapf "could not load dailyValuesByDate for today" e), emptyTBB)
  | Panic => (Panic, emptyTBB)
  | Ok OtherValue =>
      (Err (Errorf "incorrect type returned from DailyVolumeByDate query"), emptyTBB)
  | Ok (IsDailyVolume dailyValuesBaseSold) =>
      (* daily on-the-books *)
      let dailyOTB := makeOTB dailyValuesBaseSold in
      (* daily to-be-booked starts out as empty *)
      let dailyTBB := emptyTBB in
      let innerFn := fun op => volumeFilterFn f dailyOTB op in
      match filterOps (name f) (baseAsset f) (quoteAsset f) sellingOffers buyingOffers
              ops innerFn dailyTBB with
      | (Err e, tbb) => (Err (Wrapf "could not apply filter" e), tbb)
      | (r, tbb) => (r, tbb)
      end
  end.

Definition Apply (f : volumeFilter) (queryResult : result QueryValue)
    (ops : list ManageSellOffer) (sellingOffers buyingOffers : list Offer)
  : result (list ManageSellOffer) :=
  fst (ApplyRun f queryResult ops sellingOffers buyingOffers).

(** The string a mode constant stands for: [string(mode)]. *)
Definition modeString (m : volumeFilterMode) : string :=
  match m with
  | volumeFilterModeExact => "exact"
  | volumeFilterModeIgnore => "ignore"
  end.

End VolumeFilter.
End VolumeFilter.

(** ** The sell-side TWAP level provider *)

(** Collaborators of the level provider: the volume filter of the day (in
    the version the provider is written against), the rate offset and the
    seeded random source ([rand.Rand], whose state [Float64] advances). *)
Class TwapOps : Type := {
  twapVolumeFilter : Type;
  isSellingBase : twapVolumeFilter -> bool;
  mustGetBaseAssetCapInBaseUnits : twapVolumeFilter -> result Q;
  rateOffset : Type;
  offsetApply : rateOffset -> Q -> Q * bool;
  Rand : Type;
  NewRand : Z -> Rand;
  Float64 : Rand -> Q * Rand
}.

Module Twap.
Section Twap.
Context `{NumberOps} `{TwapOps}.

Definition secondsInHour : Z := 60 * 60.
Definition secondsInDay : Z := 24 * secondsInHour.

(** Times are Unix seconds in UTC. *)
Definition floorDate (t : Z) : Z := t - t mod secondsInDay.
Definition ceilDate (t : Z) : Z := floorDate t + secondsInDay.
(** [time.Weekday]: Sunday is 0; the first of January 1970 was a Thursday. *)
Definition Weekday (t : Z) : Z := (t / secondsInDay + 4) mod 7.
(** The day a date string stands for. *)
Definition dateOf (t : Z) : Z := t / secondsInDay.

Record dailyVolumeValues : Type := mkDailyVolumeValues {
  baseVol : Q;
  quoteVol : Q
}.

(** What one scheduling call sees of the outside: the clock, the
    daily-volume store and the price feed. *)
Record World : Type := mkWorld {
  now : Z;
  dailyValuesByDate : twapVolumeFilter -> Z -> result dailyVolumeValues;
  GetPrice : result Q
}.

Record dynamicBucketValues : Type := mkDynamicBucketValues {
  isNew : bool;
  roundID_ : Z;
  dayBaseSold : Q;
  baseSold : Q
}.

Record bucketInfo : Type := mkBucketInfo {
  ID : Z;
  startTime : Z;
  endTime : Z;
  totalBuckets : Z;
  totalBucketsTargeted : Z;
  dayBaseSoldStart : Q;
  dayBaseCapacity : Q;
  baseSurplusIncluded : Q;
  baseCapacity : Q;
  minOrderSizeBase : Q;
  dynamicValues : dynamicBucketValues
}.

Definition dayBaseRemaining (b : bucketInfo) : Q :=
  dayBaseCapacity b - dayBaseSold (dynamicValues b).

Definition baseRemaining (b : bucketInfo) : Q :=
  baseCapacity b - baseSold (dynamicValues b).

Record roundInfo : Type := mkRoundInfo {
  roundInfoID : Z;
  bucketID : Z;
  roundNow : Z;
  secondsElapsedToday : Z;
  sizeBaseCapped : Q;
  price : Q
}.

(** [api.Level] *)
Record Level : Type := mkLevel {
  LevelPrice : Number;
  LevelAmount : Number
}.

Record sellTwapLevelProvider : Type := mkSellTwapLevelProvider {
  offset : rateOffset;
  orderConstraints : OrderConstraints;
  dowFilter : list twapVolumeFilter;
  numHoursToSell : Z;
  parentBucketSizeSeconds : Z;
  distributeSurplusOverRemainingIntervalsPercentCeiling : Q;
  exponentialSmoothingFactor : Q;
  minChildOrderSizePercentOfParent : Q;
  random : Rand;
  (* uninitialized *)
  activeBucket : option bucketInfo;
  previousRoundID : option Z
}.

(** [makeSellTwapLevelProvider] is a factory method; [dowFilter] is an
    array of seven filters. *)
Definition makeSellTwapLevelProvider (offset_ : rateOffset)
    (orderConstraints_ : OrderConstraints) (dowFilter_ : list twapVolumeFilter)
    (numHoursToSell_ parentBucketSizeSeconds_ : Z)
    (ceiling_ smoothing_ minChild_ : Q) (randSeed : Z)
  : result sellTwapLevelProvider :=
  if (numHoursToSell_ <=? 0) || (24 <? numHoursToSell_) then
    Err (Errorf "invalid number of hours to sell")
  else if (parentBucketSizeSeconds_ <=? 0) || (secondsInDay <? parentBucketSizeSeconds_) then
    Err (Errorf "invalid value for parentBucketSizeSeconds")
  else if negb (Z.rem secondsInDay parentBucketSizeSeconds_ =? 0) then
    Err (Errorf "parentBucketSizeSeconds needs to perfectly divide secondsInDay")
  else if Qltb ceiling_ 0 || Qltb 1 ceiling_ then
    Err (Errorf "distributeSurplusOverRemainingIntervalsPercentCeiling is invalid")
  else if Qltb smoothing_ 0 || Qltb 1 smoothing_ then
    Err (Errorf "exponentialSmoothingFactor is invalid")
  else if Qltb minChild_ 0 || Qltb 1 minChild_ then
    Err (Errorf "minChildOrderSizePercentOfParent is invalid")
  else if negb (forallb isSellingBase dowFilter_) then
    Err (Errorf "volume filter was not selling the base asset as expected")
  else
    Ok {| offset := offset_; orderConstraints := orderConstraints_;
          dowFilter := dowFilter_; numHoursToSell := numHoursToSell_;
          parentBucketSizeSeconds := parentBucketSizeSeconds_;
          distributeSurplusOverRemainingIntervalsPercentCeiling := ceiling_;
          exponentialSmoothingFactor := smoothing_;
          minChildOrderSizePercentOfParent := minChild_;
          random := NewRand randSeed;
          activeBucket := None; previousRoundID := None |}.

Definition makeFirstBucketFrame (p : sellTwapLevelProvider) (w : World)
    (volFilter : twapVolumeFilter) (startTime_ secondsElapsedToday_ bID rID : Z)
  : result bucketInfo :=
  let endTime_ := ceilDate (now w) in
  let totalBuckets_ :=
    ceil_int64 (inject_Z (endTime_ - startTime_) / inject_Z (parentBucketSizeSeconds p)) in
  let totalBucketsTargeted_ :=
    ceil_int64 (inject_Z (numHoursToSell p * secondsInHour)
                / inject_Z (parentBucketSizeSeconds p)) in
  match mustGetBaseAssetCapInBaseUnits volFilter with
  | Err e => Err (Wrapf "could not fetch base asset cap in base units" e)
  | Panic => Panic
  | Ok dayBaseCapacity_ =>
  match dailyValuesByDate w volFilter (dateOf (now w)) with
  | Err e => Err (Wrapf "could not fetch daily values for today" e)
  | Panic => Panic
  | Ok dailyVolumeValues_ =>
      let dayBaseSoldStart_ := baseVol dailyVolumeValues_ in
      let baseSurplus := 0%Q in
      let baseCapacity_ := (dayBaseCapacity_ / inject_Z totalBucketsTargeted_)%Q in
      let minOrderSizeBase_ := (minChildOrderSizePercentOfParent p * baseCapacity_)%Q in
      (* the first bucket frame does not have anything sold beyond the
         starting values *)
      Ok {| ID := bID; startTime := startTime_; endTime := endTime_;
            totalBuckets := totalBuckets_;
            totalBucketsTargeted := totalBucketsTargeted_;
            dayBaseSoldStart := dayBaseSoldStart_;
            dayBaseCapacity := dayBaseCapacity_;
            baseSurplusIncluded := baseSurplus;
            baseCapacity := baseCapacity_;
            minOrderSizeBase := minOrderSizeBase_;
            dynamicValues := {| isNew := true; roundID_ := rID;
                                dayBaseSold := dayBaseSoldStart_;
                                baseSold := 0%Q |} |}
  end
  end.

Definition set_dynamicValues (b : bucketInfo) (d : dynamicBucketValues) : bucketInfo :=
  {| ID := ID b; startTime := startTime b; endTime := endTime b;
     totalBuckets := totalBuckets b; totalBucketsTargeted := totalBucketsTargeted b;
     dayBaseSoldStart := dayBaseSoldStart b; dayBaseCapacity := dayBaseCapacity b;
     baseSurplusIncluded := baseSurplusIncluded b; baseCapacity := baseCapacity b;
     minOrderSizeBase := minOrderSizeBase b; dynamicValues := d |}.

(** [updateExistingBucket] works on a copy of the active bucket and gives
    the copy fresh dynamic values; the active bucket itself is untouched.
    The caller has checked that there is an active bucket. *)
Definition updateExistingBucket (p : sellTwapLevelProvider) (w : World)
    (volFilter : twapVolumeFilter) (rID : Z) : result bucketInfo :=
  match activeBucket p with
  | None => Panic
  | Some bucket =>
      match dailyValuesByDate w volFilter (dateOf (now w)) with
      | Err e => Err (Wrapf "could not fetch daily values for today" e)
      | Panic => Panic
      | Ok dailyVolumeValues_ =>
          let dayBaseSold_ := baseVol dailyVolumeValues_ in
          Ok (set_dynamicValues bucket
                {| isNew := false; roundID_ := rID; dayBaseSold := dayBaseSold_;
                   baseSold := (dayBaseSold_ - dayBaseSoldStart bucket)%Q |})
      end
  end.

(** Using a geometric series calculation:
    Sn = a * (r^n - 1) / (r - 1), so a = Sn * (r - 1) / (r^n - 1).
    The expression is read over exact rationals here;
    [Binary64.firstDistributionOfBaseSurplus] below evaluates it in
    binary64, as the code does. *)
Definition firstDistributionOfBaseSurplus (p : sellTwapLevelProvider)
    (totalSurplus : Q) (totalRemainingBuckets : Z) : Q :=
  let Sn := totalSurplus in
  let r := exponentialSmoothingFactor p in
  let n := Qceiling (distributeSurplusOverRemainingIntervalsPercentCeiling p
                     * inject_Z totalRemainingBuckets) in
  let a := (Sn * (r - 1) / (Qpower r n - 1))%Q in
  a.

Definition cutoverToNewBucket (p : sellTwapLevelProvider) (w : World)
    (volFilter : twapVolumeFilter) (startTime_ secondsElapsedToday_ bID rID : Z)
  : result bucketInfo :=
  match activeBucket p with
  | None => Panic
  | Some active =>
      if negb (bID =? wrap64 (ID active + 1)) then
        (* TODO think about day boundaries!! *)
        Err (Errorf "new bucketID was not one more than the previous bucketID")
      else
        (* start from a new bucket *)
        match makeFirstBucketFrame p w volFilter startTime_ secondsElapsedToday_ bID rID with
        | Err e =>
            Err (Wrapf "unable to make first bucket frame when cutting over with new bucketID" e)
        | Panic => Panic
        | Ok bucket =>
            (* update values that will change from a brand new bucket *)
            let thisBucketDayBaseSoldStart := dayBaseSold (dynamicValues active) in
            let thisBucketDayBaseSold := dayBaseSoldStart bucket in
            (* the total surplus remaining up until this point gets
               distributed over the remaining buckets *)
            let averageBaseCapacity := baseCapacity bucket in
            let numPreviousBuckets := bID in
            let expectedSold := (averageBaseCapacity * inject_Z numPreviousBuckets)%Q in
            let totalSurplus := (expectedSold - thisBucketDayBaseSoldStart)%Q in
            let totalRemainingBuckets := wrap64 (totalBuckets bucket - numPreviousBuckets) in
            let baseSurplusIncluded_ :=
              firstDistributionOfBaseSurplus p totalSurplus totalRemainingBuckets in
            Ok {| ID := ID bucket; startTime := startTime bucket; endTime := endTime bucket;
                  totalBuckets := totalBuckets bucket;
                  totalBucketsTargeted := totalBucketsTargeted bucket;
                  dayBaseSoldStart := thisBucketDayBaseSoldStart;
                  dayBaseCapacity := dayBaseCapacity bucket;
                  baseSurplusIncluded := baseSurplusIncluded_;
                  baseCapacity := (averageBaseCapacity + baseSurplusIncluded_)%Q;
                  minOrderSizeBase := minOrderSizeBase bucket;
                  dynamicValues :=
                    {| isNew := true; roundID_ := rID;
                       dayBaseSold := thisBucketDayBaseSold;
                       baseSold := (thisBucketDayBaseSold - thisBucketDayBaseSoldStart)%Q |} |}
        end
  end.

(** The bucket index of a call: seconds elapsed today divided by the
    bucket size (an integer division, which panics on a zero divisor). *)
Definition bucketIndex (p : sellTwapLevelProvider) (w : World) : Z :=
  wrap64 (Z.quot (now w - floorDate (now w)) (parentBucketSizeSeconds p)).

Definition makeBucketInfo (p : sellTwapLevelProvider) (w : World)
    (volFilter : twapVolumeFilter) (rID : Z) : result bucketInfo :=
  let startTime_ := floorDate (now w) in
  let secondsElapsedToday_ := now w - startTime_ in
  if parentBucketSizeSeconds p =? 0 then Panic
  else
    let bID := bucketIndex p w in
    match activeBucket p with
    | None =>
        match makeFirstBucketFrame p w volFilter startTime_ secondsElapsedToday_ bID rID with
        | Err e => Err (Wrapf "could not make first bucket" e)
        | r => r
        end
    | Some active =>
        if bID =? ID active then
          match updateExistingBucket p w volFilter rID with
          | Err e => Err (Wrapf "could not update existing bucket" e)
          | r => r
          end
        else cutoverToNewBucket p w volFilter startTime_ secondsElapsedToday_ bID rID
    end.

(** [roundID] is a [uint64]. *)
Definition makeRoundID (p : sellTwapLevelProvider) : Z :=
  match previousRoundID p with
  | None => 0
  | Some r => (r + 1) mod 2 ^ 64
  end.

(** [makeRoundInfo] draws from the random source when the bucket has more
    left than the minimum order size, and does so before it asks the price
    feed: the new state of the source is returned in every case. *)
Definition makeRoundInfo (p : sellTwapLevelProvider) (w : World) (rID : Z)
    (bucket : bucketInfo) : result roundInfo * Rand :=
  let secondsElapsedToday_ := now w - startTime bucket in
  let '(sizeBaseCapped_, rnd) :=
    if Qleb (baseRemaining bucket) (minOrderSizeBase bucket) then
      (baseRemaining bucket, random p)
    else
      let (x, rnd') := Float64 (random p) in
      ((minOrderSizeBase bucket + x * (baseRemaining bucket - minOrderSizeBase bucket))%Q,
       rnd') in
  match GetPrice w with
  | Err e => (Err (Wrapf "could not get price from feed" e), rnd)
  | Panic => (Panic, rnd)
  | Ok price_ =>
      let (adjustedPrice, wasModified) := offsetApply (offset p) price_ in
      (Ok {| roundInfoID := rID; bucketID := ID bucket; roundNow := now w;
             secondsElapsedToday := secondsElapsedToday_;
             sizeBaseCapped := sizeBaseCapped_; price := adjustedPrice |}, rnd)
  end.

Definition set_random (p : sellTwapLevelProvider) (rnd : Rand) : sellTwapLevelProvider :=
  {| offset := offset p; orderConstraints := orderConstraints p;
     dowFilter := dowFilter p; numHoursToSell := numHoursToSell p;
     parentBucketSizeSeconds := parentBucketSizeSeconds p;
     distributeSurplusOverRemainingIntervalsPercentCeiling :=
       distributeSurplusOverRemainingIntervalsPercentCeiling p;
     exponentialSmoothingFactor := exponentialSmoothingFactor p;
     minChildOrderSizePercentOfParent := minChildOrderSizePercentOfParent p;
     random := rnd;
     activeBucket := activeBucket p; previousRoundID := previousRoundID p |}.

Definition saveRound (p : sellTwapLevelProvider) (bucket : bucketInfo) (rID : Z)
  : sellTwapLevelProvider :=
  {| offset := offset p; orderConstraints := orderConstraints p;
     dowFilter := dowFilter p; numHoursToSell := numHoursToSell p;
     parentBucketSizeSeconds := parentBucketSizeSeconds p;
     distributeSurplusOverRemainingIntervalsPercentCeiling :=
       distributeSurplusOverRemainingIntervalsPercentCeiling p;
     exponentialSmoothingFactor := exponentialSmoothingFactor p;
     minChildOrderSizePercentOfParent := minChildOrderSizePercentOfParent p;
     random := random p;
     activeBucket := Some bucket; previousRoundID := Some rID |}.

(** [GetLevels] impl.: one call of the scheduler in the world [w]. *)
Definition GetLevels (maxAssetBase maxAssetQuote : Q) (w : World)
  : M sellTwapLevelProvider (list Level) :=
  fun p =>
  match dowFilter p !! Z.to_nat (Weekday (now w)) with
  | None => (Panic, p)
  | Some volFilter =>
      let rID := makeRoundID p in
      match makeBucketInfo p w volFilter rID with
      | Err e => (Err (Wrapf "unable to make bucketInfo" e), p)
      | Panic => (Panic, p)
      | Ok bucket =>
          match makeRoundInfo p w rID bucket with
          | (Err e, rnd) => (Err (Wrapf "unable to make roundInfo" e), set_random p rnd)
          | (Panic, rnd) => (Panic, set_random p rnd)
          | (Ok round, rnd) =>
              (* save bucket and round for future rounds *)
              (Ok [ {| LevelPrice :=
                         NumberFromFloat (price round)
                           (PricePrecision (orderConstraints p));
                       LevelAmount :=
                         NumberFromFloat (sizeBaseCapped round)
                           (VolumePrecision (orderConstraints p)) |} ],
               saveRound (set_random p rnd) bucket (roundInfoID round))
          end
      end
  end.

(** The shape the active bucket has in every state the scheduler reaches:
    its index lies within its day's buckets, and the buckets tile the day. *)
Definition wellFormed (p : sellTwapLevelProvider) : Prop :=
  match activeBucket p with
  | None => True
  | Some b =>
      0 <= ID b < totalBuckets b
      /\ totalBuckets b * parentBucketSizeSeconds p = secondsInDay
      /\ endTime b - startTime b = secondsInDay
  end.

(** The provider after a series of calls, one per world, whatever each call
    returned. *)
Fixpoint runCalls (maxAssetBase maxAssetQuote : Q) (ws : list World)
    (p : sellTwapLevelProvider) : sellTwapLevelProvider :=
  match ws with
  | [] => p
  | w :: rest =>
      runCalls maxAssetBase maxAssetQuote rest (snd (GetLevels maxAssetBase maxAssetQuote w p))
  end.

(** The sum [a + a r + ... + a r^(n-1)] of the geometric series of the
    comment on [firstDistributionOfBaseSurplus]. *)
Fixpoint geometricSum (a r : Q) (n : nat) : Q :=
  match n with
  | O => 0
  | S n' => (a + r * geometricSum a r n')%Q
  end.

End Twap.
End Twap.

(** ** The float arithmetic in binary64 *)

(** Above, a [float64] is read as an exact rational.  That reading keeps
    which expression the code evaluates and which branch it takes, but not
    what rounding does to a result.  This module evaluates the arithmetic
    of [volumeFilterFn] and the formula of [firstDistributionOfBaseSurplus]
    as the Go code does, in IEEE binary64 (Rocq's primitive floats, one
    rounding per operation, no fused multiply-add), so that their values
    can be computed exactly on concrete inputs. *)
Module Binary64.
Local Open Scope float_scope.

(** The arithmetic of [volumeFilterFn] for a sell of the base asset, after
    its price and amount were parsed: the two caps of the configuration
    ([None] is nil), whether the mode is exact, the on-the-books and the
    to-be-booked values.  The result is [None] for a dropped operation and
    otherwise the amount sold with the two new to-be-booked totals. *)
Definition volumeFilterFn (capInBaseUnits capInQuoteUnits : option float) (exact : bool)
    (otbBase otbQuote tbbBase tbbQuote sellPrice amountValueUnitsBeingSold : float)
  : option (float * float * float) :=
  let '(newAmountBeingSold1, keepSellingBase) :=
    match capInBaseUnits with
    | Some cap =>
        let projectedSoldInBaseUnits := otbBase + tbbBase + amountValueUnitsBeingSold in
        let keepSellingBase := projectedSoldInBaseUnits <=? cap in
        if exact && negb keepSellingBase then
          let newAmount := cap - otbBase - tbbBase in
          if 0 <? newAmount then (newAmount, true)
          else (amountValueUnitsBeingSold, keepSellingBase)
        else (amountValueUnitsBeingSold, keepSellingBase)
    | None => (amountValueUnitsBeingSold, true)
    end in
  let '(newAmountBeingSold, keepSellingQuote) :=
    match capInQuoteUnits with
    | Some cap =>
        let projectedSoldInQuoteUnits :=
          otbQuote + tbbQuote + newAmountBeingSold1 * sellPrice in
        let keepSellingQuote := projectedSoldInQuoteUnits <=? cap in
        if exact && negb keepSellingQuote then
          let newAmount := (cap - otbQuote - tbbQuote) / sellPrice in
          if 0 <? newAmount then (newAmount, true)
          else (newAmountBeingSold1, keepSellingQuote)
        else (newAmountBeingSold1, keepSellingQuote)
    | None => (newAmountBeingSold1, true)
    end in
  if keepSellingBase && keepSellingQuote
  then Some (newAmountBeingSold, tbbBase + newAmountBeingSold,
             tbbQuote + newAmountBeingSold * sellPrice)
  else None.

(** [float64(i)] for an [int64] value. *)
Definition ofInt64 (z : Z) : float :=
  if (z <? 0)%Z then - of_uint63 (Uint63.of_Z (- z)) else of_uint63 (Uint63.of_Z z).

(** The whole number a float is, if it is one (and below 2^63 in size). *)
Definition wholeZ (x : float) : option Z :=
  match Prim2SF x with
  | S754_zero _ => Some 0%Z
  | S754_finite s m e =>
      let sign := if s then (-1)%Z else 1%Z in
      if (0 <=? e)%Z then
        if (Z.pos m * 2 ^ e <? 2 ^ 63)%Z then Some (sign * (Z.pos m * 2 ^ e))%Z else None
      else if (Z.pos m mod 2 ^ (- e) =? 0)%Z then Some (sign * (Z.pos m / 2 ^ (- e)))%Z
      else None
  | _ => None
  end.

(** [math.Ceil]: the least whole number not below [x]; infinities and NaN
    are returned as they are. *)
Definition Ceil (x : float) : float :=
  match Prim2SF x with
  | S754_finite s m e =>
      if (0 <=? e)%Z then x
      else
        let q := (Z.pos m / 2 ^ (- e))%Z in
        let exact := (Z.pos m mod 2 ^ (- e) =? 0)%Z in
        if s then - ofInt64 q
        else ofInt64 (if exact then q else q + 1)
  | _ => x
  end.

(** The loop of [math.Pow] over the bits of a whole exponent, lowest bit
    first: [a1 * 2^ae] is the answer so far, [x1 * 2^xe] the current power
    of the base, with [x1] kept in [0.5, 1). *)
Fixpoint powLoop (i : positive) (a1 : float) (ae : Z) (x1 : float) (xe : Z) : float * Z :=
  if ((xe <? - 2 ^ 12) || (2 ^ 12 <? xe))%Z then (a1, (ae + xe)%Z)
  else
    let '(a1', ae') :=
      match i with
      | xO _ => (a1, ae)
      | _ => (a1 * x1, (ae + xe)%Z)
      end in
    let x2 := x1 * x1 in
    let xe2 := (2 * xe)%Z in
    let '(x1', xe') := if x2 <? 0.5 then (x2 + x2, (xe2 - 1)%Z) else (x2, xe2) in
    match i with
    | xH => (a1', ae')
    | xO rest | xI rest => powLoop rest a1' ae' x1' xe'
    end.

(** [math.Pow x y] of the Go library, transcribed for the inputs the
    formula gives it: a finite base that is not negative (the factory keeps
    the smoothing factor within [0, 1]) and a whole exponent (the horizon
    is a ceiling).  [None] stands for every other input. *)
Definition Pow (x y : float) : option float :=
  match wholeZ y with
  | None => None
  | Some n =>
      if (n =? 0)%Z || (x =? 1) then Some 1
      else if (n =? 1)%Z then Some x
      else if is_nan x || is_infinity x || (x <? 0) then None
      else if x =? 0 then
        Some (if (n <? 0)%Z then (if Z.odd n then 1 / x else infinity)
              else (if Z.odd n then x else 0))
      else
        let '(x1, xe) := Z.frexp x in
        let '(a1, ae) := powLoop (Z.to_pos (Z.abs n)) 1 0 x1 xe in
        Some (if (n <? 0)%Z then Z.ldexp (1 / a1) (- ae) else Z.ldexp a1 ae)
  end.

(** [firstDistributionOfBaseSurplus] with the smoothing factor and the
    distribution ceiling as binary64 values. *)
Definition firstDistributionOfBaseSurplus (totalSurplus exponentialSmoothingFactor
    distributeSurplusOverRemainingIntervalsPercentCeiling : float)
    (totalRemainingBuckets : Z) : option float :=
  let Sn := totalSurplus in
  let r := exponentialSmoothingFactor in
  let n := Ceil (distributeSurplusOverRemainingIntervalsPercentCeiling
                 * ofInt64 totalRemainingBuckets) in
  match Pow r n with
  | Some rn => Some (Sn * (r - 1.0) / (rn - 1.0))
  | None => None
  end.

End Binary64.

(** ** The process registry of [kelpos] *)

(** [Process] holds a started command with its pipes; the registry needs
    its zero value (what a lookup of a missing key yields in Go) and
    [p.Cmd.Process.Kill()], which returns an error or nil. *)
Class ProcessOps : Type := {
  Process : Type;
  zeroProcess : Process;
  Kill : Process -> option error
}.

Module Kelpos.
Section Kelpos.
Context `{ProcessOps}.

(** [KelpOS]: the registered processes by namespace.  Every method below
    holds [processLock] for its whole body, so it runs as one step. *)
Record KelpOS : Type := mkKelpOS {
  processes : gmap string Process
}.

Definition register (namespace : string) (p : Process) : M KelpOS unit :=
  fun kos =>
  match processes kos !! namespace with
  | Some _ => (Err (Errorf "process with namespace already exists"), kos)
  | None => (Ok tt, {| processes := <[namespace := p]> (processes kos) |})
  end.

(** [Unregister] unregisters the command at the provided namespace,
    returning an error if needed. *)
Definition Unregister (namespace : string) : M KelpOS unit :=
  fun kos =>
  match processes kos !! namespace with
  | Some _ => (Ok tt, {| processes := delete namespace (processes kos) |})
  | None => (Err (Errorf "process with namespace does not exist"), kos)
  end.

(** [GetProcess] gets the process tied to the provided namespace. *)
Definition GetProcess (namespace : string) (kos : KelpOS) : Process * bool :=
  match processes kos !! namespace with
  | Some p => (p, true)
  | None => (zeroProcess, false)
  end.

(** [SafeUnregister] ignores errors when unregistering. *)
Definition SafeUnregister (namespace : string) (kos : KelpOS) : KelpOS :=
  snd (Unregister namespace kos).

(** [Stop] unregisters and stops the command at the provided namespace.
    The state carries, next to the registry, the processes that were sent a
    kill signal so far. *)
Definition Stop (namespace : string) : M (KelpOS * list Process) unit :=
  fun '(kos, sent) =>
  let (p, exists_) := GetProcess namespace kos in
  if exists_ then
    match Unregister namespace kos with
    | (Err e, kos') =>
        (Err (Wrapf "could not stop command because of an error when unregistering command" e),
         (kos', sent))
    | (Panic, kos') => (Panic, (kos', sent))
    | (Ok _, kos') =>
        (match Kill p with Some e => Err e | None => Ok tt end, (kos', sent ++ [p]))
    end
  else (Err (Errorf "process with namespace does not exist"), (kos, sent)).

End Kelpos.
End Kelpos.

(** ** Reference collaborators

    Executable instances of the interfaces above, used to run the embedded
    functions on concrete inputs. *)


Module Reference.

(** *** Decimal strings *)

(** A decimal-only reading of [strconv.ParseFloat]: an optional sign,
    digits, and optionally a point followed by digits. *)
Fixpoint splitDot (s : string) : string * option string :=
  match s with
  | EmptyString => (EmptyString, None)
  | String c r =>
      if Ascii.eqb c "."%char then (EmptyString, Some r)
      else let (a, b) := splitDot r in (String c a, b)
  end.

Definition digitsToZ (s : string) : option Z :=
  option_map Z.of_uint (NilZero.uint_of_string s).

Definition parseUnsigned (s : string) : option Q :=
  match splitDot s with
  | (i, None) => option_map inject_Z (digitsToZ i)
  | (i, Some fr) =>
      match digitsToZ i, digitsToZ fr with
      | Some a, Some b =>
          let k := 10 ^ Z.of_nat (String.length fr) in
          Some (Qred ((a * k + b) # Z.to_pos k))
      | _, _ => None
      end
  end.

Definition parseDecimal (s : string) : option Q :=
  match s with
  | String "-"%char r => option_map Qopp (parseUnsigned r)
  | String "+"%char r => parseUnsigned r
  | _ => parseUnsigned s
  end.

(** Rounding to the nearest integer, ties to even. *)
Definition roundHalfEven (q : Q) : Z :=
  let f := Qfloor q in
  match (q - inject_Z f ?= 1 # 2)%Q with
  | Lt => f
  | Gt => f + 1
  | Eq => if Z.even f then f else f + 1
  end.

(** [padLeft fuel width s] pads [s] with zeros on the left up to [width]. *)
Fixpoint padLeft (fuel width : nat) (s : string) : string :=
  match fuel with
  | O => s
  | S fuel' =>
      if (String.length s <? width)%nat then padLeft fuel' width (String "0"%char s) else s
  end.

Definition natString (z : Z) : string := NilZero.string_of_uint (N.to_uint (Z.to_N z)).

(** [fmt.Sprintf("%.7f", x)] on an exact value. *)
Definition format7 (q : Q) : string :=
  let n := roundHalfEven (q * inject_Z (10 ^ 7))%Q in
  let a := Z.abs n in
  let sign := if n <? 0 then "-" else "" in
  let whole := natString (a / 10 ^ 7) in
  let digits := padLeft 7 7 (natString (a mod 10 ^ 7)) in
  String.append sign (String.append whole (String.append "." digits)).

#[export] Instance strconv : StrconvOps :=
  {| ParseFloat := parseDecimal; Sprintf_7f := format7 |}.

#[export] Instance utils : UtilsOps := {| PriceAsFloat := parseDecimal |}.

(** *** Numbers *)

Record number : Type := mkNumber {
  value : Q;
  precision : Z
}.

Definition roundNearest (q : Q) : Z := Qfloor (q + (1 # 2))%Q.

Definition numberFromFloat (f : Q) (p : Z) : number :=
  let k := 10 ^ p in
  {| value := Qred (roundNearest (f * inject_Z k)%Q # Z.to_pos k); precision := p |}.

Definition minPrecision (a b : number) : Z := Z.min (precision a) (precision b).

(** Modelled from the spec: the [model] package that defines [Number] is
    not part of the embedded sources.  Section 3 of the specification
    describes a fixed-precision decimal value carrying its own precision,
    whose arithmetic rounds at the stated precision and whose equality
    comparison is an epsilon tolerance after normalizing to matching
    precision; capping a precision re-rounds a value only when it carries
    more digits than the cap. *)
#[export] Instance numbers : NumberOps :=
  {| Number := number;
     AsFloat := value;
     Scale := fun n f => numberFromFloat (value n * f) (precision n);
     Add := fun a b => numberFromFloat (value a + value b) (minPrecision a b);
     Subtract := fun a b => numberFromFloat (value a - value b) (minPrecision a b);
     Multiply := fun a b => numberFromFloat (value a * value b) (minPrecision a b);
     InvertNumber := fun n => numberFromFloat (1 / value n) (precision n);
     NumberFromFloat := numberFromFloat;
     NumberByCappingPrecision :=
       fun n p => if p <? precision n then numberFromFloat (value n) p else n;
     MustNumberFromString := fun s p => option_map (fun q => numberFromFloat q p) (parseDecimal s);
     EqualsPrecisionNormalized :=
       fun a b eps =>
         let p := minPrecision a b in
         Qltb (Qabs (value (numberFromFloat (value a) p) - value (numberFromFloat (value b) p)))
              eps;
     NumberZero := numberFromFloat 0 16 |}.

(** *** The SDEX wrapper and its liability tracker *)

Record Liabilities : Type := mkLiabilities {
  LiabSelling : Q;
  LiabBuying : Q
}.

Record sdexState : Type := mkSdexState {
  balances : gmap Asset Q;
  cachedLiabilities : gmap Asset Liabilities
}.

Record builder : Type := mkBuilder {
  bOfferID : Z;
  bSelling : Asset;
  bBuying : Asset;
  bPrice : Q;
  bAmount : Q
}.

Definition NativeAsset : Asset := mkAsset "native" "" "".

Definition liabilitiesOf (s : sdexState) (a : Asset) : Liabilities :=
  default (mkLiabilities 0 0) (cachedLiabilities s !! a).

Definition addSelling (s : sdexState) (a : Asset) (x : Q) : sdexState :=
  {| balances := balances s;
     cachedLiabilities :=
       <[a := mkLiabilities (LiabSelling (liabilitiesOf s a) + x) (LiabBuying (liabilitiesOf s a))]>
         (cachedLiabilities s) |}.

Definition addBuying (s : sdexState) (a : Asset) (x : Q) : sdexState :=
  {| balances := balances s;
     cachedLiabilities :=
       <[a := mkLiabilities (LiabSelling (liabilitiesOf s a)) (LiabBuying (liabilitiesOf s a) + x)]>
         (cachedLiabilities s) |}.

Definition safetyBuffer : Q := 1 # 10.

(** [remaining]: tradable balance minus the committed selling total minus
    a fixed safety buffer. *)
Definition remaining (s : sdexState) (a : Asset) : Q :=
  default 0%Q (balances s !! a) - LiabSelling (liabilitiesOf s a) - safetyBuffer.

Definition manage (s : sdexState) (id : Z) (selling buying : Asset) (price amount : Q)
  : result (option builder) :=
  if Qltb (remaining s selling) amount then Ok None
  else Ok (Some (mkBuilder id selling buying price amount)).

(** Modelled from the spec: the SDEX wrapper with the capital liability
    tracker is not part of the embedded sources.  Following section 4.1,
    reserving adds to the running committed totals of the asset pair and
    never rejects; the offer builders answer [nil] when the amount to sell
    exceeds the remaining capacity of the selling asset; buy offers are
    built in the inverted representation (selling the quote asset). *)
#[export] Instance sdex : SDEXOps :=
  {| SDEX := sdexState;
     ManageOfferBuilder := builder;
     ComputeIncrementalNativeAmountRaw :=
       fun _ isNewOffer => ((1 # 100000) + (if isNewOffer then 1 # 2 else 0))%Q;
     AddLiabilities :=
       fun s selling buying incrementalSell incrementalBuy incrementalNativeAmountRaw =>
         addSelling (addBuying (addSelling s selling incrementalSell) buying incrementalBuy)
           NativeAsset incrementalNativeAmountRaw;
     DeleteOffer :=
       fun _ o => mkBuilder (OfferID o) (Selling o) (Buying o) 1 0;
     ModifyBuyOffer :=
       fun s o price amount _ =>
         manage s (OfferID o) (Selling o) (Buying o) (1 / price) (amount * price);
     ModifySellOffer :=
       fun s o price amount _ =>
         manage s (OfferID o) (Selling o) (Buying o) price amount;
     CreateBuyOffer :=
       fun s base quote price amount _ => manage s 0 quote base (1 / price) (amount * price);
     CreateSellOffer :=
       fun s base quote price amount _ => manage s 0 base quote price amount |}.

(** *** The backing exchange *)

(** A scripted exchange: it keeps the order book it serves, the answers it
    will give to the next submissions, and the orders submitted so far. *)
Record exchangeState : Type := mkExchangeState {
  book : result (@OrderBook numbers);
  answers : list (result (option string));
  submitted : list (@Order numbers)
}.

#[export] Instance tradeAPI : @TradeAPI numbers :=
  {| Exchange := exchangeState;
     GetOrderBook := fun ex _ _ => book ex;
     AddOrder :=
       fun ex o =>
         match answers ex with
         | [] => (Err (Errorf "exchange unavailable"),
                  mkExchangeState (book ex) [] (submitted ex ++ [o]))
         | a :: rest => (a, mkExchangeState (book ex) rest (submitted ex ++ [o]))
         end |}.

(** *** Selling check *)

(** Modelled from the spec: [utils.IsSelling] is not part of the embedded
    sources.  An operation that sells the base asset for the quote asset is
    a sell; one that sells the quote asset for the base asset is not; any
    other combination of assets is an error. *)
#[export] Instance isSelling : IsSellingOps :=
  {| IsSelling :=
       fun base quote selling buying =>
         if bool_decide (selling = base) && bool_decide (buying = quote) then Ok true
         else if bool_decide (selling = quote) && bool_decide (buying = base) then Ok false
         else Err (Errorf "invalid assets, there are more than 2 distinct assets") |}.

(** *** Collaborators of the level provider *)

Record filterOfDay : Type := mkFilterOfDay {
  sellingBase : bool;
  baseCap : option Q
}.

(** The random source is the list of the numbers it will draw. *)
#[export] Instance twap : TwapOps :=
  {| twapVolumeFilter := filterOfDay;
     isSellingBase := sellingBase;
     mustGetBaseAssetCapInBaseUnits :=
       fun f => match baseCap f with
                | Some c => Ok c
                | None => Err (Errorf "base asset cap in base units is nil")
                end;
     rateOffset := Q;
     offsetApply := fun pct p => if Qeq_bool pct 0 then (p, false) else ((p * (1 + pct))%Q, true);
     Rand := list Q;
     NewRand := fun _ => [];
     Float64 := fun r => match r with [] => (0%Q, []) | x :: r' => (x, r') end |}.

(** *** Processes *)

(** A process is its PID; killing a process that has already finished is an
    error, and finished processes are the ones with a negative PID here. *)
#[export] Instance processOps : ProcessOps :=
  {| Process := Z;
     zeroProcess := 0;
     Kill := fun pid => if pid <? 0 then Some (Errorf "os: process already finished")
                        else None |}.

End Reference.


(** ** Scenarios

    Concrete inputs on which the embedded functions are run. *)

Module Scenario.
Import Reference.
Import Mirror.

Definition COUPON : Asset := mkAsset "credit_alphanum4" "COUPON" "GBISSUER".
Definition XLM : Asset := NativeAsset.

Definition num (q : Q) (p : Z) : number := numberFromFloat q p.

Definition strategy : mirrorStrategy :=
  {| baseAsset := COUPON;
     quoteAsset := XLM;
     primaryConstraints := mkOrderConstraints 7 7 (num (1 # 10000000) 7);
     backingPair := mkTradingPair "COUPON" "XLM";
     backingConstraints := mkOrderConstraints 2 4 (num 1 4);
     orderbookDepth := 20;
     perLevelSpread := 0;
     volumeDivideBy := 1;
     offsetTrades := true;
     baseSurplus := initialBaseSurplus |}.

Definition limitOrder (a : OrderAction) (price volume : Q) : Order :=
  {| Pair := mkTradingPair "COUPON" "XLM"; OrderAction_ := a;
     OrderType_ := OrderTypeLimit; OrderPrice := num price 2;
     OrderVolume := num volume 4; Timestamp := None |}.

(** An account holding 1000 units of each asset, nothing committed. *)
Definition funded : sdexState :=
  {| balances := <[COUPON := 1000%Q]> (<[XLM := 1000%Q]> ∅);
     cachedLiabilities := ∅ |}.

(** An account without funds: every offer builder answers [nil]. *)
Definition unfunded : sdexState :=
  {| balances := ∅; cachedLiabilities := ∅ |}.

(** A live sell offer of 10 COUPON at 2 XLM each, and one priced at 3. *)
Definition sellOffer : Offer := mkOffer 11 COUPON XLM "10.0000000" "2.0000000".
Definition sellOfferAt3 : Offer := mkOffer 12 COUPON XLM "10.0000000" "3.0000000".

(** A live buy offer for 10 COUPON at 2 XLM each, as the venue posts it:
    it sells 20 XLM at 0.5 COUPON per XLM. *)
Definition buyOffer : Offer := mkOffer 21 XLM COUPON "20.0000000" "0.5000000".

(** An order book with one bid for 12 COUPON at 2 and no asks. *)
Definition oneBid : exchangeState :=
  {| book := Ok {| Asks := []; Bids := [limitOrder OrderActionBuy 2 12] |};
     answers := []; submitted := [] |}.

(** The operations of a pass over [oneBid] with the buy offer and the sell
    offer priced at 3 on the book: the buy offer is modified to sell 24 XLM
    at 0.5, the sell offer is deleted. *)
Definition modifyThenDelete : list (@TransactionMutator sdex) :=
  [@ModifyOp sdex (mkBuilder 21 XLM COUPON (1 # 2) 24);
   @DeleteOp sdex (mkBuilder 12 COUPON XLM 1 0)].

(** Fills of the strategy's sell offers: the offsetting order buys on the
    backing exchange, whose minimum base volume is 1. *)
Definition fill (volume : Q) : Trade :=
  {| TradeOrder := limitOrder OrderActionSell 2 volume; TradeTransactionID := "tx-1" |}.

(** Backing exchanges that answer the next submission with an error, with
    a nil transaction identifier, and with an identifier. *)
Definition rejecting : exchangeState :=
  {| book := Err (Errorf "no book"); answers := [Err (Errorf "rejected")]; submitted := [] |}.
Definition silent : exchangeState :=
  {| book := Err (Errorf "no book"); answers := [Ok None]; submitted := [] |}.
Definition accepting : exchangeState :=
  {| book := Err (Errorf "no book"); answers := [Ok (Some "hedge-1")]; submitted := [] |}.

(** The same strategy against a coarser backing venue: volumes with two
    decimals, and a minimum volume of 1 held without decimals. *)
Definition coarse : mirrorStrategy :=
  {| baseAsset := COUPON;
     quoteAsset := XLM;
     primaryConstraints := mkOrderConstraints 7 7 (num (1 # 10000000) 7);
     backingPair := mkTradingPair "COUPON" "XLM";
     backingConstraints := mkOrderConstraints 2 2 (num 1 0);
     orderbookDepth := 20;
     perLevelSpread := 0;
     volumeDivideBy := 1;
     offsetTrades := true;
     baseSurplus := initialBaseSurplus |}.

(** A fill of 3 handled against the accepting exchange. *)
Definition filledAccepting : result unit * (mirrorStrategy * exchangeState) :=
  HandleFill (fill 3) (strategy, accepting).

(** *** Volume filter *)

Import VolumeFilter.

(** A filter on COUPON/XLM with a cap of 100 base units a day, no cap in
    quote units. *)
Definition capped100 (m : volumeFilterMode) : volumeFilter :=
  {| name := "volumeFilter"; baseAsset := COUPON; quoteAsset := XLM;
     config := {| SellBaseAssetCapInBaseUnits := Some 100%Q;
                  SellBaseAssetCapInQuoteUnits := None;
                  mode := m; additionalMarketIDs := [] |} |}.

(** 80 base units (160 quote units) already sold today. *)
Definition sold80 : result QueryValue :=
  Ok (IsDailyVolume {| BaseVol := 80; QuoteVol := 160 |}).

(** A sell of 30 COUPON at 2 and a buy: 60 XLM offered at 0.5. *)
Definition sell30 : ManageSellOffer :=
  {| Selling := COUPON; Buying := XLM; Amount := "30"; Price := "2"; OfferID := 0 |}.
Definition buy30 : ManageSellOffer :=
  {| Selling := XLM; Buying := COUPON; Amount := "60"; Price := "0.5"; OfferID := 0 |}.

(** *** Level provider *)

Import Twap.

Definition everyDay : filterOfDay := {| sellingBase := true; baseCap := Some 200%Q |}.

(** Two buckets of twelve hours, a daily cap of 200 sold over 24 hours,
    surplus spread over all remaining buckets with ratio one half. *)
Definition twoBuckets : sellTwapLevelProvider :=
  {| offset := 0%Q;
     orderConstraints := mkOrderConstraints 7 7 (num (1 # 10000000) 7);
     dowFilter := repeat everyDay 7;
     numHoursToSell := 24;
     parentBucketSizeSeconds := 43200;
     distributeSurplusOverRemainingIntervalsPercentCeiling := 1;
     exponentialSmoothingFactor := 1 # 2;
     minChildOrderSizePercentOfParent := 0;
     random := [1 # 2; 1 # 4];
     activeBucket := None;
     previousRoundID := None |}.

(** A world at time [t] in which nothing was sold today and the feed
    quotes 2; and one in which the feed is down. *)
Definition quiet (t : Z) : World :=
  {| now := t;
     dailyValuesByDate := fun _ _ => Ok {| baseVol := 0; quoteVol := 0 |};
     GetPrice := Ok 2%Q |}.

Definition feedDown (t : Z) : World :=
  {| now := t;
     dailyValuesByDate := fun _ _ => Ok {| baseVol := 0; quoteVol := 0 |};
     GetPrice := Err (Errorf "feed down") |}.

(** The provider after a first call at midnight and after a first call at
    noon of the first of January 1970. *)
Definition afterMidnight : sellTwapLevelProvider := snd (GetLevels 0 0 (quiet 0) twoBuckets).
Definition afterNoon : sellTwapLevelProvider := snd (GetLevels 0 0 (quiet 43200) twoBuckets).

(** The same provider with four buckets of six hours, after a first call
    at midnight. *)
Definition fourBuckets : sellTwapLevelProvider :=
  {| offset := 0%Q;
     orderConstraints := mkOrderConstraints 7 7 (num (1 # 10000000) 7);
     dowFilter := repeat everyDay 7;
     numHoursToSell := 24;
     parentBucketSizeSeconds := 21600;
     distributeSurplusOverRemainingIntervalsPercentCeiling := 1;
     exponentialSmoothingFactor := 1 # 2;
     minChildOrderSizePercentOfParent := 0;
     random := [1 # 2; 1 # 4];
     activeBucket := None;
     previousRoundID := None |}.


Import Kelpos.

(** A registry with one running and one finished process. *)
Definition twoProcesses : KelpOS :=
  {| processes := <["ccxt" := 4711]> (<["done" := -1]> ∅) |}.

End Scenario.

(** * Properties *)

(** ** Comparisons *)

Lemma Qltb_lt (x y : Q) : Qltb x y = true <-> (x < y)%Q.
Proof. unfold Qltb, Qlt. apply Z.ltb_lt. Qed.

Lemma Qltb_ge (x y : Q) : Qltb x y = false <-> (y <= x)%Q.
Proof. unfold Qltb, Qle. rewrite Z.ltb_ge. reflexivity. Qed.

Lemma Qleb_le (x y : Q) : Qleb x y = true <-> (x <= y)%Q.
Proof. apply Qle_bool_iff. Qed.

Lemma Qleb_gt (x y : Q) : Qleb x y = false <-> (y < x)%Q.
Proof.
  unfold Qleb. split; intros Hxy.
  - apply Qnot_le_lt. intros Hle. apply Qle_bool_iff in Hle. congruence.
  - destruct (Qle_bool x y) eqn:E; [|reflexivity].
    apply Qle_bool_iff in E. exfalso. apply (Qlt_not_le _ _ Hxy E).
Qed.

(** ** The reconciler *)

Section MirrorFacts.
Context `{NumberOps} `{SDEXOps} `{!TradeAPI} `{UtilsOps}.
Import Mirror.

Lemma appendOpt_Forall {A} (P : A -> Prop) (l : list A) (o : option A) :
  Forall P l -> (forall a, o = Some a -> P a) -> Forall P (appendOpt l o).
Proof.
  intros Hl Ho. destruct o as [a|]; simpl; [|exact Hl].
  apply Forall_app. split; [exact Hl|]. constructor; [apply Ho; reflexivity|constructor].
Qed.

(** What [doModifyOffer] hands back: its first component is never a delete
    and its second component is always one. *)
Lemma doModifyOffer_kinds s oldOffer newOrder priceMultiplier modifyOffer hack sdex r sdex' :
  doModifyOffer s oldOffer newOrder priceMultiplier modifyOffer hack sdex = (Ok r, sdex') ->
  (forall a, fst r = Some a -> isDelete a = false) /\
  (forall b, snd r = Some b -> isDelete b = true).
Proof.
  unfold doModifyOffer. intros Hrun.
  destruct (MustNumberFromString (Price oldOffer) _); [|discriminate].
  destruct (MustNumberFromString (Amount oldOffer) _); [|discriminate].
  destruct (canonicalOld hack n n0) as [oldPrice oldVol].
  destruct (sameOrderParams _ _ _ _).
  { inversion Hrun; subst; simpl. split; intros ? [=]. }
  destruct (Qltb _ _).
  { inversion Hrun; subst; simpl. split; intros ? [=]; subst; reflexivity. }
  destruct (modifyOffer _ _ _ _ _) as [[mo|]| |]; inversion Hrun; subst; simpl;
    split; intros ? [=]; subst; reflexivity.
Qed.

Lemma modifyLoop_kinds s pairs priceMultiplier modifyOffer hack :
  forall ops deleteOps sdex r sdex',
    Forall (fun o => isDelete o = false) ops ->
    Forall (fun o => isDelete o = true) deleteOps ->
    modifyLoop s pairs priceMultiplier modifyOffer hack ops deleteOps sdex = (Ok r, sdex') ->
    Forall (fun o => isDelete o = false) (fst r) /\
    Forall (fun o => isDelete o = true) (snd r).
Proof.
  induction pairs as [|[oldOffer newOrder] rest IH]; intros ops deleteOps sdex r sdex' Hops Hdel Hrun.
  - inversion Hrun; subst. simpl. split; assumption.
  - simpl in Hrun. unfold bind in Hrun.
    destruct (doModifyOffer s oldOffer newOrder priceMultiplier modifyOffer hack sdex)
      as [[r1| |] sdex1] eqn:E; try discriminate.
    apply doModifyOffer_kinds in E. destruct E as [Hm Hd].
    eapply IH; [| |exact Hrun]; apply appendOpt_Forall; assumption.
Qed.

Lemma createLoop_kinds s newOrders priceMultiplier createOffer hack :
  forall ops sdex r sdex',
    Forall (fun o => isDelete o = false) ops ->
    createLoop s newOrders priceMultiplier createOffer hack ops sdex = (Ok r, sdex') ->
    Forall (fun o => isDelete o = false) r.
Proof.
  induction newOrders as [|o rest IH]; intros ops sdex r sdex' Hops Hrun.
  - inversion Hrun; subst. assumption.
  - simpl in Hrun.
    destruct (Qltb _ _); [eapply IH; eassumption|].
    destruct (createOffer _ _ _ _ _ _) as [[mo|]| |]; try discriminate.
    + eapply IH; [|exact Hrun]. apply Forall_app. split; [assumption|].
      constructor; [reflexivity|constructor].
    + eapply IH; eassumption.
Qed.

Lemma DeletesFirst_app (dels ops : list TransactionMutator) :
  Forall (fun o => isDelete o = true) dels ->
  Forall (fun o => isDelete o = false) ops ->
  DeletesFirst (dels ++ ops).
Proof.
  intros Hdel Hops i j a b Hij Hi Hj Ha Hb.
  destruct (Nat.lt_ge_cases i (length dels)) as [Hlt|Hge].
  - rewrite lookup_app_l in Hi by exact Hlt.
    pose proof (Forall_lookup_1 _ _ _ _ Hdel Hi) as Hda. simpl in Hda. congruence.
  - rewrite lookup_app_r in Hj by lia.
    pose proof (Forall_lookup_1 _ _ _ _ Hops Hj) as Hob. simpl in Hob. congruence.
Qed.

(** The test [deletesFirst] decides [DeletesFirst]. *)
Lemma deletesFirst_spec (l : list TransactionMutator) :
  deletesFirst l = true <-> DeletesFirst l.
Proof.
  induction l as [|op rest IH]; simpl.
  - split; [|reflexivity]. intros _ i j a b _ Hi. discriminate.
  - destruct (isDelete op) eqn:Eop.
    + rewrite IH. split.
      * intros Hrest [|i] [|j] a b Hij Hi Hj Ha Hb; try lia.
        { injection Hi as <-. congruence. }
        { apply (Hrest i j a b); [lia|assumption..]. }
      * intros Hall i j a b Hij Hi Hj. apply (Hall (S i) (S j) a b); [lia|assumption..].
    + rewrite forallb_forall. split.
      * intros Hrest [|i] [|j] a b Hij Hi Hj Ha Hb; try lia.
        { assert (In b rest) as Hin by (apply list_elem_of_In, list_elem_of_lookup; eauto).
          apply Hrest in Hin. rewrite Hb in Hin. discriminate. }
        { assert (In b rest) as Hin by (apply list_elem_of_In, list_elem_of_lookup; eauto).
          apply Hrest in Hin. rewrite Hb in Hin. discriminate. }
      * intros Hall x Hin. apply list_elem_of_In, list_elem_of_lookup in Hin.
        destruct Hin as [j Hj]. destruct (isDelete x) eqn:Ex; [|reflexivity].
        exfalso. apply (Hall 0%nat (S j) op x); [lia|reflexivity|exact Hj|exact Eop|exact Ex].
Qed.

(** One side: the list [updateLevels] returns is its delete operations
    followed by its modify and create operations. *)
Lemma updateLevels_deletes_first s oldOffers newOrders modifyOffer createOffer
    priceMultiplier hack sdex l sdex' :
  updateLevels s oldOffers newOrders modifyOffer createOffer priceMultiplier hack sdex
    = (Ok l, sdex') ->
  DeletesFirst l.
Proof.
  unfold updateLevels. intros Hrun.
  destruct (length oldOffers <=? length newOrders)%nat.
  - unfold bind in Hrun.
    destruct (modifyLoop _ _ _ _ _ _ _ _) as [[r| |] sdex1] eqn:E1; try discriminate.
    apply modifyLoop_kinds in E1; [|constructor|constructor]. destruct E1 as [Hm Hd].
    destruct (createLoop _ _ _ _ _ _ _) as [[ops| |] sdex2] eqn:E2; try discriminate.
    apply createLoop_kinds in E2; [|exact Hm].
    inversion Hrun; subst. apply DeletesFirst_app; assumption.
  - unfold bind in Hrun.
    destruct (modifyLoop _ _ _ _ _ _ _ _) as [[r| |] sdex1] eqn:E1; try discriminate.
    apply modifyLoop_kinds in E1; [|constructor|constructor]. destruct E1 as [Hm Hd].
    inversion Hrun; subst. apply DeletesFirst_app; [|assumption].
    apply Forall_app. split; [assumption|].
    apply Forall_forall. intros x Hin. apply list_elem_of_In, in_map_iff in Hin.
    destruct Hin as [o [<- _]]. reflexivity.
Qed.

End MirrorFacts.

Section Reconciler.
Context `{NumberOps} `{SDEXOps} `{!TradeAPI} `{UtilsOps}.
Import Mirror.

(** C1.  A paired live offer whose price and volume are epsilon-equal to
    the target's (after the old offer is put in the representation the
    comparison uses: parsed at the primary precision and, for a buy offer,
    volume multiplied by price and price inverted) yields neither a modify
    nor a delete operation, and [AddLiabilities] is called for the offer's
    selling and buying assets with the old offer's amounts: volume and
    volume times price, the selling amount first.  In the loop over the
    pairs such a pair leaves both operation lists as they were. *)
Theorem doModifyOffer_unchanged_keeps_and_reserves
    (s : mirrorStrategy) (oldOffer : Offer) (newOrder : Order) (priceMultiplier : Q)
    (modifyOffer : modifyFn) (hack : bool) (sdex : SDEX) (oldPrice0 oldVol0 : Number) :
  MustNumberFromString (Price oldOffer) (PricePrecision (primaryConstraints s)) = Some oldPrice0 ->
  MustNumberFromString (Amount oldOffer) (VolumePrecision (primaryConstraints s)) = Some oldVol0 ->
  let oldPrice := fst (canonicalOld hack oldPrice0 oldVol0) in
  let oldVol := snd (canonicalOld hack oldPrice0 oldVol0) in
  sameOrderParams oldPrice oldVol
    (Scale (OrderPrice newOrder) priceMultiplier)
    (Scale (OrderVolume newOrder) (1 / volumeDivideBy s)) = true ->
  let incrementalNativeAmountRaw := ComputeIncrementalNativeAmountRaw sdex false in
  let reserved :=
    if hack
    then AddLiabilities sdex (Selling oldOffer) (Buying oldOffer)
           (AsFloat (Multiply oldVol oldPrice)) (AsFloat oldVol) incrementalNativeAmountRaw
    else AddLiabilities sdex (Selling oldOffer) (Buying oldOffer)
           (AsFloat oldVol) (AsFloat (Multiply oldVol oldPrice)) incrementalNativeAmountRaw in
  doModifyOffer s oldOffer newOrder priceMultiplier modifyOffer hack sdex
    = (Ok (None, None), reserved)
  /\ forall rest ops deleteOps,
       modifyLoop s ((oldOffer, newOrder) :: rest) priceMultiplier modifyOffer hack
         ops deleteOps sdex
       = modifyLoop s rest priceMultiplier modifyOffer hack ops deleteOps reserved.
Proof.
  intros Hprice Hvol oldPrice oldVol Hsame inc reserved.
  assert (doModifyOffer s oldOffer newOrder priceMultiplier modifyOffer hack sdex
          = (Ok (None, None), reserved)) as Hrun.
  { unfold doModifyOffer. rewrite Hprice, Hvol.
    subst oldPrice oldVol reserved inc.
    destruct (canonicalOld hack oldPrice0 oldVol0) as [p v]; simpl in *.
    rewrite Hsame. unfold reserve. reflexivity. }
  split; [exact Hrun|].
  intros rest ops deleteOps. simpl. unfold bind. rewrite Hrun. reflexivity.
Qed.

(** C8 (amended).  A paired offer whose parameters differ beyond epsilon:
    when the target volume, capped to the primary venue's precision, is
    below the backing venue's minimum base volume, the pair yields a delete
    operation, no modify operation, and reserves nothing.  Otherwise the
    modify builder is called with the capped price and amount: a builder it
    returns becomes the modify operation and its capital is reserved; a nil
    answer becomes a delete operation with nothing reserved; an error is
    returned with nothing reserved. *)
Theorem doModifyOffer_changed
    (s : mirrorStrategy) (oldOffer : Offer) (newOrder : Order) (priceMultiplier : Q)
    (modifyOffer : modifyFn) (hack : bool) (sdex : SDEX) (oldPrice0 oldVol0 : Number) :
  MustNumberFromString (Price oldOffer) (PricePrecision (primaryConstraints s)) = Some oldPrice0 ->
  MustNumberFromString (Amount oldOffer) (VolumePrecision (primaryConstraints s)) = Some oldVol0 ->
  let price := Scale (OrderPrice newOrder) priceMultiplier in
  let vol := Scale (OrderVolume newOrder) (1 / volumeDivideBy s) in
  sameOrderParams (fst (canonicalOld hack oldPrice0 oldVol0))
    (snd (canonicalOld hack oldPrice0 oldVol0)) price vol = false ->
  let offerPrice := NumberByCappingPrecision price (PricePrecision (primaryConstraints s)) in
  let offerAmount := NumberByCappingPrecision vol (VolumePrecision (primaryConstraints s)) in
  let minBaseVolume := AsFloat (MinBaseVolume (backingConstraints s)) in
  let incrementalNativeAmountRaw := ComputeIncrementalNativeAmountRaw sdex false in
  let deleteOp := DeleteOp (DeleteOffer sdex oldOffer) in
  let run := doModifyOffer s oldOffer newOrder priceMultiplier modifyOffer hack sdex in
  ((AsFloat offerAmount < minBaseVolume)%Q -> run = (Ok (None, Some deleteOp), sdex))
  /\ ((minBaseVolume <= AsFloat offerAmount)%Q ->
      match modifyOffer sdex oldOffer (AsFloat offerPrice) (AsFloat offerAmount)
              incrementalNativeAmountRaw with
      | Ok (Some mo) =>
          run = (Ok (Some (ModifyOp mo), None),
                 if hack
                 then AddLiabilities sdex (Selling oldOffer) (Buying oldOffer)
                        (AsFloat (Multiply offerAmount offerPrice)) (AsFloat offerAmount)
                        incrementalNativeAmountRaw
                 else AddLiabilities sdex (Selling oldOffer) (Buying oldOffer)
                        (AsFloat offerAmount) (AsFloat (Multiply offerAmount offerPrice))
                        incrementalNativeAmountRaw)
      | Ok None => run = (Ok (None, Some deleteOp), sdex)
      | Err e => run = (Err e, sdex)
      | Panic => run = (Panic, sdex)
      end).
Proof.
  intros Hprice Hvol price vol Hdiff offerPrice offerAmount minBaseVolume inc deleteOp run.
  subst run. unfold doModifyOffer. rewrite Hprice, Hvol.
  fold price vol.
  destruct (canonicalOld hack oldPrice0 oldVol0) as [p v]; simpl in Hdiff.
  rewrite Hdiff. fold offerPrice offerAmount inc.
  split.
  - intros Hlt. apply Qltb_lt in Hlt. fold minBaseVolume. rewrite Hlt. reflexivity.
  - intros Hge. apply Qltb_ge in Hge. fold minBaseVolume. rewrite Hge.
    destruct (modifyOffer sdex oldOffer (AsFloat offerPrice) (AsFloat offerAmount) inc)
      as [[mo|]| |]; unfold reserve; reflexivity.
Qed.

(** C2 (amended).  For one side, the list [updateLevels] returns has every
    delete operation before every modify and create operation.  The list
    [UpdateWithOps] returns is the two per-side lists one after the other:
    the sell side first when there is a bid, there is a selling offer and
    the first bid's price is at or above the first selling offer's price,
    and the buy side first in every other case.  So the deletes come first
    within each side's part of the list. *)
Theorem UpdateWithOps_deletes_first_per_side
    (s : mirrorStrategy) (ex : Exchange) (buyingAOffers sellingAOffers : list Offer)
    (sdex sdex' : SDEX) (l : list TransactionMutator) :
  UpdateWithOps s ex buyingAOffers sellingAOffers sdex = (Ok l, sdex') ->
  exists ob sdex1 buyOps sellOps,
    GetOrderBook ex (backingPair s) (orderbookDepth s) = Ok ob
    /\ updateLevels s buyingAOffers (firstn 50 (Bids ob)) ModifyBuyOffer CreateBuyOffer
         (1 - perLevelSpread s) true sdex = (Ok buyOps, sdex1)
    /\ updateLevels s sellingAOffers (firstn 50 (Asks ob)) ModifySellOffer CreateSellOffer
         (1 + perLevelSpread s) false sdex1 = (Ok sellOps, sdex')
    /\ DeletesFirst buyOps /\ DeletesFirst sellOps
    /\ match Bids ob, sellingAOffers with
       | bid0 :: _, sell0 :: _ =>
           exists sellPrice,
             PriceAsFloat (Price sell0) = Some sellPrice
             /\ ((sellPrice <= AsFloat (OrderPrice bid0))%Q -> l = sellOps ++ buyOps)
             /\ ((AsFloat (OrderPrice bid0) < sellPrice)%Q -> l = buyOps ++ sellOps)
       | _, _ => l = buyOps ++ sellOps
       end.
Proof.
  unfold UpdateWithOps. intros Hrun.
  destruct (GetOrderBook ex (backingPair s) (orderbookDepth s)) as [ob|e|] eqn:Eob;
    try discriminate.
  unfold bind in Hrun.
  destruct (updateLevels s buyingAOffers _ _ _ _ true sdex) as [[buyOps| |] sdex1] eqn:Ebuy;
    try discriminate.
  destruct (updateLevels s sellingAOffers _ _ _ _ false sdex1) as [[sellOps| |] sdex2] eqn:Esell;
    try discriminate.
  pose proof (updateLevels_deletes_first _ _ _ _ _ _ _ _ _ _ Ebuy) as Hbuy.
  pose proof (updateLevels_deletes_first _ _ _ _ _ _ _ _ _ _ Esell) as Hsell.
  exists ob, sdex1, buyOps, sellOps.
  destruct (Bids ob) as [|bid0 bids].
  { injection Hrun as <- <-. auto 10. }
  destruct sellingAOffers as [|sell0 rest].
  { injection Hrun as <- <-. auto 10. }
  destruct (PriceAsFloat (Price sell0)) as [sellPrice|]; [|discriminate].
  destruct (Qleb sellPrice (AsFloat (OrderPrice bid0))) eqn:Hcmp; injection Hrun as <- <-.
  - apply Qleb_le in Hcmp. do 5 (split; [assumption || reflexivity|]).
    exists sellPrice. split; [reflexivity|]. split; [reflexivity|].
    intros Hlt. exfalso. apply (Qlt_not_le _ _ Hlt Hcmp).
  - apply Qleb_gt in Hcmp. do 5 (split; [assumption || reflexivity|]).
    exists sellPrice. split; [reflexivity|]. split; [|reflexivity].
    intros Hle. exfalso. apply (Qlt_not_le _ _ Hcmp Hle).
Qed.

End Reconciler.

Section ReconcilerRuns.
Import Reference Scenario Mirror.

(** A sell offer of 10 at 2 against a target of 10 at 2 is kept, and 10
    COUPON and 20 XLM are reserved. *)
Lemma doModifyOffer_unchanged_witness :
  doModifyOffer strategy sellOffer (limitOrder OrderActionSell 2 10) 1 ModifySellOffer
    false funded
  = (Ok (None, None),
     AddLiabilities funded COUPON XLM 10 20 (ComputeIncrementalNativeAmountRaw funded false)).
Proof.
  refine (proj1 (doModifyOffer_unchanged_keeps_and_reserves strategy sellOffer
                   (limitOrder OrderActionSell 2 10) 1 ModifySellOffer false funded
                   (num 2 7) (num 10 7) _ _ _)); vm_compute; reflexivity.
Defined.

(** A sell offer of 10 at 2 against a target of 12 at 2 on a funded account
    is modified, and 12 COUPON and 24 XLM are reserved. *)
Lemma doModifyOffer_changed_witness :
  doModifyOffer strategy sellOffer (limitOrder OrderActionSell 2 12) 1 ModifySellOffer
    false funded
  = (Ok (Some (ModifyOp (mkBuilder 11 COUPON XLM 2 12)), None),
     AddLiabilities funded COUPON XLM 12 24 (ComputeIncrementalNativeAmountRaw funded false)).
Proof.
  refine (proj2 (doModifyOffer_changed strategy sellOffer
                   (limitOrder OrderActionSell 2 12) 1 ModifySellOffer false funded
                   (num 2 7) (num 10 7) _ _ _) _); vm_compute; congruence.
Defined.

(** The nil answer of the modify builder on its own: the parameters differ,
    the target volume 12 is not below the minimum volume 1, and the pair
    yields a delete operation, no modify operation, and the liabilities are
    untouched. *)
Example doModifyOffer_nil_builder_deletes :
  sameOrderParams (num 2 7) (num 10 7) (Scale (num 2 2) 1) (Scale (num 12 4) (1 / 1)) = false
  /\ Qltb (AsFloat (NumberByCappingPrecision (Scale (num 12 4) (1 / 1)) 7))
          (AsFloat (MinBaseVolume (backingConstraints strategy))) = false
  /\ doModifyOffer strategy sellOffer (limitOrder OrderActionSell 2 12) 1 ModifySellOffer
       false unfunded
     = (Ok (None, Some (DeleteOp (DeleteOffer unfunded sellOffer))), unfunded).
Proof. repeat split; reflexivity. Qed.

(** C8, as stated, fails on the venue whose minimum decides.  The offer
    lives on the primary venue, whose minimum volume is 0.0000001; the
    minimum volume of the backing venue is 1.  The parameters differ, the
    target volume 0.5 is not below the primary venue's minimum, and the
    modify builder would have answered with an operation for it; yet the
    pair yields a delete operation and no modify operation, with nothing
    reserved, because 0.5 is below the backing venue's minimum.  And where
    the volume is below neither minimum, a nil answer of the modify builder
    still gives a delete and not a modify. *)
Lemma doModifyOffer_deletes_above_primary_minimum :
  (sameOrderParams (num 2 7) (num 10 7) (Scale (num 2 2) 1) (Scale (num (1 # 2) 4) (1 / 1))
   = false
   /\ Qltb (AsFloat (NumberByCappingPrecision (Scale (num (1 # 2) 4) (1 / 1)) 7))
           (AsFloat (MinBaseVolume (primaryConstraints strategy))) = false
   /\ Qltb (AsFloat (NumberByCappingPrecision (Scale (num (1 # 2) 4) (1 / 1)) 7))
           (AsFloat (MinBaseVolume (backingConstraints strategy))) = true
   /\ ModifySellOffer funded sellOffer 2 (1 # 2) (ComputeIncrementalNativeAmountRaw funded false)
      = Ok (Some (mkBuilder 11 COUPON XLM 2 (1 # 2)))
   /\ doModifyOffer strategy sellOffer (limitOrder OrderActionSell 2 (1 # 2)) 1 ModifySellOffer
        false funded
      = (Ok (None, Some (DeleteOp (DeleteOffer funded sellOffer))), funded))
  /\ (Qltb (AsFloat (NumberByCappingPrecision (Scale (num 12 4) (1 / 1)) 7))
           (AsFloat (MinBaseVolume (primaryConstraints strategy))) = false
      /\ Qltb (AsFloat (NumberByCappingPrecision (Scale (num 12 4) (1 / 1)) 7))
              (AsFloat (MinBaseVolume (backingConstraints strategy))) = false
      /\ doModifyOffer strategy sellOffer (limitOrder OrderActionSell 2 12) 1 ModifySellOffer
           false unfunded
         = (Ok (None, Some (DeleteOp (DeleteOffer unfunded sellOffer))), unfunded)).
Proof. repeat split; reflexivity. Qed.

(** C2, as stated, fails for the list of a whole pass: with one buy offer
    to modify and one sell offer to delete, the modify operation of the buy
    side comes before the delete operation of the sell side. *)
Lemma UpdateWithOps_modify_before_delete :
  exists l,
    fst (UpdateWithOps strategy oneBid [buyOffer] [sellOfferAt3] funded) = Ok l
    /\ ~ DeletesFirst l.
Proof.
  exists modifyThenDelete.
  split; [reflexivity|].
  intros Hfirst.
  eapply (Hfirst 0%nat 1%nat); [lia|reflexivity..].
Qed.

(** The test on the same list. *)
Example modifyThenDelete_not_deletesFirst : deletesFirst modifyThenDelete = false.
Proof. reflexivity. Qed.

(** The buy side: an offer selling 20 XLM at 0.5 is a bid for 10 COUPON at
    2; against a target of 10 at 2 it is kept, with 20 XLM and 10 COUPON
    reserved. *)
Example doModifyOffer_unchanged_buy :
  doModifyOffer strategy buyOffer (limitOrder OrderActionBuy 2 10) 1 ModifyBuyOffer
    true funded
  = (Ok (None, None),
     AddLiabilities funded XLM COUPON 20 10 (ComputeIncrementalNativeAmountRaw funded false)).
Proof. reflexivity. Qed.

(** The pass of the counterexample, read per side: the bid is at 2, below
    the selling offer's 3, so the buy side's modify comes first and the
    sell side's delete second. *)
Lemma UpdateWithOps_per_side_witness :
  exists buyOps sellOps,
    fst (updateLevels strategy [buyOffer] [limitOrder OrderActionBuy 2 12] ModifyBuyOffer
           CreateBuyOffer (1 - perLevelSpread strategy) true funded) = Ok buyOps
    /\ DeletesFirst buyOps /\ DeletesFirst sellOps
    /\ modifyThenDelete = buyOps ++ sellOps.
Proof.
  edestruct (@UpdateWithOps_deletes_first_per_side numbers sdex tradeAPI utils
              strategy oneBid [buyOffer] [sellOfferAt3] funded
              (snd (UpdateWithOps strategy (oneBid : @Exchange numbers tradeAPI) [buyOffer]
                      [sellOfferAt3] (funded : @SDEX sdex)))
              modifyThenDelete)
    as (ob & sdex1 & buyOps & sellOps & Hob & Hbuy & _ & Hdb & Hds & Horder); [reflexivity|].
  change (Ok {| Asks := []; Bids := [limitOrder OrderActionBuy 2 12] |} = Ok ob) in Hob.
  injection Hob as <-. cbn [Bids] in Horder.
  destruct Horder as (sellPrice & Hprice & _ & Hbuyfirst).
  exists buyOps, sellOps.
  split; [exact (f_equal fst Hbuy)|]. split; [exact Hdb|]. split; [exact Hds|].
  apply Hbuyfirst.
  change (parseDecimal "3.0000000" = Some sellPrice) in Hprice.
  vm_compute in Hprice. injection Hprice as <-. reflexivity.
Defined.

(** The same bid against a selling offer priced at 2: the first bid is at
    the selling offer's price, so the sell side's list (a delete, there
    being no asks) comes before the buy side's modify. *)
Example UpdateWithOps_sell_side_first :
  fst (UpdateWithOps strategy oneBid [buyOffer] [sellOffer] funded)
  = Ok [DeleteOp (DeleteOffer funded sellOffer);
        ModifyOp (mkBuilder 21 XLM COUPON (1 # 2) 24)].
Proof. reflexivity. Qed.

End ReconcilerRuns.

(** ** The fill-offset tracker *)

Section FillOffset.
Context `{NumberOps} `{SDEXOps} `{!TradeAPI} `{UtilsOps}.
Import Mirror.

Lemma baseVolumeToOffset_lookup (s : mirrorStrategy) (trade : Trade) (a : OrderAction)
    (sp : assetSurplus) :
  baseSurplus s !! a = Some sp ->
  baseVolumeToOffset s trade a =
    let uncommittedBase := Subtract (total sp) (committed sp) in
    if Qltb (AsFloat uncommittedBase)
            (AsFloat (Scale (MinBaseVolume (backingConstraints s)) (1 # 2)))
    then Ok None
    else Ok (Some (NumberByCappingPrecision
                     (if Qltb (AsFloat (MinBaseVolume (backingConstraints s)))
                              (AsFloat uncommittedBase)
                      then uncommittedBase
                      else MinBaseVolume (backingConstraints s))
                     (VolumePrecision (backingConstraints s)))).
Proof. intros Hsp. unfold baseVolumeToOffset. rewrite Hsp. reflexivity. Qed.

(** A fill whose offset is attempted: the state after the attempt, by the
    answer of the exchange. *)
Lemma HandleFill_attempt (trade : Trade) (s : mirrorStrategy) (ex : Exchange)
    (sp : assetSurplus) (newVolume : Number) :
  let a := Reverse (OrderAction_ (TradeOrder trade)) in
  let sp1 := setTotal sp (Add (total sp) (OrderVolume (TradeOrder trade))) in
  let s1 := set_baseSurplus s (<[a := sp1]> (baseSurplus s)) in
  let sp2 := setCommitted sp1 (Add (committed sp1) newVolume) in
  let s2 := set_baseSurplus s1 (<[a := sp2]> (baseSurplus s1)) in
  baseSurplus s !! a = Some sp ->
  baseVolumeToOffset s1 trade a = Ok (Some newVolume) ->
  HandleFill trade (s, ex) =
    match AddOrder ex (offsetOrder s trade a newVolume) with
    | (Panic, ex') => (Panic, (s2, ex'))
    | (Err e, ex') => (Err (Wrapf "error when offsetting trade" e), (s2, ex'))
    | (Ok None, ex') =>
        (Err (Errorf "error when offsetting trade: transactionID was <nil>"), (s2, ex'))
    | (Ok (Some _), ex') =>
        let sp3 := setTotal sp2 (Subtract (total sp2) newVolume) in
        let sp4 := setCommitted sp3 (Subtract (committed sp3) newVolume) in
        (Ok tt, (set_baseSurplus s2 (<[a := sp4]> (baseSurplus s2)), ex'))
    end.
Proof.
  intros a sp1 s1 sp2 s2 Hsp Hoff. unfold HandleFill. fold a. rewrite Hsp.
  fold sp1 s1. rewrite Hoff. reflexivity.
Qed.

(** C5.  When the offset of a fill is attempted and the submission of the
    hedge order answers with an error or with a nil transaction identifier,
    [HandleFill] returns an error, and the surplus of the hedge direction
    stays as it was before the subtraction: [committed] still includes the
    volume reserved for this attempt and [total] still includes the filled
    volume.  The surplus of the other direction is untouched. *)
Theorem HandleFill_failed_submission_keeps_commitment
    (trade : Trade) (s : mirrorStrategy) (ex : Exchange) (sp : assetSurplus)
    (newVolume : Number) :
  let a := Reverse (OrderAction_ (TradeOrder trade)) in
  let total1 := Add (total sp) (OrderVolume (TradeOrder trade)) in
  let s1 := set_baseSurplus s (<[a := setTotal sp total1]> (baseSurplus s)) in
  baseSurplus s !! a = Some sp ->
  baseVolumeToOffset s1 trade a = Ok (Some newVolume) ->
  ((exists e, fst (AddOrder ex (offsetOrder s trade a newVolume)) = Err e)
   \/ fst (AddOrder ex (offsetOrder s trade a newVolume)) = Ok None) ->
  exists e s',
    HandleFill trade (s, ex) = (Err e, (s', snd (AddOrder ex (offsetOrder s trade a newVolume))))
    /\ baseSurplus s' !! a
       = Some {| total := total1; committed := Add (committed sp) newVolume |}
    /\ forall b, b <> a -> baseSurplus s' !! b = baseSurplus s !! b.
Proof.
  intros a total1 s1 Hsp Hoff Hanswer.
  pose proof (HandleFill_attempt trade s ex sp newVolume Hsp Hoff) as Hrun.
  cbv zeta in Hrun. fold a total1 in Hrun.
  assert (forall m : gmap OrderAction assetSurplus, forall x y b,
            b <> a -> <[a := x]> (<[a := y]> m) !! b = m !! b) as Hother.
  { intros m x y b Hb. rewrite !lookup_insert_ne by congruence. reflexivity. }
  destruct (AddOrder ex (offsetOrder s trade a newVolume)) as [[[tx|]|e|] ex'] eqn:Eadd;
    simpl in Hanswer.
  - destruct Hanswer as [[e He]|He]; discriminate.
  - eexists _, _. split; [exact Hrun|]. simpl. split.
    + rewrite lookup_insert_eq. reflexivity.
    + intros b Hb. apply Hother, Hb.
  - eexists _, _. split; [exact Hrun|]. simpl. split.
    + rewrite lookup_insert_eq. reflexivity.
    + intros b Hb. apply Hother, Hb.
  - destruct Hanswer as [[e He]|He]; discriminate.
Qed.

(** C9 (amended).  The offset decision of a fill, with [u] the uncommitted
    surplus (total, the fill included, minus committed), [m] the backing
    venue's minimum base volume and [half] that minimum scaled by one half
    as a number of the minimum's own precision.  The three cases cover
    every [u].
    - [u < half]: [HandleFill] returns without error, the exchange is not
      touched (no order is submitted) and [committed] is as before.
    - [half <= u] and [m < u]: the offset volume is [u], capped to the
      backing venue's volume precision, and that is the volume of the order
      submitted.
    - [half <= u <= m]: the offset volume is [m], capped in the same way. *)
Theorem HandleFill_offset_sizing
    (trade : Trade) (s : mirrorStrategy) (ex : Exchange) (sp : assetSurplus) :
  let a := Reverse (OrderAction_ (TradeOrder trade)) in
  let total1 := Add (total sp) (OrderVolume (TradeOrder trade)) in
  let s1 := set_baseSurplus s (<[a := setTotal sp total1]> (baseSurplus s)) in
  let uncommittedBase := Subtract total1 (committed sp) in
  let u := AsFloat uncommittedBase in
  let m := AsFloat (MinBaseVolume (backingConstraints s)) in
  let half := AsFloat (Scale (MinBaseVolume (backingConstraints s)) (1 # 2)) in
  let capped n := NumberByCappingPrecision n (VolumePrecision (backingConstraints s)) in
  baseSurplus s !! a = Some sp ->
  ((u < half)%Q ->
     baseVolumeToOffset s1 trade a = Ok None
     /\ HandleFill trade (s, ex) = (Ok tt, (s1, ex))
     /\ baseSurplus s1 !! a = Some {| total := total1; committed := committed sp |})
  /\ ((half <= u)%Q -> (m < u)%Q ->
        baseVolumeToOffset s1 trade a = Ok (Some (capped uncommittedBase))
        /\ snd (snd (HandleFill trade (s, ex)))
           = snd (AddOrder ex (offsetOrder s trade a (capped uncommittedBase))))
  /\ ((half <= u)%Q -> (u <= m)%Q ->
        baseVolumeToOffset s1 trade a
          = Ok (Some (capped (MinBaseVolume (backingConstraints s))))
        /\ snd (snd (HandleFill trade (s, ex)))
           = snd (AddOrder ex (offsetOrder s trade a
                                 (capped (MinBaseVolume (backingConstraints s))))))
  /\ ((u < half)%Q \/ ((half <= u)%Q /\ (m < u)%Q) \/ ((half <= u)%Q /\ (u <= m)%Q)).
Proof.
  intros a total1 s1 uncommittedBase u m half capped Hsp.
  assert (baseSurplus s1 !! a = Some (setTotal sp total1)) as Hsp1.
  { unfold s1. simpl. apply lookup_insert_eq. }
  pose proof (baseVolumeToOffset_lookup s1 trade a _ Hsp1) as Hoff.
  cbv zeta in Hoff. simpl in Hoff. fold uncommittedBase u m half in Hoff.
  assert (forall v, baseVolumeToOffset s1 trade a = Ok (Some v) ->
            snd (snd (HandleFill trade (s, ex)))
            = snd (AddOrder ex (offsetOrder s trade a v))) as Hsubmit.
  { intros v Hv.
    rewrite (HandleFill_attempt trade s ex sp v Hsp Hv).
    destruct (AddOrder ex _) as [[[tx|]|e|] ex']; reflexivity. }
  split; [|split; [|split]].
  - intros Hlt. apply Qltb_lt in Hlt. rewrite Hlt in Hoff.
    split; [exact Hoff|]. split; [|exact Hsp1].
    unfold HandleFill. fold a. rewrite Hsp. fold total1 s1. rewrite Hoff. reflexivity.
  - intros Hge Hgt. apply Qltb_ge in Hge. apply Qltb_lt in Hgt.
    rewrite Hge, Hgt in Hoff. split; [exact Hoff|]. apply Hsubmit, Hoff.
  - intros Hge Hle. apply Qltb_ge in Hge. apply Qltb_ge in Hle.
    rewrite Hge, Hle in Hoff. split; [exact Hoff|]. apply Hsubmit, Hoff.
  - destruct (Qlt_le_dec u half) as [Hlt|Hge]; [left; exact Hlt|right].
    destruct (Qlt_le_dec m u) as [Hgt|Hle]; [left|right]; split; assumption.
Qed.

End FillOffset.

Section FillOffsetRuns.
Import Reference Scenario Mirror.

(** A fill of 3 whose hedge order is rejected: the call fails and both
    [total] and [committed] of the buy direction stay at 3. *)
Lemma HandleFill_failed_submission_witness :
  exists e s',
    HandleFill (fill 3) (strategy, rejecting)
      = (Err e, (s', snd (AddOrder rejecting
                            (offsetOrder strategy (fill 3) OrderActionBuy (num 3 4)))))
    /\ baseSurplus s' !! OrderActionBuy
       = Some {| total := Add (total makeAssetSurplus) (num 3 4);
                 committed := Add (committed makeAssetSurplus) (num 3 4) |}
    /\ forall b, b <> OrderActionBuy -> baseSurplus s' !! b = baseSurplus strategy !! b.
Proof.
  apply (@HandleFill_failed_submission_keeps_commitment numbers tradeAPI
           (fill 3) strategy rejecting makeAssetSurplus (num 3 4)).
  - reflexivity.
  - reflexivity.
  - left. exists (Errorf "rejected"). reflexivity.
Defined.

(** Fills of 0.4, 3 and 0.7 against a minimum volume of 1: the first is
    skipped, the second is offset in full, the third is offset with the
    minimum volume. *)
Lemma HandleFill_offset_sizing_witness :
  HandleFill (fill (4 # 10)) (strategy, accepting)
    = (Ok tt,
       (set_baseSurplus strategy
          (<[OrderActionBuy := setTotal makeAssetSurplus (Add NumberZero (num (4 # 10) 4))]>
             (baseSurplus strategy)),
        accepting))
  /\ submitted (snd (snd (HandleFill (fill 3) (strategy, accepting))))
     = [offsetOrder strategy (fill 3) OrderActionBuy (num 3 4)]
  /\ submitted (snd (snd (HandleFill (fill (7 # 10)) (strategy, accepting))))
     = [offsetOrder strategy (fill (7 # 10)) OrderActionBuy (num 1 4)].
Proof.
  split; [|split].
  - refine (proj1 (proj2 (proj1 (@HandleFill_offset_sizing numbers tradeAPI
                            (fill (4 # 10)) strategy accepting makeAssetSurplus _) _))).
    + reflexivity.
    + vm_compute. reflexivity.
  - refine (eq_trans (f_equal submitted
              (proj2 (proj1 (proj2 (@HandleFill_offset_sizing numbers tradeAPI
                        (fill 3) strategy accepting makeAssetSurplus _)) _ _))) _).
    + reflexivity.
    + vm_compute. congruence.
    + vm_compute. reflexivity.
    + reflexivity.
  - refine (eq_trans (f_equal submitted
              (proj2 (proj1 (proj2 (proj2 (@HandleFill_offset_sizing numbers tradeAPI
                        (fill (7 # 10)) strategy accepting makeAssetSurplus _))) _ _))) _).
    + reflexivity.
    + vm_compute. congruence.
    + vm_compute. congruence.
    + reflexivity.
Defined.

(** C9, as stated, fails where the precisions are coarse.  Against the
    backing venue of [coarse] the minimum volume is 1 and half of it,
    scaled at the minimum's own precision, is 1 as well.
    - A fill of 0.7 leaves an uncommitted surplus of 0.7, between half the
      minimum (0.5) and the minimum (1): the claim has the minimum offset,
      the code skips the fill and submits nothing.
    - A fill of 3.149 leaves an uncommitted surplus of 3.149, above the
      minimum: the claim has exactly 3.149 offset, the code submits an
      order for 3.15, the surplus capped to two decimals. *)
Lemma HandleFill_offset_sizing_coarse :
  (AsFloat (MinBaseVolume (backingConstraints coarse)) == 1)%Q
  /\ (AsFloat (Scale (MinBaseVolume (backingConstraints coarse)) (1 # 2)) == 1)%Q
  /\ ((AsFloat (Subtract (Add NumberZero (OrderVolume (TradeOrder (fill (7 # 10))))) NumberZero)
         == 7 # 10)%Q
      /\ (1 / 2 <= 7 # 10 <= 1)%Q
      /\ fst (HandleFill (fill (7 # 10)) (coarse, accepting)) = Ok tt
      /\ submitted (snd (snd (HandleFill (fill (7 # 10)) (coarse, accepting)))) = [])
  /\ ((AsFloat (Subtract (Add NumberZero (OrderVolume (TradeOrder (fill (3149 # 1000)))))
                  NumberZero) == 3149 # 1000)%Q
      /\ (1 < 3149 # 1000)%Q
      /\ submitted (snd (snd (HandleFill (fill (3149 # 1000)) (coarse, accepting))))
         = [offsetOrder coarse (fill (3149 # 1000)) OrderActionBuy (num (315 # 100) 2)]
      /\ (AsFloat (num (315 # 100) 2) == 315 # 100)%Q
      /\ ~ (315 # 100 == 3149 # 1000)%Q).
Proof.
  split; [reflexivity|]. split; [reflexivity|]. split.
  - split; [reflexivity|]. split; [split; discriminate|]. split; reflexivity.
  - split; [reflexivity|]. split; [reflexivity|]. split; [reflexivity|].
    split; [reflexivity|]. discriminate.
Qed.

End FillOffsetRuns.

(** ** The volume filter *)

Section VolumeFilterFacts.
Context `{StrconvOps} `{IsSellingOps}.
Import VolumeFilter.

(** C3.  Exact mode, only the base-unit cap configured, cap 100, 80 base
    units on the books, nothing to be booked yet, a sell of 30.  The filter
    function keeps the operation: the operation it returns has the amount 20
    (the cap minus on-the-books minus to-be-booked) printed with seven
    decimals and every other field of the input, and the running
    to-be-booked totals it leaves are 20 base units and 20 times the price
    in quote units.  The next operation of the same call is processed
    against those totals, and [Apply] on that single operation returns the
    shrunk operation. *)
Theorem volumeFilter_exact_base_cap_shrinks
    (f : volumeFilter) (op : ManageSellOffer) (sellPrice otbQuote : Q) :
  SellBaseAssetCapInBaseUnits (config f) = Some 100%Q ->
  SellBaseAssetCapInQuoteUnits (config f) = None ->
  mode (config f) = volumeFilterModeExact ->
  IsSelling (baseAsset f) (quoteAsset f) (Selling op) (Buying op) = Ok true ->
  ParseFloat (Price op) = Some sellPrice ->
  ParseFloat (Amount op) = Some 30%Q ->
  let dailyOTB := makeOTB {| BaseVol := 80; QuoteVol := otbQuote |} in
  exists shrunk booked,
    volumeFilterFn f dailyOTB op emptyTBB = (Ok (Some shrunk), booked)
    /\ Amount shrunk = Sprintf_7f 20
    /\ (Selling shrunk = Selling op /\ Buying shrunk = Buying op
        /\ Price shrunk = Price op /\ OfferID shrunk = OfferID op)
    /\ SellBaseAssetCapInBaseUnits booked = Some 20%Q
    /\ SellBaseAssetCapInQuoteUnits booked = Some (0 + 20 * sellPrice)%Q
    /\ (forall sellingOffers buyingOffers rest,
          filterOps (name f) (baseAsset f) (quoteAsset f) sellingOffers buyingOffers
            (op :: rest) (volumeFilterFn f dailyOTB) emptyTBB
          = match filterOps (name f) (baseAsset f) (quoteAsset f) sellingOffers buyingOffers
                    rest (volumeFilterFn f dailyOTB) booked with
            | (Ok kept, tbb) => (Ok (shrunk :: kept), tbb)
            | (Err e, tbb) => (Err e, tbb)
            | (Panic, tbb) => (Panic, tbb)
            end)
    /\ (forall sellingOffers buyingOffers,
          ApplyRun f (Ok (IsDailyVolume {| BaseVol := 80; QuoteVol := otbQuote |}))
            [op] sellingOffers buyingOffers
          = (Ok [shrunk], booked)).
Proof.
  intros Hbase Hquote Hmode Hsell Hprice Hamount dailyOTB.
  destruct (volumeFilterFn f dailyOTB op emptyTBB) as [r booked] eqn:Hfn.
  assert (exists shrunk,
             r = Ok (Some shrunk) /\ Amount shrunk = Sprintf_7f 20
             /\ (Selling shrunk = Selling op /\ Buying shrunk = Buying op
                 /\ Price shrunk = Price op /\ OfferID shrunk = OfferID op)
             /\ SellBaseAssetCapInBaseUnits booked = Some 20%Q
             /\ SellBaseAssetCapInQuoteUnits booked = Some (0 + 20 * sellPrice)%Q)
    as (shrunk & -> & Hamt & Hsame & Hb & Hq).
  { unfold volumeFilterFn in Hfn. rewrite Hsell, Hprice, Hamount, Hbase, Hquote, Hmode in Hfn.
    injection Hfn as <- <-. eexists. repeat split; reflexivity. }
  exists shrunk, booked. split; [reflexivity|].
  split; [exact Hamt|]. split; [exact Hsame|]. split; [exact Hb|]. split; [exact Hq|].
  split.
  - intros sellingOffers buyingOffers rest. simpl. unfold bind at 1. rewrite Hfn.
    unfold bind, ret.
    destruct (filterOps _ _ _ _ _ rest _ booked) as [[kept|e|] tbb]; reflexivity.
  - intros sellingOffers buyingOffers. unfold ApplyRun. simpl. unfold bind at 1.
    fold dailyOTB. rewrite Hfn. reflexivity.
Qed.

(** C6 (amended).  An operation that is not a sell of the base asset (and
    whose price and amount parse) is dropped: for any configuration, any
    on-the-books values and any running totals the filter function returns
    no operation for it and leaves the running totals as they are, so the
    operation is absent from what the filter keeps. *)
Theorem volumeFilter_buy_dropped
    (f : volumeFilter) (dailyOTB dailyTBB : VolumeFilterConfig) (op : ManageSellOffer)
    (sellPrice amount : Q) :
  IsSelling (baseAsset f) (quoteAsset f) (Selling op) (Buying op) = Ok false ->
  ParseFloat (Price op) = Some sellPrice ->
  ParseFloat (Amount op) = Some amount ->
  volumeFilterFn f dailyOTB op dailyTBB = (Ok None, dailyTBB)
  /\ forall sellingOffers buyingOffers rest,
       filterOps (name f) (baseAsset f) (quoteAsset f) sellingOffers buyingOffers
         (op :: rest) (volumeFilterFn f dailyOTB) dailyTBB
       = filterOps (name f) (baseAsset f) (quoteAsset f) sellingOffers buyingOffers
           rest (volumeFilterFn f dailyOTB) dailyTBB.
Proof.
  intros Hsell Hprice Hamount.
  assert (volumeFilterFn f dailyOTB op dailyTBB = (Ok None, dailyTBB)) as Hfn.
  { unfold volumeFilterFn. rewrite Hsell, Hprice, Hamount. reflexivity. }
  split; [exact Hfn|].
  intros sellingOffers buyingOffers rest. simpl. unfold bind at 1. rewrite Hfn.
  unfold bind, ret.
  destruct (filterOps _ _ _ _ _ rest _ dailyTBB) as [[kept|e|] tbb]; reflexivity.
Qed.

End VolumeFilterFacts.

Section VolumeFilterRuns.
Import Reference Scenario VolumeFilter.

(** The sell of 30 at 2 comes back with the amount "20.0000000" and its
    other fields unchanged, with 20 base units and 40 quote units to be
    booked. *)
Lemma volumeFilter_exact_witness :
  exists booked,
    ApplyRun (capped100 volumeFilterModeExact) sold80 [sell30] [] []
    = (Ok [ {| Selling := COUPON; Buying := XLM; Amount := "20.0000000"; Price := "2";
               OfferID := 0 |} ], booked)
    /\ SellBaseAssetCapInBaseUnits booked = Some 20%Q
    /\ SellBaseAssetCapInQuoteUnits booked = Some 40%Q.
Proof.
  edestruct (@volumeFilter_exact_base_cap_shrinks strconv isSelling
               (capped100 volumeFilterModeExact) sell30 2 160)
    as (shrunk & booked & _ & Hamount & (Hselling & Hbuying & Hprice & Hid) & Hbase & Hquote
        & _ & Happly); [reflexivity..|].
  exists booked. split; [|split; [exact Hbase|exact Hquote]].
  refine (eq_trans (Happly [] []) _). destruct shrunk as [selling buying amount price id].
  cbn in Hamount, Hselling, Hbuying, Hprice, Hid. subst. reflexivity.
Defined.

(** C6, as stated, fails: the buy operation is not a sell with respect to
    the pair, the filter function returns no operation for it, and [Apply]
    returns an empty list. *)
Lemma volumeFilter_drops_buy :
  IsSelling COUPON XLM (Selling buy30) (Buying buy30) = Ok false
  /\ fst (volumeFilterFn (capped100 volumeFilterModeExact)
            (makeOTB {| BaseVol := 80; QuoteVol := 160 |}) buy30 emptyTBB) = Ok None
  /\ Apply (capped100 volumeFilterModeExact) sold80 [buy30] [] [] = Ok [].
Proof. repeat split; reflexivity. Qed.

(** Ignore mode on the same inputs: the sell of 30 is dropped and nothing
    is booked. *)
Example volumeFilter_ignore_drops :
  ApplyRun (capped100 volumeFilterModeIgnore) sold80 [sell30] [] [] = (Ok [], emptyTBB).
Proof. reflexivity. Qed.

(** The buy operation in front of the sell: only the sell is processed. *)
Lemma volumeFilter_buy_dropped_witness :
  filterOps "volumeFilter" COUPON XLM [] [] [buy30; sell30]
    (volumeFilterFn (capped100 volumeFilterModeExact)
       (makeOTB {| BaseVol := 80; QuoteVol := 160 |})) emptyTBB
  = filterOps "volumeFilter" COUPON XLM [] [] [sell30]
      (volumeFilterFn (capped100 volumeFilterModeExact)
         (makeOTB {| BaseVol := 80; QuoteVol := 160 |})) emptyTBB.
Proof.
  refine (proj2 (@volumeFilter_buy_dropped strconv isSelling
                   (capped100 volumeFilterModeExact)
                   (makeOTB {| BaseVol := 80; QuoteVol := 160 |}) emptyTBB buy30
                   (1 # 2) 60 _ _ _) [] [] [sell30]);
    reflexivity.
Defined.

End VolumeFilterRuns.

(** ** The TWAP scheduler *)

(** *** The geometric redistribution *)

(** The formula of the redistribution read over exact rationals: what the
    geometric series gives when nothing is rounded. *)

Section Geometric.
Local Open Scope Q_scope.

Lemma Qpower_succ_nat (r : Q) (k : nat) :
  r ^ Z.of_nat (S (S k)) == r ^ Z.of_nat (S k) * r.
Proof.
  replace (Z.of_nat (S (S k))) with (Z.of_nat (S k) + 1)%Z by lia.
  rewrite Qpower_plus' by lia. reflexivity.
Qed.

(** For a ratio [0 <= r < 1] and [n >= 1]: [1 - r^n <= n (1 - r)], strictly
    from [n = 2] on. *)
Lemma geometric_bound (r : Q) (k : nat) :
  0 <= r -> r < 1 ->
  0 <= r ^ Z.of_nat (S k) /\ r ^ Z.of_nat (S k) <= r
  /\ 1 - r ^ Z.of_nat (S k) <= inject_Z (Z.of_nat (S k)) * (1 - r)
  /\ ((1 <= k)%nat -> 1 - r ^ Z.of_nat (S k) < inject_Z (Z.of_nat (S k)) * (1 - r)).
Proof.
  intros H0 H1. induction k as [|k IH].
  - change (Z.of_nat 1) with 1%Z. change (r ^ 1) with r. change (inject_Z 1) with 1.
    repeat split; try lra. intros; lia.
  - destruct IH as (Hx0 & Hxr & Hle & _).
    rewrite Qpower_succ_nat.
    set (x := r ^ Z.of_nat (S k)) in *.
    assert (inject_Z (Z.of_nat (S (S k))) == inject_Z (Z.of_nat (S k)) + 1) as Hn.
    { replace (Z.of_nat (S (S k))) with (Z.of_nat (S k) + 1)%Z by lia.
      rewrite inject_Z_plus. reflexivity. }
    rewrite Hn. set (n := inject_Z (Z.of_nat (S k))) in *.
    assert (0 <= x * r) by (apply Qmult_le_0_compat; assumption).
    assert (x * r <= r) by nra.
    assert (x * r <= x) by nra.
    repeat split; try assumption.
    + nra.
    + intros _. nra.
Qed.

(** The horizon [n = ceil (c * R)] lies between 1 and [R] when the ceiling
    fraction [c] is positive and at most 1. *)
Lemma ceiling_range (c : Q) (R : Z) :
  0 < c -> c <= 1 -> (1 <= R)%Z ->
  (1 <= Qceiling (c * inject_Z R) <= R)%Z.
Proof.
  intros Hc0 Hc1 HR.
  assert (1 <= inject_Z R) as HR' by (rewrite (Zle_Qle 1 R) in HR; exact HR).
  split.
  - assert (0 < c * inject_Z R) as Hpos by nra.
    pose proof (Qle_ceiling (c * inject_Z R)) as Hle.
    assert (0 < inject_Z (Qceiling (c * inject_Z R))) as Hlt by lra.
    change 0 with (inject_Z 0) in Hlt. rewrite <- Zlt_Qlt in Hlt. lia.
  - rewrite <- (Qceiling_Z R) at 2. apply Qceiling_resp_le. nra.
Qed.

Lemma front_loaded (Sn r : Q) (n R : Z) :
  0 < Sn -> 0 <= r -> r < 1 -> (1 <= n <= R)%Z -> (2 <= R)%Z ->
  Sn / inject_Z R < Sn * (r - 1) / (r ^ n - 1).
Proof.
  intros HS Hr0 Hr1 Hn HR.
  destruct (Z_of_nat_complete (n - 1)) as [k Hk]; [lia|].
  assert (n = Z.of_nat (S k)) as -> by lia.
  destruct (geometric_bound r k Hr0 Hr1) as (Hx0 & Hxr & Hle & Hlt).
  set (x := r ^ Z.of_nat (S k)) in *.
  assert (inject_Z (Z.of_nat (S k)) <= inject_Z R) as HnR by (rewrite <- Zle_Qle; lia).
  assert (2 <= inject_Z R) as HR2 by (rewrite (Zle_Qle 2 R) in HR; exact HR).
  assert (1 - x < inject_Z R * (1 - r)) as Hkey.
  { destruct k as [|k].
    - change (Z.of_nat 1) with 1%Z in *. change (inject_Z 1) with 1 in *. nra.
    - assert (1 - x < inject_Z (Z.of_nat (S (S k))) * (1 - r)) by (apply Hlt; lia).
      nra. }
  assert (Sn * (r - 1) / (x - 1) == Sn * (1 - r) / (1 - x)) as -> by (field; lra).
  apply Qlt_shift_div_l; [lra|].
  assert (0 < Sn / inject_Z R) as Hy by (apply Qlt_shift_div_l; lra).
  assert (Sn == Sn / inject_Z R * inject_Z R) as HS' by (field; lra).
  set (y := Sn / inject_Z R) in *.
  rewrite HS'.
  assert (y * (1 - x) < y * (inject_Z R * (1 - r))) by (apply Qmult_lt_l; assumption).
  lra.
Qed.

(** With a horizon of one bucket the whole surplus goes into it. *)
Lemma single_bucket_takes_all (Sn r : Q) :
  r < 1 -> Sn * (r - 1) / (r ^ 1 - 1) == Sn.
Proof. intros Hr. change (r ^ 1) with r. field. lra. Qed.

End Geometric.

Section TwapFacts.
Context `{NumberOps} `{TwapOps}.
Import Twap.

Lemma wrap64_id (z : Z) : - 2 ^ 63 <= z < 2 ^ 63 -> wrap64 z = z.
Proof.
  intros Hz. unfold wrap64. rewrite Z.mod_small; lia.
Qed.

Lemma wrap64_range (z : Z) : - 2 ^ 63 <= wrap64 z < 2 ^ 63.
Proof.
  unfold wrap64. pose proof (Z.mod_pos_bound (z + 2 ^ 63) (2 ^ 64)). lia.
Qed.

(** The bucket index of a call lies within the day. *)
Lemma bucketIndex_range (p : sellTwapLevelProvider) (w : World) :
  0 < parentBucketSizeSeconds p ->
  0 <= bucketIndex p w < secondsInDay.
Proof.
  intros Hsize. unfold bucketIndex, floorDate.
  replace (now w - (now w - now w mod secondsInDay)) with (now w mod secondsInDay) by lia.
  assert (0 <= now w mod secondsInDay < secondsInDay) as Hmod
    by (apply Z.mod_pos_bound; reflexivity).
  assert (0 <= Z.quot (now w mod secondsInDay) (parentBucketSizeSeconds p) < secondsInDay) as Hq.
  { rewrite Z.quot_div_nonneg by lia. split.
    - apply Z.div_pos; lia.
    - apply Z.le_lt_trans with (now w mod secondsInDay); [|lia].
      apply Z.div_le_upper_bound; nia. }
  rewrite wrap64_id; [exact Hq|].
  change secondsInDay with 86400 in *. lia.
Qed.

(** C7.  With an active bucket, a call whose bucket index is neither the
    active bucket's index nor that index plus one fails with an error (no
    level is returned) and leaves the provider exactly as it was: the active
    bucket keeps its old index. *)
Theorem GetLevels_index_jump_fails
    (maxAssetBase maxAssetQuote : Q) (w : World) (p : sellTwapLevelProvider)
    (active : bucketInfo) :
  activeBucket p = Some active ->
  length (dowFilter p) = 7%nat ->
  0 < parentBucketSizeSeconds p ->
  - 2 ^ 63 <= ID active < 2 ^ 63 ->
  bucketIndex p w <> ID active ->
  bucketIndex p w <> ID active + 1 ->
  exists e, GetLevels maxAssetBase maxAssetQuote w p = (Err e, p).
Proof.
  intros Hactive Hdow Hsize Hid Hsame Hnext.
  unfold GetLevels.
  assert (0 <= Weekday (now w) < 7) as Hday by (apply Z.mod_pos_bound; lia).
  destruct (lookup_lt_is_Some_2 (dowFilter p) (Z.to_nat (Weekday (now w)))) as [vf Hvf];
    [lia|].
  rewrite Hvf. unfold makeBucketInfo.
  destruct (Z.eqb_spec (parentBucketSizeSeconds p) 0) as [Hz|_]; [lia|].
  rewrite Hactive.
  destruct (Z.eqb_spec (bucketIndex p w) (ID active)) as [Heq|_]; [contradiction|].
  unfold cutoverToNewBucket. rewrite Hactive.
  pose proof (bucketIndex_range p w Hsize) as Hrange.
  destruct (Z.eqb_spec (bucketIndex p w) (wrap64 (ID active + 1))) as [Heq|_].
  - exfalso. destruct (Z.eq_dec (ID active + 1) (2 ^ 63)) as [Hmax|Hmax].
    + rewrite Hmax in Heq. change (wrap64 (2 ^ 63)) with (- 2 ^ 63) in Heq. lia.
    + rewrite wrap64_id in Heq by lia. contradiction.
  - simpl. eexists. reflexivity.
Qed.

(** C10.  Whenever [GetLevels] returns an error, the provider afterwards
    has the active bucket and the previous round id it had before the call,
    and differs from the provider before the call at most in the state of
    its random source; the next call therefore computes the same round id
    and the same bucket as if the failed call had not happened. *)
Theorem GetLevels_error_keeps_state
    (maxAssetBase maxAssetQuote : Q) (w : World) (p p' : sellTwapLevelProvider)
    (e : error) :
  GetLevels maxAssetBase maxAssetQuote w p = (Err e, p') ->
  activeBucket p' = activeBucket p
  /\ previousRoundID p' = previousRoundID p
  /\ p' = set_random p (random p')
  /\ makeRoundID p' = makeRoundID p
  /\ forall w' volFilter rID,
       makeBucketInfo p' w' volFilter rID = makeBucketInfo p w' volFilter rID.
Proof.
  unfold GetLevels. intros Hrun.
  assert (p' = set_random p (random p')) as Hp'.
  { destruct (dowFilter p !! Z.to_nat (Weekday (now w))) as [vf|]; [|discriminate].
    destruct (makeBucketInfo p w vf (makeRoundID p)) as [bucket|e1|].
    - destruct (makeRoundInfo p w (makeRoundID p) bucket) as [[round|e2|] rnd];
        try discriminate.
      injection Hrun as _ <-. reflexivity.
    - injection Hrun as _ <-. destruct p; reflexivity.
    - discriminate. }
  rewrite Hp'. repeat split; reflexivity.
Qed.


End TwapFacts.

Section TwapRuns.
Import Reference Scenario Twap.

(** The factory accepts the configuration of the two-bucket provider. *)
Example makeSellTwapLevelProvider_twoBuckets :
  makeSellTwapLevelProvider (0%Q : rateOffset) (orderConstraints twoBuckets)
    (repeat everyDay 7) 24 43200 1 (1 # 2) 0 42
  = Ok (set_random twoBuckets []).
Proof. reflexivity. Qed.

(** After a call at noon (bucket 1) a call ten seconds into the next day
    computes bucket 0: it fails and the provider is as before. *)
Lemma GetLevels_index_jump_witness :
  exists e, GetLevels 0 0 (quiet 86410) afterNoon = (Err e, afterNoon).
Proof.
  eapply (@GetLevels_index_jump_fails numbers twap 0%Q 0%Q (quiet 86410) afterNoon).
  - reflexivity.
  - reflexivity.
  - reflexivity.
  - vm_compute. split; [discriminate|reflexivity].
  - vm_compute. discriminate.
  - vm_compute. discriminate.
Defined.

(** A call at which the price feed is down: the active bucket and the round
    id stay those of the call at midnight. *)
Lemma GetLevels_error_witness :
  activeBucket (snd (GetLevels 0 0 (feedDown 10) afterMidnight)) = activeBucket afterMidnight
  /\ previousRoundID (snd (GetLevels 0 0 (feedDown 10) afterMidnight))
     = previousRoundID afterMidnight.
Proof.
  pose proof (@GetLevels_error_keeps_state numbers twap 0%Q 0%Q (feedDown 10) afterMidnight
                (snd (GetLevels 0 0 (feedDown 10) afterMidnight))
                (Wrapf "unable to make roundInfo"
                   (Wrapf "could not get price from feed" (Errorf "feed down")))
                eq_refl) as (Hbucket & Hround & _).
  split; assumption.
Defined.

(** The same failed call has drawn from the random source. *)
Remark GetLevels_price_failure_draws :
  random afterMidnight = [1 # 4]%Q
  /\ random (snd (GetLevels 0 0 (feedDown 10) afterMidnight)) = [].
Proof. split; reflexivity. Qed.


(** The formula in binary64 on the numbers of its comment: a surplus of
    8000 over four buckets with ratio one half gives 4266.67. *)
Example firstDistributionOfBaseSurplus_comment :
  Binary64.firstDistributionOfBaseSurplus 8000 0.5 1 4 = Some 0x1.0aaaaaaaaaaabp+12%float.
Proof. vm_compute. reflexivity. Qed.


End TwapRuns.

(** ** More on the reconciler *)

Section ReconcilerShape.
Context `{NumberOps} `{SDEXOps} `{!TradeAPI} `{UtilsOps}.
Import Mirror.

(** One pair yields at most one operation. *)
Lemma doModifyOffer_at_most_one s oldOffer newOrder priceMultiplier modifyOffer hack sdex m d sdex' :
  doModifyOffer s oldOffer newOrder priceMultiplier modifyOffer hack sdex = (Ok (m, d), sdex') ->
  m = None \/ d = None.
Proof.
  unfold doModifyOffer. intros Hrun.
  destruct (MustNumberFromString (Price oldOffer) _); [|discriminate].
  destruct (MustNumberFromString (Amount oldOffer) _); [|discriminate].
  destruct (canonicalOld hack n n0) as [oldPrice oldVol].
  destruct (sameOrderParams _ _ _ _); [left; congruence|].
  destruct (Qltb _ _); [left; congruence|].
  destruct (modifyOffer _ _ _ _ _) as [[mo|]| |]; try discriminate; [right|left]; congruence.
Qed.

(** X1.  One pair yields at most one operation: [doModifyOffer] never
    returns both a modify and a delete operation.  Whenever it returns a
    delete operation, and whenever it returns an error, the cached
    liabilities are exactly as before the call. *)
Theorem doModifyOffer_one_op_and_delete_reserves_nothing
    (s : mirrorStrategy) (oldOffer : Offer) (newOrder : Order) (priceMultiplier : Q)
    (modifyOffer : modifyFn) (hack : bool) (sdex sdex' : SDEX)
    (r : result (option TransactionMutator * option TransactionMutator)) :
  doModifyOffer s oldOffer newOrder priceMultiplier modifyOffer hack sdex = (r, sdex') ->
  (forall m d, r = Ok (m, d) -> m = None \/ d = None)
  /\ (forall m d, r = Ok (m, Some d) -> sdex' = sdex)
  /\ (forall e, r = Err e -> sdex' = sdex).
Proof.
  unfold doModifyOffer. intros Hrun.
  destruct (MustNumberFromString (Price oldOffer) _);
    [|injection Hrun as <- <-; repeat split; intros; discriminate].
  destruct (MustNumberFromString (Amount oldOffer) _);
    [|injection Hrun as <- <-; repeat split; intros; discriminate].
  destruct (canonicalOld hack n n0) as [oldPrice oldVol].
  destruct (sameOrderParams _ _ _ _).
  { injection Hrun as <- <-. repeat split; intros; try discriminate.
    left. congruence. }
  destruct (Qltb _ _).
  { injection Hrun as <- <-. repeat split; intros; try reflexivity.
    left. congruence. }
  destruct (modifyOffer _ _ _ _ _) as [[mo|]| |]; injection Hrun as <- <-;
    repeat split; intros; try reflexivity; try discriminate;
    [right|left]; congruence.
Qed.

Lemma appendOpt_length {A} (l : list A) (o : option A) :
  length (appendOpt l o) = (length l + match o with Some _ => 1 | None => 0 end)%nat.
Proof. destruct o; simpl; [rewrite length_app; simpl|]; lia. Qed.

Lemma modifyLoop_length s pairs priceMultiplier modifyOffer hack :
  forall ops deleteOps sdex r sdex',
    modifyLoop s pairs priceMultiplier modifyOffer hack ops deleteOps sdex = (Ok r, sdex') ->
    (length (fst r) + length (snd r) <= length ops + length deleteOps + length pairs)%nat
    /\ (length deleteOps <= length (snd r))%nat.
Proof.
  induction pairs as [|[oldOffer newOrder] rest IH]; intros ops deleteOps sdex r sdex' Hrun.
  - injection Hrun as <- _. simpl. lia.
  - simpl in Hrun. unfold bind in Hrun.
    destruct (doModifyOffer s oldOffer newOrder priceMultiplier modifyOffer hack sdex)
      as [[[m d]| |] sdex1] eqn:E; try discriminate.
    pose proof (doModifyOffer_at_most_one _ _ _ _ _ _ _ _ _ _ E) as Hmd.
    apply IH in Hrun. simpl in Hrun. rewrite !appendOpt_length in Hrun.
    destruct m, d; simpl in *; try lia. destruct Hmd; discriminate.
Qed.

Lemma createLoop_length s newOrders priceMultiplier createOffer hack :
  forall ops sdex r sdex',
    createLoop s newOrders priceMultiplier createOffer hack ops sdex = (Ok r, sdex') ->
    (length r <= length ops + length newOrders)%nat
    /\ (countOps isCreate r <= countOps isCreate ops + length newOrders)%nat.
Proof.
  induction newOrders as [|o rest IH]; intros ops sdex r sdex' Hrun.
  - injection Hrun as <- _. simpl. lia.
  - simpl in Hrun.
    destruct (Qltb _ _); [apply IH in Hrun; simpl; lia|].
    destruct (createOffer _ _ _ _ _ _) as [[mo|]| |]; try discriminate.
    + apply IH in Hrun. unfold countOps in *.
      rewrite length_app, List.filter_app, length_app in Hrun. simpl in *. lia.
    + apply IH in Hrun. simpl. lia.
Qed.

Lemma modifyLoop_no_create s pairs priceMultiplier modifyOffer hack :
  forall ops deleteOps sdex r sdex',
    modifyLoop s pairs priceMultiplier modifyOffer hack ops deleteOps sdex = (Ok r, sdex') ->
    countOps isCreate (fst r) = countOps isCreate ops.
Proof.
  induction pairs as [|[oldOffer newOrder] rest IH]; intros ops deleteOps sdex r sdex' Hrun.
  - injection Hrun as <- _. reflexivity.
  - simpl in Hrun. unfold bind in Hrun.
    destruct (doModifyOffer s oldOffer newOrder priceMultiplier modifyOffer hack sdex)
      as [[[m d]| |] sdex1] eqn:E; try discriminate.
    apply IH in Hrun. rewrite Hrun. simpl.
    unfold doModifyOffer in E.
    destruct (MustNumberFromString (Price oldOffer) _); [|discriminate].
    destruct (MustNumberFromString (Amount oldOffer) _); [|discriminate].
    destruct (canonicalOld hack n n0) as [oldPrice oldVol].
    destruct (sameOrderParams _ _ _ _); [injection E as <- _ _; reflexivity|].
    destruct (Qltb _ _); [injection E as <- _ _; reflexivity|].
    destruct (modifyOffer _ _ _ _ _) as [[mo|]| |]; try discriminate;
      injection E as <- _ _; [|reflexivity].
    unfold countOps. simpl. rewrite List.filter_app, length_app. simpl. lia.
Qed.

Lemma countOps_deletes (test : TransactionMutator -> bool) (l : list TransactionMutator) :
  Forall (fun o => isDelete o = true) l ->
  (forall o, isDelete o = true -> test o = false) ->
  countOps test l = 0%nat.
Proof.
  intros Hall Htest. unfold countOps. induction Hall as [|o l Ho _ IH]; [reflexivity|].
  simpl. rewrite (Htest o Ho). exact IH.
Qed.

Lemma countOps_app (test : TransactionMutator -> bool) (a b : list TransactionMutator) :
  countOps test (a ++ b) = (countOps test a + countOps test b)%nat.
Proof. unfold countOps. rewrite List.filter_app, length_app. reflexivity. Qed.

Lemma countOps_all_deletes (l : list TransactionMutator) :
  Forall (fun o => isDelete o = true) l -> countOps isDelete l = length l.
Proof.
  intros Hall. unfold countOps. induction Hall as [|o l Ho _ IH]; [reflexivity|].
  simpl. rewrite Ho. simpl. f_equal. exact IH.
Qed.

Lemma delete_not_create (o : TransactionMutator) : isDelete o = true -> isCreate o = false.
Proof. destruct o; simpl; congruence. Qed.

(** The counts of one side's list, against the sizes of its two inputs. *)
Lemma updateLevels_counts
    (s : mirrorStrategy) (oldOffers : list Offer) (newOrders : list Order)
    (modifyOffer : modifyFn) (createOffer : createFn) (priceMultiplier : Q) (hack : bool)
    (sdex sdex' : SDEX) (l : list TransactionMutator) :
  updateLevels s oldOffers newOrders modifyOffer createOffer priceMultiplier hack sdex
    = (Ok l, sdex') ->
  (length l <= Nat.max (length oldOffers) (length newOrders))%nat
  /\ (countOps isCreate l <= length newOrders - length oldOffers)%nat
  /\ (length oldOffers - length newOrders <= countOps isDelete l)%nat.
Proof.
  unfold updateLevels. intros Hrun.
  destruct (Nat.leb_spec (length oldOffers) (length newOrders)) as [Hle|Hgt].
  - unfold bind in Hrun.
    destruct (modifyLoop _ _ _ _ _ _ _ _) as [[r| |] sdex1] eqn:E1; try discriminate.
    destruct (createLoop _ _ _ _ _ _ _) as [[ops| |] sdex2] eqn:E2; try discriminate.
    injection Hrun as <- _.
    pose proof (modifyLoop_kinds _ _ _ _ _ _ _ _ _ _ (List.Forall_nil _) (List.Forall_nil _) E1)
      as [_ Hdels].
    pose proof (modifyLoop_no_create _ _ _ _ _ _ _ _ _ _ E1) as Hnc.
    apply modifyLoop_length in E1. apply createLoop_length in E2.
    rewrite length_combine in E1. rewrite length_skipn in E2.
    rewrite length_app, countOps_app.
    rewrite (countOps_deletes isCreate (snd r) Hdels delete_not_create).
    change (countOps isCreate []) with 0%nat in Hnc.
    simpl in *. lia.
  - unfold bind in Hrun.
    destruct (modifyLoop _ _ _ _ _ _ _ _) as [[r| |] sdex1] eqn:E1; try discriminate.
    injection Hrun as <- _.
    pose proof (modifyLoop_no_create _ _ _ _ _ _ _ _ _ _ E1) as Hnc.
    pose proof (modifyLoop_kinds _ _ _ _ _ _ _ _ _ _ (List.Forall_nil _) (List.Forall_nil _) E1)
      as [_ Hdels].
    apply modifyLoop_length in E1. rewrite length_combine in E1.
    set (extra := map (fun o => DeleteOp (DeleteOffer sdex1 o))
                      (skipn (length newOrders) oldOffers)) in *.
    assert (length extra = (length oldOffers - length newOrders)%nat) as Hextra
      by (unfold extra; rewrite length_map, length_skipn; reflexivity).
    assert (Forall (fun o => isDelete o = true) extra) as Hextra_del.
    { unfold extra. apply Forall_forall. intros x Hin.
      apply list_elem_of_In, in_map_iff in Hin. destruct Hin as [o [<- _]]. reflexivity. }
    rewrite !length_app, !countOps_app.
    rewrite (countOps_deletes isCreate (snd r) Hdels delete_not_create).
    rewrite (countOps_deletes isCreate extra Hextra_del delete_not_create).
    rewrite (countOps_all_deletes extra Hextra_del).
    change (countOps isCreate []) with 0%nat in Hnc.
    simpl in *. lia.
Qed.

(** X2.  The list [updateLevels] returns for one side is never longer than
    the longer of its two inputs; its create operations are at most the
    targets in excess of the live offers (none when there are fewer targets
    than live offers), and its delete operations are at least the live
    offers in excess of the targets. *)
Theorem updateLevels_shape
    (s : mirrorStrategy) (oldOffers : list Offer) (newOrders : list Order)
    (modifyOffer : modifyFn) (createOffer : createFn) (priceMultiplier : Q) (hack : bool)
    (sdex sdex' : SDEX) (l : list TransactionMutator) :
  updateLevels s oldOffers newOrders modifyOffer createOffer priceMultiplier hack sdex
    = (Ok l, sdex') ->
  (length l <= Nat.max (length oldOffers) (length newOrders))%nat
  /\ (countOps isCreate l <= length newOrders - length oldOffers)%nat
  /\ (length oldOffers - length newOrders <= countOps isDelete l)%nat.
Proof. apply updateLevels_counts. Qed.

(** X3.  With at most 50 live offers on each side, the list of a whole pass
    holds at most 100 operations: the order book is cut to 50 bids and 50
    asks, and each side yields no more operations than the longer of its
    inputs. *)
Theorem UpdateWithOps_at_most_100_ops
    (s : mirrorStrategy) (ex : Exchange) (buyingAOffers sellingAOffers : list Offer)
    (sdex sdex' : SDEX) (l : list TransactionMutator) :
  (length buyingAOffers <= 50)%nat ->
  (length sellingAOffers <= 50)%nat ->
  UpdateWithOps s ex buyingAOffers sellingAOffers sdex = (Ok l, sdex') ->
  (length l <= 100)%nat.
Proof.
  intros Hbuy Hsell Hrun. unfold UpdateWithOps in Hrun.
  destruct (GetOrderBook ex (backingPair s) (orderbookDepth s)) as [ob|e|]; try discriminate.
  unfold bind in Hrun.
  destruct (updateLevels s buyingAOffers _ _ _ _ true sdex) as [[buyOps| |] sdex1] eqn:Ebuy;
    try discriminate.
  destruct (updateLevels s sellingAOffers _ _ _ _ false sdex1) as [[sellOps| |] sdex2] eqn:Esell;
    try discriminate.
  apply updateLevels_counts in Ebuy. apply updateLevels_counts in Esell.
  destruct Ebuy as [Hb _]. destruct Esell as [Hs _].
  pose proof (firstn_le_length 50 (Bids ob)) as Hbids.
  pose proof (firstn_le_length 50 (Asks ob)) as Hasks.
  assert (length l = (length buyOps + length sellOps)%nat) as ->.
  { destruct (Bids ob) as [|bid0 ?]; [injection Hrun as <- _; apply length_app|].
    destruct sellingAOffers as [|sell0 ?]; [injection Hrun as <- _; apply length_app|].
    destruct (PriceAsFloat (Price sell0)); [|discriminate].
    destruct (Qleb _ _); injection Hrun as <- _; rewrite length_app; lia. }
  lia.
Qed.

End ReconcilerShape.

Section ReconcilerShapeRuns.
Import Reference Scenario Mirror.

(** On the account without funds the changed sell offer is deleted and the
    liabilities are as before. *)
Lemma doModifyOffer_one_op_witness :
  snd (doModifyOffer strategy sellOffer (limitOrder OrderActionSell 2 12) 1 ModifySellOffer
         false unfunded) = unfunded.
Proof.
  refine (proj1 (proj2 (@doModifyOffer_one_op_and_delete_reserves_nothing numbers sdex
            strategy sellOffer (limitOrder OrderActionSell 2 12) 1 ModifySellOffer false
            unfunded
            (snd (doModifyOffer strategy sellOffer (limitOrder OrderActionSell 2 12) 1
                    ModifySellOffer false (unfunded : @SDEX sdex)))
            (Ok (None, Some (DeleteOp (DeleteOffer unfunded sellOffer)))) _))
            None (DeleteOp (DeleteOffer unfunded sellOffer)) _);
    reflexivity.
Defined.

(** Two live sell offers against no target: two deletes, no create. *)
Lemma updateLevels_shape_witness :
  exists l,
    fst (updateLevels strategy [sellOffer; sellOfferAt3] [] ModifySellOffer CreateSellOffer
           1 false funded) = Ok l
    /\ (length l <= Nat.max 2 0)%nat
    /\ (countOps isCreate l <= 0 - 2)%nat
    /\ (2 - 0 <= countOps isDelete l)%nat.
Proof.
  eexists. split; [reflexivity|].
  apply (@updateLevels_shape numbers sdex strategy [sellOffer; sellOfferAt3] []
           ModifySellOffer CreateSellOffer 1 false funded
           (snd (updateLevels strategy [sellOffer; sellOfferAt3] [] ModifySellOffer
                   CreateSellOffer 1 false (funded : @SDEX sdex)))).
  reflexivity.
Defined.

(** The pass with one buy offer and one sell offer has two operations. *)
Lemma UpdateWithOps_at_most_100_witness :
  (length modifyThenDelete <= 100)%nat.
Proof.
  apply (@UpdateWithOps_at_most_100_ops numbers sdex tradeAPI utils strategy oneBid
           [buyOffer] [sellOfferAt3] funded
           (snd (UpdateWithOps strategy (oneBid : @Exchange numbers tradeAPI) [buyOffer] [sellOfferAt3]
                   (funded : @SDEX sdex)))).
  - simpl. lia.
  - simpl. lia.
  - reflexivity.
Defined.

End ReconcilerShapeRuns.

(** ** More on the fill-offset tracker *)

Section FillOffsetMore.
Context `{NumberOps} `{SDEXOps} `{!TradeAPI} `{UtilsOps}.
Import Mirror.

(** Writing the entry of a direction that has one keeps the other entries,
    the other fields and the set of directions. *)
Lemma set_entry_frame (a : OrderAction) (s t : mirrorStrategy) (x : assetSurplus) :
  is_Some (baseSurplus s !! a) ->
  (t = set_baseSurplus s (baseSurplus t)
   /\ (forall b, b <> a -> baseSurplus t !! b = baseSurplus s !! b)
   /\ (forall b, is_Some (baseSurplus t !! b) <-> is_Some (baseSurplus s !! b))) ->
  let t' := set_baseSurplus t (<[a := x]> (baseSurplus t)) in
  t' = set_baseSurplus s (baseSurplus t')
  /\ (forall b, b <> a -> baseSurplus t' !! b = baseSurplus s !! b)
  /\ (forall b, is_Some (baseSurplus t' !! b) <-> is_Some (baseSurplus s !! b)).
Proof.
  intros Ha (Ht & Hother & Hdom) t'. split; [|split].
  - unfold t'. rewrite Ht. reflexivity.
  - intros b Hb. unfold t'. simpl. rewrite lookup_insert_ne by congruence. apply Hother, Hb.
  - intros b. unfold t'. simpl. destruct (decide (b = a)) as [->|Hb].
    + rewrite lookup_insert_eq. split; [intros _; exact Ha|eauto].
    + rewrite lookup_insert_ne by congruence. apply Hdom.
Qed.

(** X4.  [HandleFill] writes only the surplus entry of the reversed
    direction: every other entry and every other field of the strategy is as
    before, and a direction has an entry afterwards exactly when it had one
    before.  It panics only when that entry is missing or when the exchange
    call panics. *)
Theorem HandleFill_frame
    (trade : Trade) (s s' : mirrorStrategy) (ex ex' : Exchange) (r : result unit) :
  HandleFill trade (s, ex) = (r, (s', ex')) ->
  let a := Reverse (OrderAction_ (TradeOrder trade)) in
  (s' = set_baseSurplus s (baseSurplus s')
   /\ (forall b, b <> a -> baseSurplus s' !! b = baseSurplus s !! b)
   /\ (forall b, is_Some (baseSurplus s' !! b) <-> is_Some (baseSurplus s !! b)))
  /\ (r = Panic ->
      baseSurplus s !! a = None \/ exists o, fst (AddOrder ex o) = Panic).
Proof.
  intros Hrun a. unfold HandleFill in Hrun. fold a in Hrun.
  assert (s = set_baseSurplus s (baseSurplus s)
          /\ (forall b, b <> a -> baseSurplus s !! b = baseSurplus s !! b)
          /\ (forall b, is_Some (baseSurplus s !! b) <-> is_Some (baseSurplus s !! b))) as F0.
  { split; [destruct s; reflexivity|]. split; intros; reflexivity. }
  destruct (baseSurplus s !! a) as [sp|] eqn:Hsp.
  2:{ injection Hrun as <- <- <-. split; [exact F0|]. intros _. left. reflexivity. }
  assert (is_Some (baseSurplus s !! a)) as Hsome by (rewrite Hsp; eauto).
  pose proof (set_entry_frame a s s
                (setTotal sp (Add (total sp) (OrderVolume (TradeOrder trade)))) Hsome F0) as F1.
  cbv zeta in F1.
  set (sp1 := setTotal sp (Add (total sp) (OrderVolume (TradeOrder trade)))) in *.
  set (s1 := set_baseSurplus s (<[a := sp1]> (baseSurplus s))) in *.
  assert (baseSurplus s1 !! a = Some sp1) as Hsp1 by (unfold s1; simpl; apply lookup_insert_eq).
  destruct (baseVolumeToOffset s1 trade a) as [[newVolume|]|e|] eqn:Hoff.
  - pose proof (set_entry_frame a s s1 (setCommitted sp1 (Add (committed sp1) newVolume))
                  Hsome F1) as F2.
    cbv zeta in F2.
    set (sp2 := setCommitted sp1 (Add (committed sp1) newVolume)) in *.
    set (s2 := set_baseSurplus s1 (<[a := sp2]> (baseSurplus s1))) in *.
    destruct (AddOrder ex (offsetOrder s trade a newVolume)) as [[[tx|]|e|] ex1] eqn:Eadd.
    + injection Hrun as <- <- <-. split; [|discriminate].
      apply (set_entry_frame a s s2 _ Hsome F2).
    + injection Hrun as <- <- <-. split; [exact F2|discriminate].
    + injection Hrun as <- <- <-. split; [exact F2|discriminate].
    + injection Hrun as <- <- <-. split; [exact F2|].
      intros _. right. exists (offsetOrder s trade a newVolume). rewrite Eadd. reflexivity.
  - injection Hrun as <- <- <-. split; [exact F1|discriminate].
  - injection Hrun as <- <- <-. split; [exact F1|discriminate].
  - exfalso. unfold baseVolumeToOffset in Hoff.
    rewrite Hsp1 in Hoff. destruct (Qltb _ _); discriminate.
Qed.

(** X5.  [HandleFill] submits at most one order.  Either the exchange is
    untouched, or it received exactly the one order built for the offset: a
    limit order on the backing exchange's trading pair, in the direction
    opposite to the trade's, without timestamp, priced at the trade's price
    capped to the backing price precision, for the volume that
    [baseVolumeToOffset] decided after the fill was added to the total. *)
Theorem HandleFill_submits_at_most_one_order
    (trade : Trade) (s s' : mirrorStrategy) (ex ex' : Exchange) (r : result unit)
    (sp : assetSurplus) :
  let a := Reverse (OrderAction_ (TradeOrder trade)) in
  let s1 := set_baseSurplus s
              (<[a := setTotal sp (Add (total sp) (OrderVolume (TradeOrder trade)))]>
                 (baseSurplus s)) in
  baseSurplus s !! a = Some sp ->
  HandleFill trade (s, ex) = (r, (s', ex')) ->
  (baseVolumeToOffset s1 trade a = Ok None /\ ex' = ex /\ r = Ok tt)
  \/ exists newVolume order,
       baseVolumeToOffset s1 trade a = Ok (Some newVolume)
       /\ ex' = snd (AddOrder ex order)
       /\ Pair order = backingPair s
       /\ OrderAction_ order = a
       /\ OrderType_ order = OrderTypeLimit
       /\ Timestamp order = None
       /\ OrderVolume order = newVolume
       /\ OrderPrice order
          = NumberByCappingPrecision (OrderPrice (TradeOrder trade))
              (PricePrecision (backingConstraints s)).
Proof.
  intros a s1 Hsp Hrun. unfold HandleFill in Hrun. fold a in Hrun. rewrite Hsp in Hrun.
  fold s1 in Hrun.
  destruct (baseVolumeToOffset s1 trade a) as [[newVolume|]|e|] eqn:Hoff.
  - right. exists newVolume, (offsetOrder s trade a newVolume).
    split; [reflexivity|].
    split; [|repeat split; reflexivity].
    destruct (AddOrder ex (offsetOrder s trade a newVolume)) as [[[tx|]|e|] ex1];
      injection Hrun as _ _ <-; reflexivity.
  - left. injection Hrun as <- _ <-. repeat split; reflexivity.
  - exfalso. unfold baseVolumeToOffset in Hoff.
    assert (baseSurplus s1 !! a = Some (setTotal sp (Add (total sp) (OrderVolume (TradeOrder trade)))))
      as Hsp1 by (unfold s1; simpl; apply lookup_insert_eq).
    rewrite Hsp1 in Hoff. destruct (Qltb _ _); discriminate.
  - exfalso. unfold baseVolumeToOffset in Hoff.
    assert (baseSurplus s1 !! a = Some (setTotal sp (Add (total sp) (OrderVolume (TradeOrder trade)))))
      as Hsp1 by (unfold s1; simpl; apply lookup_insert_eq).
    rewrite Hsp1 in Hoff. destruct (Qltb _ _); discriminate.
Qed.

(** X6.  When the offset of a fill is attempted and the exchange answers
    with a transaction identifier, [HandleFill] returns without error and
    the offset volume is taken off both sides again: [total] is the old
    total plus the fill minus the offset volume, [committed] is the old
    committed plus and minus the offset volume. *)
Theorem HandleFill_success_releases
    (trade : Trade) (s : mirrorStrategy) (ex : Exchange) (sp : assetSurplus)
    (newVolume : Number) (transactionID : string) :
  let a := Reverse (OrderAction_ (TradeOrder trade)) in
  let total1 := Add (total sp) (OrderVolume (TradeOrder trade)) in
  let s1 := set_baseSurplus s (<[a := setTotal sp total1]> (baseSurplus s)) in
  baseSurplus s !! a = Some sp ->
  baseVolumeToOffset s1 trade a = Ok (Some newVolume) ->
  fst (AddOrder ex (offsetOrder s trade a newVolume)) = Ok (Some transactionID) ->
  exists s',
    HandleFill trade (s, ex)
      = (Ok tt, (s', snd (AddOrder ex (offsetOrder s trade a newVolume))))
    /\ baseSurplus s' !! a
       = Some {| total := Subtract total1 newVolume;
                 committed := Subtract (Add (committed sp) newVolume) newVolume |}.
Proof.
  intros a total1 s1 Hsp Hoff Hanswer.
  pose proof (HandleFill_attempt trade s ex sp newVolume Hsp Hoff) as Hrun.
  cbv zeta in Hrun. fold a total1 in Hrun.
  destruct (AddOrder ex (offsetOrder s trade a newVolume)) as [[[tx|]|e|] ex1];
    simpl in Hanswer; try discriminate.
  eexists. split; [exact Hrun|]. simpl. rewrite lookup_insert_eq. reflexivity.
Qed.

End FillOffsetMore.

Section FillOffsetMoreRuns.
Import Reference Scenario Mirror.

(** A fill of 3 on the accepting exchange: the sell direction keeps its
    zero surplus. *)
Lemma HandleFill_frame_witness :
  baseSurplus (fst (snd filledAccepting)) !! OrderActionSell
  = baseSurplus strategy !! OrderActionSell.
Proof.
  refine (proj1 (proj2 (proj1 (@HandleFill_frame numbers tradeAPI (fill 3) strategy
                                 (fst (snd filledAccepting)) accepting
                                 (snd (snd filledAccepting)) (fst filledAccepting) _)))
            OrderActionSell _); [reflexivity|discriminate].
Defined.

(** The same fill: one order, for a volume of 3. *)
Lemma HandleFill_one_order_witness :
  submitted (snd (snd filledAccepting))
  = [offsetOrder strategy (fill 3) OrderActionBuy (num 3 4)].
Proof.
  destruct (@HandleFill_submits_at_most_one_order numbers tradeAPI (fill 3) strategy
              (fst (snd filledAccepting)) accepting (snd (snd filledAccepting))
              (fst filledAccepting) makeAssetSurplus eq_refl eq_refl)
    as [(Hnone & _) | (v & o & Hsome & _)].
  - vm_compute in Hnone. discriminate Hnone.
  - reflexivity.
Defined.

(** The same fill: after the success both sides are back at zero. *)
Lemma HandleFill_success_witness :
  exists s',
    HandleFill (fill 3) (strategy, accepting)
      = (Ok tt, (s', snd (AddOrder accepting
                            (offsetOrder strategy (fill 3) OrderActionBuy (num 3 4)))))
    /\ baseSurplus s' !! OrderActionBuy
       = Some {| total := Subtract (Add (total makeAssetSurplus) (num 3 4)) (num 3 4);
                 committed := Subtract (Add (committed makeAssetSurplus) (num 3 4)) (num 3 4) |}.
Proof.
  apply (@HandleFill_success_releases numbers tradeAPI (fill 3) strategy accepting
           makeAssetSurplus (num 3 4) "hedge-1"); reflexivity.
Defined.

End FillOffsetMoreRuns.


(** ** More on the volume filter *)

Section VolumeFilterSafety.
Context `{StrconvOps} `{IsSellingOps}.
Import VolumeFilter.

(** What a kept operation went through: the checks that passed, the
    totals it found and left, and the operation returned. *)
Lemma volumeFilterFn_kept
    (f : volumeFilter) (dailyOTB dailyTBB dailyTBB' : VolumeFilterConfig)
    (op op' : ManageSellOffer) :
  volumeFilterFn f dailyOTB op dailyTBB = (Ok (Some op'), dailyTBB') ->
  exists sellPrice amount tbbBase tbbQuote newAmount : Q,
    IsSelling (baseAsset f) (quoteAsset f) (Selling op) (Buying op) = Ok true
    /\ ParseFloat (Price op) = Some sellPrice
    /\ ParseFloat (Amount op) = Some amount
    /\ SellBaseAssetCapInBaseUnits dailyTBB = Some tbbBase
    /\ SellBaseAssetCapInQuoteUnits dailyTBB = Some tbbQuote
    /\ dailyTBB' = setQuote (setBase dailyTBB (tbbBase + newAmount))
                     (tbbQuote + newAmount * sellPrice)
    /\ ((op' = op /\ newAmount = amount)
        \/ (op' = setAmount op (Sprintf_7f newAmount)
            /\ mode (config f) = volumeFilterModeExact)).
Proof.
  intros Hrun. unfold volumeFilterFn in Hrun.
  destruct (IsSelling _ _ _ _) as [isSell| |]; try discriminate.
  destruct (ParseFloat (Price op)) as [sellPrice|]; [|discriminate].
  destruct (ParseFloat (Amount op)) as [amount|]; [|discriminate].
  destruct isSell; [|discriminate].
  destruct (SellBaseAssetCapInBaseUnits dailyTBB) as [tbbBase|] eqn:HtB;
  destruct (SellBaseAssetCapInQuoteUnits dailyTBB) as [tbbQuote|] eqn:HtQ;
  destruct (SellBaseAssetCapInBaseUnits (config f)) as [capB|] eqn:EcapB;
  destruct (SellBaseAssetCapInQuoteUnits (config f)) as [capQ|] eqn:EcapQ;
  destruct (SellBaseAssetCapInBaseUnits dailyOTB) as [oB|] eqn:EoB;
  destruct (SellBaseAssetCapInQuoteUnits dailyOTB) as [oQ|] eqn:EoQ;
  destruct (mode (config f)) eqn:Emode;
  cbv beta iota delta [bind deref get ret modify fail isExact andb negb] in Hrun;
  rewrite ?HtB, ?HtQ in Hrun; try discriminate.
  all: repeat (match type of Hrun with
       | context [Qleb ?a ?b] => let E := fresh "Ele" in destruct (Qleb a b) eqn:E
       | context [Qltb ?a ?b] => let E := fresh "Elt" in destruct (Qltb a b) eqn:E
       end; cbv beta iota in Hrun; rewrite ?HtB, ?HtQ in Hrun; try discriminate).
  all: cbn [SellBaseAssetCapInQuoteUnits SellBaseAssetCapInBaseUnits setBase] in Hrun;
    rewrite ?HtQ in Hrun; cbv beta iota in Hrun; try discriminate.
  all: injection Hrun as <- <-.
  all: eexists _, _, _, _, _; do 5 (split; [reflexivity|]); split; [reflexivity|];
    first [left; split; reflexivity | right; split; reflexivity].
Qed.

(** Totals change only when the operation is kept. *)
Lemma volumeFilterFn_not_kept
    (f : volumeFilter) (dailyOTB dailyTBB dailyTBB' : VolumeFilterConfig)
    (op : ManageSellOffer) (r : result (option ManageSellOffer)) :
  volumeFilterFn f dailyOTB op dailyTBB = (r, dailyTBB') ->
  r = Ok None \/ (exists e, r = Err e) ->
  dailyTBB' = dailyTBB.
Proof.
  intros Hrun Hr. unfold volumeFilterFn in Hrun.
  destruct (IsSelling _ _ _ _) as [[|]| |];
    try (injection Hrun as <- <-; reflexivity).
  2:{ destruct (ParseFloat (Price op)); [|injection Hrun as <- <-; reflexivity].
      destruct (ParseFloat (Amount op)); injection Hrun as <- <-; reflexivity. }
  destruct (ParseFloat (Price op)) as [sellPrice|]; [|injection Hrun as <- <-; reflexivity].
  destruct (ParseFloat (Amount op)) as [amount|]; [|injection Hrun as <- <-; reflexivity].
  destruct (SellBaseAssetCapInBaseUnits dailyTBB) as [tbbBase|] eqn:HtB;
  destruct (SellBaseAssetCapInQuoteUnits dailyTBB) as [tbbQuote|] eqn:HtQ;
  destruct (SellBaseAssetCapInBaseUnits (config f)) as [capB|] eqn:EcapB;
  destruct (SellBaseAssetCapInQuoteUnits (config f)) as [capQ|] eqn:EcapQ;
  destruct (SellBaseAssetCapInBaseUnits dailyOTB) as [oB|] eqn:EoB;
  destruct (SellBaseAssetCapInQuoteUnits dailyOTB) as [oQ|] eqn:EoQ;
  destruct (mode (config f)) eqn:Emode;
  cbv beta iota delta [bind deref get ret modify fail isExact andb negb] in Hrun;
  rewrite ?HtB, ?HtQ in Hrun.
  all: repeat (match type of Hrun with
       | context [Qleb ?a ?b] => let E := fresh "Ele" in destruct (Qleb a b) eqn:E
       | context [Qltb ?a ?b] => let E := fresh "Elt" in destruct (Qltb a b) eqn:E
       end; cbv beta iota in Hrun; rewrite ?HtB, ?HtQ in Hrun).
  all: cbn [SellBaseAssetCapInQuoteUnits SellBaseAssetCapInBaseUnits setBase] in Hrun;
    rewrite ?HtQ in Hrun; cbv beta iota in Hrun.
  all: injection Hrun as <- <-; try reflexivity.
  all: destruct Hr as [Hr|[e Hr]]; discriminate Hr.
Qed.

(** X8.  The filter function changes nothing of an operation but its
    amount: a kept operation has the assets, the price and the offer id of
    the input.  In ignore mode the kept operation is the input itself; an
    amount is rewritten only in exact mode. *)
Theorem volumeFilterFn_changes_only_amount
    (f : volumeFilter) (dailyOTB dailyTBB dailyTBB' : VolumeFilterConfig)
    (op op' : ManageSellOffer) :
  volumeFilterFn f dailyOTB op dailyTBB = (Ok (Some op'), dailyTBB') ->
  Selling op' = Selling op /\ Buying op' = Buying op
  /\ Price op' = Price op /\ OfferID op' = OfferID op
  /\ (mode (config f) = volumeFilterModeIgnore -> op' = op)
  /\ (op' <> op -> mode (config f) = volumeFilterModeExact).
Proof.
  intros Hrun.
  destruct (volumeFilterFn_kept _ _ _ _ _ _ Hrun)
    as (p & amount & tB & tQ & newAmount & _ & _ & _ & _ & _ & _ & Hop).
  destruct Hop as [[-> _]|(-> & Hmode)].
  - repeat split; try reflexivity. intros Hne. contradiction.
  - repeat split; try reflexivity; [|intros _; exact Hmode].
    intros Hignore. rewrite Hignore in Hmode. discriminate.
Qed.

(** X9.  What a kept operation books.  Only a sell of the base asset whose
    price and amount parse is kept.  The running base total grows by the
    amount the filter settled on and the running quote total by that amount
    times the price.  That amount is the amount the operation asked for
    when the operation is returned as it came; otherwise the mode is exact
    and the operation returned carries that amount, printed with seven
    decimals. *)
Theorem volumeFilterFn_books_what_it_keeps
    (f : volumeFilter) (dailyOTB dailyTBB dailyTBB' : VolumeFilterConfig)
    (op op' : ManageSellOffer) :
  volumeFilterFn f dailyOTB op dailyTBB = (Ok (Some op'), dailyTBB') ->
  IsSelling (baseAsset f) (quoteAsset f) (Selling op) (Buying op) = Ok true
  /\ exists sellPrice amount tbbBase tbbQuote newAmount,
       ParseFloat (Price op) = Some sellPrice
       /\ ParseFloat (Amount op) = Some amount
       /\ SellBaseAssetCapInBaseUnits dailyTBB = Some tbbBase
       /\ SellBaseAssetCapInQuoteUnits dailyTBB = Some tbbQuote
       /\ SellBaseAssetCapInBaseUnits dailyTBB' = Some (tbbBase + newAmount)%Q
       /\ SellBaseAssetCapInQuoteUnits dailyTBB' = Some (tbbQuote + newAmount * sellPrice)%Q
       /\ ((newAmount = amount /\ Amount op' = Amount op)
           \/ (mode (config f) = volumeFilterModeExact
               /\ Amount op' = Sprintf_7f newAmount)).
Proof.
  intros Hrun.
  destruct (volumeFilterFn_kept _ _ _ _ _ _ Hrun)
    as (p & a & tB & tQ & newAmount & Hsell & Hp & Ha & HtB & HtQ & -> & Hop).
  split; [exact Hsell|]. exists p, a, tB, tQ, newAmount.
  do 4 (split; [assumption|]). split; [reflexivity|]. split; [reflexivity|].
  destruct Hop as [[-> ->]|[-> Hmode]]; [left|right]; split; try reflexivity. exact Hmode.
Qed.

(** X10.  The running totals change only when an operation is kept: when
    the filter function drops an operation or returns an error, the
    to-be-booked totals are exactly as before. *)
Theorem volumeFilterFn_drop_keeps_totals
    (f : volumeFilter) (dailyOTB dailyTBB dailyTBB' : VolumeFilterConfig)
    (op : ManageSellOffer) (r : result (option ManageSellOffer)) :
  volumeFilterFn f dailyOTB op dailyTBB = (r, dailyTBB') ->
  r = Ok None \/ (exists e, r = Err e) ->
  dailyTBB' = dailyTBB.
Proof. apply volumeFilterFn_not_kept. Qed.

(** X11.  [parseVolumeFilterMode] accepts exactly the two mode strings:
    parsing the string of a mode gives the mode back, a string that parses
    is the string of the mode returned, and every other string is an
    error. *)
Theorem parseVolumeFilterMode_round_trip (m : volumeFilterMode) (text : string) :
  parseVolumeFilterMode (modeString m) = Ok m
  /\ (parseVolumeFilterMode text = Ok m -> text = modeString m)
  /\ (text <> "exact" -> text <> "ignore" -> exists e, parseVolumeFilterMode text = Err e).
Proof.
  split; [destruct m; reflexivity|]. unfold parseVolumeFilterMode. split.
  - destruct (String.eqb_spec text "exact") as [->|_].
    { intros [= <-]. reflexivity. }
    destruct (String.eqb_spec text "ignore") as [->|_].
    { intros [= <-]. reflexivity. }
    discriminate.
  - intros Hexact Hignore.
    destruct (String.eqb_spec text "exact") as [->|_]; [contradiction|].
    destruct (String.eqb_spec text "ignore") as [->|_]; [contradiction|].
    eexists. reflexivity.
Qed.

(** X12.  [Validate] accepts a configuration exactly when at least one of
    the two caps is set. *)
Theorem Validate_iff_some_cap (c : VolumeFilterConfig) :
  Validate c = Ok tt
  <-> SellBaseAssetCapInBaseUnits c <> None \/ SellBaseAssetCapInQuoteUnits c <> None.
Proof.
  unfold Validate, isEmpty.
  destruct (SellBaseAssetCapInBaseUnits c), (SellBaseAssetCapInQuoteUnits c); split;
    try (intros _; reflexivity); try discriminate; try (intros _; left; discriminate);
    try (intros _; right; discriminate).
  intros [Hb|Hq]; contradiction.
Qed.

End VolumeFilterSafety.

Section VolumeFilterSafetyRuns.
Import Reference Scenario VolumeFilter.

Lemma volumeFilterFn_changes_only_amount_witness :
  Price (setAmount sell30 "20.0000000") = Price sell30.
Proof.
  refine (proj1 (proj2 (proj2 (@volumeFilterFn_changes_only_amount strconv isSelling
            (capped100 volumeFilterModeExact)
            (makeOTB {| BaseVol := 80; QuoteVol := 160 |}) emptyTBB
            (setQuote (setBase emptyTBB 20) 40) sell30 (setAmount sell30 "20.0000000") _))));
    reflexivity.
Defined.

(** The sell of 30 against 80 on the books and a cap of 100 books 20 base
    units and 40 quote units. *)
Lemma volumeFilterFn_books_witness :
  exists newAmount,
    SellBaseAssetCapInBaseUnits
      (snd (volumeFilterFn (capped100 volumeFilterModeExact)
              (makeOTB {| BaseVol := 80; QuoteVol := 160 |}) sell30 emptyTBB))
    = Some (0 + newAmount)%Q
    /\ (newAmount == 20)%Q.
Proof.
  edestruct (@volumeFilterFn_books_what_it_keeps strconv isSelling
               (capped100 volumeFilterModeExact)
               (makeOTB {| BaseVol := 80; QuoteVol := 160 |}) emptyTBB
               (snd (volumeFilterFn (capped100 volumeFilterModeExact)
                       (makeOTB {| BaseVol := 80; QuoteVol := 160 |}) sell30 emptyTBB))
               sell30)
    as (_ & sellPrice & amount & tbbBase & tbbQuote & newAmount & _ & _ & Hfound & _ & Hbase
        & _);
    [reflexivity|].
  injection Hfound as <-. exists newAmount. split; [exact Hbase|].
  cbn in Hbase. injection Hbase as Hnum Hden.
  unfold Qeq. cbn. lia.
Defined.

(** In ignore mode the sell of 30 is dropped and the totals stay empty. *)
Lemma volumeFilterFn_drop_keeps_totals_witness :
  snd (volumeFilterFn (capped100 volumeFilterModeIgnore)
         (makeOTB {| BaseVol := 80; QuoteVol := 160 |}) sell30 emptyTBB) = emptyTBB.
Proof.
  refine (@volumeFilterFn_drop_keeps_totals strconv isSelling
            (capped100 volumeFilterModeIgnore)
            (makeOTB {| BaseVol := 80; QuoteVol := 160 |}) emptyTBB _ sell30 (Ok None) _ _).
  - reflexivity.
  - left. reflexivity.
Defined.

End VolumeFilterSafetyRuns.

(** *** What rounding does to the filter *)

(** No bound on what a kept operation books is stated above, because
    binary64 rounding breaks the ones exact arithmetic would give.  Exact
    mode, a base cap of 0.3 with 0.03 on the books and 0.11 to be booked,
    and a sell of 0.16 at price 1: the projected volume rounds to just
    above the cap, the operation is shrunk, and the shrunk amount is
    greater than the amount asked for. *)
Example volumeFilterFn_shrinks_to_more_than_asked :
  exists newAmount tbbBase tbbQuote,
    Binary64.volumeFilterFn (Some 0x1.3333333333333p-2%float) None true
      0x1.eb851eb851eb8p-6 0 0x1.c28f5c28f5c29p-4 0 1 0x1.47ae147ae147bp-3
    = Some (newAmount, tbbBase, tbbQuote)
    /\ PrimFloat.ltb 0x1.47ae147ae147bp-3 newAmount = true.
Proof. eexists _, _, _. split; vm_compute; reflexivity. Qed.

(** A base cap of 1000 with 115.7683698 on the books and 330.1672206 to be
    booked, and a sell of 600: the operation is shrunk, and the volume on
    the books plus the new to-be-booked total is above the cap. *)
Example volumeFilterFn_books_above_the_cap :
  exists newAmount tbbBase tbbQuote,
    Binary64.volumeFilterFn (Some 1000%float) None true
      0x1.cf12cf8868efbp+6 0 0x1.4a2acef82037bp+8 0 1 600
    = Some (newAmount, tbbBase, tbbQuote)
    /\ PrimFloat.ltb 1000 (0x1.cf12cf8868efbp+6 + tbbBase) = true.
Proof. eexists _, _, _. split; vm_compute; reflexivity. Qed.

(** ** More on the TWAP level provider *)

Section TwapMore.
Context `{NumberOps} `{TwapOps}.
Import Twap.

(** On a day of [k] buckets of [size] seconds the bucket count computed by
    the first frame is [k]. *)
Lemma totalBuckets_exact (size k : Z) :
  0 < size -> 0 < k -> size * k = secondsInDay ->
  ceil_int64 (inject_Z secondsInDay / inject_Z size) = k.
Proof.
  intros Hsize Hk Hday. unfold ceil_int64.
  assert (inject_Z secondsInDay / inject_Z size == inject_Z k)%Q as Heq.
  { rewrite <- Hday. rewrite inject_Z_mult. field.
    intros Hz. unfold Qeq in Hz. cbn in Hz. lia. }
  rewrite (Qceiling_comp _ _ Heq), Qceiling_Z.
  apply wrap64_id. change secondsInDay with 86400 in Hday.
  assert (k <= 86400) by nia.
  change (2 ^ 63) with 9223372036854775808. lia.
Qed.

Lemma ceilDate_minus_floorDate (t : Z) : ceilDate t - floorDate t = secondsInDay.
Proof. unfold ceilDate. lia. Qed.

Lemma bucketIndex_lt_total (p : sellTwapLevelProvider) (w : World) (k : Z) :
  0 < parentBucketSizeSeconds p -> k * parentBucketSizeSeconds p = secondsInDay ->
  0 <= bucketIndex p w < k.
Proof.
  intros Hsize Hday. pose proof (bucketIndex_range p w Hsize) as Hrange.
  split; [lia|]. unfold bucketIndex, floorDate in *.
  replace (now w - (now w - now w mod secondsInDay)) with (now w mod secondsInDay) in * by lia.
  assert (0 <= now w mod secondsInDay < secondsInDay) as Hmod
    by (apply Z.mod_pos_bound; reflexivity).
  rewrite wrap64_id.
  - rewrite Z.quot_div_nonneg by lia. apply Z.div_lt_upper_bound; nia.
  - rewrite Z.quot_div_nonneg by lia.
    assert (0 <= now w mod secondsInDay / parentBucketSizeSeconds p) by (apply Z.div_pos; lia).
    assert (now w mod secondsInDay / parentBucketSizeSeconds p <= now w mod secondsInDay)
      by (apply Z.div_le_upper_bound; nia).
    change secondsInDay with 86400 in *. lia.
Qed.

Lemma makeFirstBucketFrame_shape (p : sellTwapLevelProvider) (w : World)
    (volFilter : twapVolumeFilter) (se bID rID : Z) (frame : bucketInfo) :
  makeFirstBucketFrame p w volFilter (floorDate (now w)) se bID rID = Ok frame ->
  ID frame = bID
  /\ startTime frame = floorDate (now w)
  /\ endTime frame = ceilDate (now w)
  /\ totalBuckets frame
     = ceil_int64 (inject_Z secondsInDay / inject_Z (parentBucketSizeSeconds p))
  /\ baseSurplusIncluded frame = 0%Q
  /\ roundID_ (dynamicValues frame) = rID.
Proof.
  unfold makeFirstBucketFrame. intros Hrun.
  destruct (mustGetBaseAssetCapInBaseUnits volFilter); try discriminate.
  destruct (dailyValuesByDate w volFilter (dateOf (now w))); try discriminate.
  injection Hrun as <-. cbn. rewrite ceilDate_minus_floorDate. repeat split; reflexivity.
Qed.

Lemma makeBucketInfo_shape (p : sellTwapLevelProvider) (w : World)
    (volFilter : twapVolumeFilter) (rID : Z) (bucket : bucketInfo) :
  makeBucketInfo p w volFilter rID = Ok bucket ->
  ID bucket = bucketIndex p w
  /\ roundID_ (dynamicValues bucket) = rID
  /\ (parentBucketSizeSeconds p <> 0)
  /\ ((exists active, activeBucket p = Some active /\ ID active = bucketIndex p w
                      /\ bucket = set_dynamicValues active (dynamicValues bucket)
                      /\ isNew (dynamicValues bucket) = false)
      \/ ((activeBucket p = None
           \/ exists active, activeBucket p = Some active /\ ID active <> bucketIndex p w)
          /\ isNew (dynamicValues bucket) = true
          /\ startTime bucket = floorDate (now w)
          /\ endTime bucket = ceilDate (now w)
          /\ totalBuckets bucket
             = ceil_int64 (inject_Z secondsInDay / inject_Z (parentBucketSizeSeconds p)))).
Proof.
  unfold makeBucketInfo. intros Hrun.
  destruct (Z.eqb_spec (parentBucketSizeSeconds p) 0) as [|Hsize]; [discriminate|].
  destruct (activeBucket p) as [active|] eqn:Hactive.
  - destruct (Z.eqb_spec (bucketIndex p w) (ID active)) as [Heq|Hne].
    + unfold updateExistingBucket in Hrun. rewrite Hactive in Hrun.
      destruct (dailyValuesByDate w volFilter (dateOf (now w))); try discriminate.
      injection Hrun as <-. cbn. repeat split; try assumption; try (symmetry; assumption).
      left. exists active. repeat split; try reflexivity. symmetry. assumption.
    + unfold cutoverToNewBucket in Hrun. rewrite Hactive in Hrun.
      destruct (negb _); [discriminate|].
      destruct (makeFirstBucketFrame _ _ _ _ _ _ _) as [frame| |] eqn:Hframe; try discriminate.
      apply makeFirstBucketFrame_shape in Hframe.
      destruct Hframe as (Hid & Hstart & Hend & Htotal & _ & _).
      injection Hrun as <-. cbn. repeat split; try assumption.
      right. repeat split; try assumption. right. exists active.
      split; [reflexivity|]. congruence.
  - destruct (makeFirstBucketFrame _ _ _ _ _ _ _) as [frame| |] eqn:Hframe; try discriminate.
    injection Hrun as <-.
    pose proof Hframe as Hshape. apply makeFirstBucketFrame_shape in Hshape.
    destruct Hshape as (Hid & Hstart & Hend & Htotal & _ & Hround).
    repeat split; try assumption.
    right. repeat split; try assumption; [left; reflexivity|].
    unfold makeFirstBucketFrame in Hframe.
    destruct (mustGetBaseAssetCapInBaseUnits volFilter); try discriminate.
    destruct (dailyValuesByDate w volFilter (dateOf (now w))); try discriminate.
    injection Hframe as <-. reflexivity.
Qed.


Lemma GetLevels_config (a b : Q) (w : World) (p : sellTwapLevelProvider) :
  parentBucketSizeSeconds (snd (GetLevels a b w p)) = parentBucketSizeSeconds p.
Proof.
  unfold GetLevels. destruct (dowFilter p !! _); [|reflexivity].
  destruct (makeBucketInfo _ _ _ _); try reflexivity.
  destruct (makeRoundInfo _ _ _ _) as [[round| |] rnd]; reflexivity.
Qed.

Lemma GetLevels_outcome (a b : Q) (w : World) (p : sellTwapLevelProvider) :
  (exists levels volFilter bucket round rnd,
      dowFilter p !! Z.to_nat (Weekday (now w)) = Some volFilter
      /\ makeBucketInfo p w volFilter (makeRoundID p) = Ok bucket
      /\ makeRoundInfo p w (makeRoundID p) bucket = (Ok round, rnd)
      /\ fst (GetLevels a b w p) = Ok levels
      /\ length levels = 1%nat
      /\ activeBucket (snd (GetLevels a b w p)) = Some bucket
      /\ previousRoundID (snd (GetLevels a b w p)) = Some (makeRoundID p))
  \/ ((forall levels, fst (GetLevels a b w p) <> Ok levels)
      /\ activeBucket (snd (GetLevels a b w p)) = activeBucket p
      /\ previousRoundID (snd (GetLevels a b w p)) = previousRoundID p).
Proof.
  unfold GetLevels. destruct (dowFilter p !! _) as [volFilter|]; [|right; repeat split; discriminate].
  destruct (makeBucketInfo _ _ _ _) as [bucket| |] eqn:Hbucket;
    try (right; repeat split; discriminate).
  destruct (makeRoundInfo _ _ _ _) as [[round| |] rnd] eqn:Hround;
    try (right; repeat split; discriminate).
  left. eexists _, volFilter, bucket, round, rnd.
  split; [reflexivity|]. split; [exact Hbucket|]. split; [exact Hround|].
  repeat split; try reflexivity.
  cbn. f_equal. unfold makeRoundInfo in Hround.
  destruct (if Qleb _ _ then _ else _) as [size rnd0].
  destruct (GetPrice w); try discriminate.
  destruct (offsetApply _ _). injection Hround as <- _. reflexivity.
Qed.

Lemma divides_day (size : Z) :
  0 < size -> Z.rem secondsInDay size = 0 ->
  0 < secondsInDay / size /\ size * (secondsInDay / size) = secondsInDay.
Proof.
  intros Hsize Hrem. rewrite Z.rem_mod_nonneg in Hrem by (try (cbv; discriminate); lia).
  pose proof (Z.div_mod secondsInDay size ltac:(lia)) as Hdm.
  rewrite Hrem in Hdm. split; [|lia].
  change secondsInDay with 86400 in *. nia.
Qed.

Lemma GetLevels_keeps_wellFormed (a b : Q) (w : World) (p : sellTwapLevelProvider) :
  0 < parentBucketSizeSeconds p ->
  Z.rem secondsInDay (parentBucketSizeSeconds p) = 0 ->
  wellFormed p -> wellFormed (snd (GetLevels a b w p)).
Proof.
  intros Hsize Hrem Hwf.
  destruct (divides_day _ Hsize Hrem) as [Hk Hday].
  unfold wellFormed. rewrite GetLevels_config.
  destruct (GetLevels_outcome a b w p)
    as [(levels & volFilter & bucket & round & rnd & _ & Hbucket & _ & _ & _ & -> & _)
       | (_ & -> & _)]; [|exact Hwf].
  apply makeBucketInfo_shape in Hbucket.
  destruct Hbucket as (Hid & _ & _ & [(active & Hactive & Hsame & -> & _)
                                     | (_ & _ & Hstart & Hend & Htotal)]).
  - unfold wellFormed in Hwf. rewrite Hactive in Hwf. exact Hwf.
  - rewrite (totalBuckets_exact _ _ Hsize Hk Hday) in Htotal.
    rewrite Hid, Htotal, Hstart, Hend. split; [|split].
    + apply bucketIndex_lt_total; lia.
    + lia.
    + apply ceilDate_minus_floorDate.
Qed.

Lemma makeSellTwapLevelProvider_checks (offset_ : rateOffset)
    (orderConstraints_ : OrderConstraints) (dowFilter_ : list twapVolumeFilter)
    (hours size : Z) (ceiling_ smoothing_ minChild_ : Q) (seed : Z)
    (p : sellTwapLevelProvider) :
  makeSellTwapLevelProvider offset_ orderConstraints_ dowFilter_ hours size
    ceiling_ smoothing_ minChild_ seed = Ok p ->
  (0 < hours <= 24 /\ 0 < size <= secondsInDay /\ Z.rem secondsInDay size = 0)
  /\ (0 <= ceiling_ <= 1 /\ 0 <= smoothing_ <= 1 /\ 0 <= minChild_ <= 1)%Q
  /\ forallb isSellingBase dowFilter_ = true
  /\ p = {| offset := offset_; orderConstraints := orderConstraints_;
            dowFilter := dowFilter_; numHoursToSell := hours;
            parentBucketSizeSeconds := size;
            distributeSurplusOverRemainingIntervalsPercentCeiling := ceiling_;
            exponentialSmoothingFactor := smoothing_;
            minChildOrderSizePercentOfParent := minChild_;
            random := NewRand seed;
            activeBucket := None; previousRoundID := None |}.
Proof.
  unfold makeSellTwapLevelProvider. intros Hrun.
  destruct (Z.leb_spec hours 0); [discriminate|].
  destruct (Z.ltb_spec 24 hours); [discriminate|].
  destruct (Z.leb_spec size 0); [discriminate|].
  destruct (Z.ltb_spec secondsInDay size); [discriminate|].
  destruct (Z.eqb_spec (Z.rem secondsInDay size) 0); [|discriminate].
  cbn [orb negb] in Hrun.
  destruct (Qltb ceiling_ 0) eqn:Hc0; [discriminate|].
  destruct (Qltb 1 ceiling_) eqn:Hc1; [discriminate|].
  destruct (Qltb smoothing_ 0) eqn:Hs0; [discriminate|].
  destruct (Qltb 1 smoothing_) eqn:Hs1; [discriminate|].
  destruct (Qltb minChild_ 0) eqn:Hm0; [discriminate|].
  destruct (Qltb 1 minChild_) eqn:Hm1; [discriminate|].
  cbn [orb] in Hrun.
  destruct (forallb isSellingBase dowFilter_); [|discriminate].
  cbn [negb] in Hrun. injection Hrun as <-.
  apply Qltb_ge in Hc0, Hc1, Hs0, Hs1, Hm0, Hm1.
  repeat split; try assumption; lia.
Qed.

(** X13.  A provider the factory returns has passed every check: between 1
    and 24 hours to sell, a bucket size of at most a day that divides the
    day without remainder, the three fractions within [0, 1], every filter
    of the week selling the base asset.  It starts without an active bucket
    and without a previous round, so that its first round has id 0. *)
Theorem factory_checks_its_arguments (offset_ : rateOffset)
    (orderConstraints_ : OrderConstraints) (dowFilter_ : list twapVolumeFilter)
    (hours size : Z) (ceiling_ smoothing_ minChild_ : Q) (seed : Z)
    (p : sellTwapLevelProvider) :
  makeSellTwapLevelProvider offset_ orderConstraints_ dowFilter_ hours size
    ceiling_ smoothing_ minChild_ seed = Ok p ->
  (0 < numHoursToSell p <= 24
   /\ 0 < parentBucketSizeSeconds p <= secondsInDay
   /\ (secondsInDay / parentBucketSizeSeconds p) * parentBucketSizeSeconds p = secondsInDay)
  /\ (0 <= distributeSurplusOverRemainingIntervalsPercentCeiling p <= 1
      /\ 0 <= exponentialSmoothingFactor p <= 1
      /\ 0 <= minChildOrderSizePercentOfParent p <= 1)%Q
  /\ Forall (fun f => isSellingBase f = true) (dowFilter p)
  /\ activeBucket p = None /\ previousRoundID p = None /\ makeRoundID p = 0.
Proof.
  intros Hrun. apply makeSellTwapLevelProvider_checks in Hrun.
  destruct Hrun as ((Hhours & Hsize & Hrem) & Hfractions & Hsell & ->). cbn.
  destruct (divides_day size ltac:(lia) Hrem) as [_ Hday].
  repeat split; try tauto; try lia.
  rewrite List.Forall_forall. apply forallb_forall. exact Hsell.
Qed.

(** X14.  In every state a provider made by the factory reaches, whatever
    the clock, the volume store and the price feed did and whichever calls
    failed, the active bucket (if any) has an index within the buckets of
    its day, the buckets tile the day, and the bucket's day is 24 hours
    long. *)
Theorem bucket_invariant_in_every_reachable_state (offset_ : rateOffset)
    (orderConstraints_ : OrderConstraints) (dowFilter_ : list twapVolumeFilter)
    (hours size : Z) (ceiling_ smoothing_ minChild_ : Q) (seed : Z)
    (p0 : sellTwapLevelProvider) (a b : Q) (ws : list World) :
  makeSellTwapLevelProvider offset_ orderConstraints_ dowFilter_ hours size
    ceiling_ smoothing_ minChild_ seed = Ok p0 ->
  wellFormed (runCalls a b ws p0).
Proof.
  intros Hrun. apply makeSellTwapLevelProvider_checks in Hrun.
  destruct Hrun as ((_ & Hsize & Hrem) & _ & _ & Hp0).
  assert (0 < parentBucketSizeSeconds p0) as Hpos by (subst p0; cbn; lia).
  assert (Z.rem secondsInDay (parentBucketSizeSeconds p0) = 0) as Hdiv
    by (subst p0; exact Hrem).
  assert (wellFormed p0) as Hwf by (subst p0; exact I).
  clear Hp0 Hsize Hrem. revert p0 Hpos Hdiv Hwf.
  induction ws as [|w ws IH]; intros p0 Hpos Hdiv Hwf; [exact Hwf|].
  cbn [runCalls]. apply IH.
  - rewrite GetLevels_config. exact Hpos.
  - rewrite GetLevels_config. exact Hdiv.
  - apply GetLevels_keeps_wellFormed; assumption.
Qed.

(** X15.  A successful call returns exactly one level, stores the round id
    it used as the previous round id, so that the next call uses the id one
    higher, and leaves an active bucket that carries the bucket index of
    the call's time of day and the round id of the call.  Only the index is
    compared, not the day: the bucket left is of the call's day when it is
    a new one, and may be an earlier day's bucket of the same index when it
    is not. *)
Theorem GetLevels_success_shape (a b : Q) (w : World)
    (p p' : sellTwapLevelProvider) (levels : list Level) :
  GetLevels a b w p = (Ok levels, p') ->
  length levels = 1%nat
  /\ previousRoundID p' = Some (makeRoundID p)
  /\ makeRoundID p' = (makeRoundID p + 1) mod 2 ^ 64
  /\ exists bucket,
       activeBucket p' = Some bucket
       /\ ID bucket = bucketIndex p w
       /\ roundID_ (dynamicValues bucket) = makeRoundID p
       /\ (isNew (dynamicValues bucket) = true ->
           startTime bucket = floorDate (now w) /\ endTime bucket = ceilDate (now w))
       /\ (isNew (dynamicValues bucket) = false ->
           exists active,
             activeBucket p = Some active /\ ID active = bucketIndex p w
             /\ startTime bucket = startTime active /\ endTime bucket = endTime active).
Proof.
  intros Hrun.
  destruct (GetLevels_outcome a b w p)
    as [(levels0 & volFilter & bucket & round & rnd & _ & Hbucket & _ & Hfst & Hlen & Hact & Hprev)
       | (Hfail & _)].
  - rewrite Hrun in *. cbn [fst snd] in *. injection Hfst as ->.
    apply makeBucketInfo_shape in Hbucket.
    destruct Hbucket as (Hid & Hround & _ & Hcases).
    split; [exact Hlen|]. split; [exact Hprev|]. split.
    + unfold makeRoundID at 1. rewrite Hprev. reflexivity.
    + exists bucket. do 3 (split; [assumption|]).
      destruct Hcases as [(active & Hactive & Hsame & Hframe & Hold)
                         | (_ & Hnew & Hstart & Hend & _)].
      * split; [intros Hnew; congruence|]. intros _. exists active.
        split; [exact Hactive|]. split; [exact Hsame|]. rewrite Hframe. split; reflexivity.
      * split; [intros _; split; assumption|]. intros Hold. congruence.
  - rewrite Hrun in Hfail. exfalso. exact (Hfail levels eq_refl).
Qed.

(** X16.  A successful call whose bucket index is the active bucket's
    index (the day is not compared) stores a bucket with the frame of the
    active one, field by field: index, times, bucket counts, starting
    volume, capacities, surplus share and minimum order size.  Its dynamic
    values are fresh: it is not marked new, it carries the round id of the
    call, its day's sold volume is what the volume store answered, and what
    it has sold is that volume less the volume at which the bucket
    started. *)
Theorem GetLevels_same_bucket_keeps_frame (a b : Q) (w : World)
    (p p' : sellTwapLevelProvider) (levels : list Level) (active : bucketInfo) :
  activeBucket p = Some active ->
  ID active = bucketIndex p w ->
  GetLevels a b w p = (Ok levels, p') ->
  exists bucket volFilter values,
    activeBucket p' = Some bucket
    /\ dowFilter p !! Z.to_nat (Weekday (now w)) = Some volFilter
    /\ dailyValuesByDate w volFilter (dateOf (now w)) = Ok values
    /\ (ID bucket = ID active
        /\ startTime bucket = startTime active /\ endTime bucket = endTime active
        /\ totalBuckets bucket = totalBuckets active
        /\ totalBucketsTargeted bucket = totalBucketsTargeted active
        /\ dayBaseSoldStart bucket = dayBaseSoldStart active
        /\ dayBaseCapacity bucket = dayBaseCapacity active
        /\ baseSurplusIncluded bucket = baseSurplusIncluded active
        /\ baseCapacity bucket = baseCapacity active
        /\ minOrderSizeBase bucket = minOrderSizeBase active)
    /\ isNew (dynamicValues bucket) = false
    /\ roundID_ (dynamicValues bucket) = makeRoundID p
    /\ dayBaseSold (dynamicValues bucket) = baseVol values
    /\ baseSold (dynamicValues bucket) = (baseVol values - dayBaseSoldStart active)%Q.
Proof.
  intros Hactive Hsame Hrun.
  destruct (GetLevels_outcome a b w p)
    as [(levels0 & volFilter & bucket & round & rnd & Hfilter & Hbucket & _ & _ & _ & Hact & _)
       | (Hfail & _)].
  - rewrite Hrun in Hact. cbn [snd] in Hact.
    unfold makeBucketInfo in Hbucket.
    destruct (parentBucketSizeSeconds p =? 0); [discriminate|].
    rewrite Hactive, Hsame, Z.eqb_refl in Hbucket.
    unfold updateExistingBucket in Hbucket. rewrite Hactive in Hbucket.
    destruct (dailyValuesByDate w volFilter (dateOf (now w))) as [values| |] eqn:Hvalues;
      try discriminate.
    injection Hbucket as <-. eexists _, volFilter, values.
    split; [exact Hact|]. split; [exact Hfilter|]. split; [exact Hvalues|].
    cbn. repeat split; reflexivity.
  - rewrite Hrun in Hfail. exfalso. exact (Hfail levels eq_refl).
Qed.

(** X17.  A successful call whose bucket index differs from the active
    bucket's index has moved to the next index and to no other: the new
    index is the old one plus one.  The bucket it stores is marked new, is
    of the day of the call, starts from the day's volume the old bucket
    last recorded, and its capacity is the average capacity plus its share
    of the surplus. *)
Theorem GetLevels_new_bucket_is_next (a b : Q) (w : World)
    (p p' : sellTwapLevelProvider) (levels : list Level) (active : bucketInfo) :
  activeBucket p = Some active ->
  ID active <> bucketIndex p w ->
  GetLevels a b w p = (Ok levels, p') ->
  bucketIndex p w = wrap64 (ID active + 1)
  /\ exists bucket,
       activeBucket p' = Some bucket
       /\ ID bucket = wrap64 (ID active + 1)
       /\ isNew (dynamicValues bucket) = true
       /\ startTime bucket = floorDate (now w) /\ endTime bucket = ceilDate (now w)
       /\ dayBaseSoldStart bucket = dayBaseSold (dynamicValues active)
       /\ (baseCapacity bucket
           == dayBaseCapacity bucket / inject_Z (totalBucketsTargeted bucket)
              + baseSurplusIncluded bucket)%Q.
Proof.
  intros Hactive Hother Hrun.
  destruct (GetLevels_outcome a b w p)
    as [(levels0 & volFilter & bucket & round & rnd & _ & Hbucket & _ & _ & _ & Hact & _)
       | (Hfail & _)].
  - rewrite Hrun in Hact. cbn [snd] in Hact.
    unfold makeBucketInfo in Hbucket.
    destruct (parentBucketSizeSeconds p =? 0); [discriminate|].
    rewrite Hactive in Hbucket.
    destruct (Z.eqb_spec (bucketIndex p w) (ID active)) as [Heq|_]; [congruence|].
    unfold cutoverToNewBucket in Hbucket. rewrite Hactive in Hbucket.
    destruct (Z.eqb_spec (bucketIndex p w) (wrap64 (ID active + 1))) as [Hnext|_];
      [|discriminate].
    cbn [negb] in Hbucket.
    destruct (makeFirstBucketFrame _ _ _ _ _ _ _) as [frame| |] eqn:Hframe; try discriminate.
    injection Hbucket as <-. split; [exact Hnext|].
    eexists. split; [exact Hact|]. cbn.
    unfold makeFirstBucketFrame in Hframe.
    destruct (mustGetBaseAssetCapInBaseUnits volFilter); try discriminate.
    destruct (dailyValuesByDate w volFilter (dateOf (now w))); try discriminate.
    injection Hframe as <-. cbn. repeat split; try assumption; reflexivity.
  - rewrite Hrun in Hfail. exfalso. exact (Hfail levels eq_refl).
Qed.

(** X18.  With a random draw in [0, 1], the size of a round never exceeds
    what is left of the bucket.  When more than the minimum order size is
    left, the size is at least the minimum and the random source has been
    drawn from once; otherwise the size is all that is left and the random
    source is untouched. *)
Theorem makeRoundInfo_size_bounds (p : sellTwapLevelProvider) (w : World) (rID : Z)
    (bucket : bucketInfo) (round : roundInfo) (rnd : Rand) :
  makeRoundInfo p w rID bucket = (Ok round, rnd) ->
  (0 <= fst (Float64 (random p)) <= 1)%Q ->
  (sizeBaseCapped round <= baseRemaining bucket)%Q
  /\ ((minOrderSizeBase bucket < baseRemaining bucket)%Q ->
      (minOrderSizeBase bucket <= sizeBaseCapped round)%Q
      /\ rnd = snd (Float64 (random p)))
  /\ ((baseRemaining bucket <= minOrderSizeBase bucket)%Q ->
      sizeBaseCapped round = baseRemaining bucket /\ rnd = random p).
Proof.
  unfold makeRoundInfo. intros Hrun Hdraw.
  destruct (Qleb (baseRemaining bucket) (minOrderSizeBase bucket)) eqn:Hcmp.
  - apply Qleb_le in Hcmp.
    destruct (GetPrice w); try discriminate. destruct (offsetApply _ _).
    injection Hrun as <- <-. cbn. repeat split; try reflexivity; try lra.
  - apply Qleb_gt in Hcmp.
    destruct (Float64 (random p)) as [x rnd'] eqn:Hfloat. cbn [fst snd] in *.
    destruct (GetPrice w); try discriminate. destruct (offsetApply _ _).
    injection Hrun as <- <-. cbn. repeat split; try reflexivity; try nra; try lra.
Qed.

(** X19.  For a bucket size that divides the day, the bucket index of any
    instant lies in [0, day / size), the instant lies within the seconds
    of that bucket, and the number of buckets the first frame computes for
    the day is exactly day / size. *)
Theorem bucketIndex_within_day (p : sellTwapLevelProvider) (w : World) :
  0 < parentBucketSizeSeconds p ->
  Z.rem secondsInDay (parentBucketSizeSeconds p) = 0 ->
  0 <= bucketIndex p w < secondsInDay / parentBucketSizeSeconds p
  /\ bucketIndex p w * parentBucketSizeSeconds p
     <= now w - floorDate (now w)
     < (bucketIndex p w + 1) * parentBucketSizeSeconds p
  /\ ceil_int64 (inject_Z (ceilDate (now w) - floorDate (now w))
                 / inject_Z (parentBucketSizeSeconds p))
     = secondsInDay / parentBucketSizeSeconds p.
Proof.
  intros Hsize Hrem. destruct (divides_day _ Hsize Hrem) as [Hk Hday].
  split; [apply bucketIndex_lt_total; lia|]. split.
  - pose proof (bucketIndex_lt_total p w _ Hsize ltac:(rewrite Z.mul_comm; exact Hday)) as Hlt.
    unfold bucketIndex in *. unfold floorDate in *.
    replace (now w - (now w - now w mod secondsInDay)) with (now w mod secondsInDay) in * by lia.
    assert (0 <= now w mod secondsInDay < secondsInDay) as Hmod
      by (apply Z.mod_pos_bound; reflexivity).
    rewrite Z.quot_div_nonneg in * by lia.
    assert (0 <= now w mod secondsInDay / parentBucketSizeSeconds p) by (apply Z.div_pos; lia).
    assert (now w mod secondsInDay / parentBucketSizeSeconds p <= now w mod secondsInDay)
      by (apply Z.div_le_upper_bound; nia).
    rewrite wrap64_id by (change secondsInDay with 86400 in *;
                          change (2 ^ 63) with 9223372036854775808; lia).
    pose proof (Z.div_mod (now w mod secondsInDay) (parentBucketSizeSeconds p) ltac:(lia)).
    pose proof (Z.mod_pos_bound (now w mod secondsInDay) (parentBucketSizeSeconds p) Hsize).
    nia.
  - rewrite ceilDate_minus_floorDate. apply totalBuckets_exact; assumption.
Qed.

End TwapMore.

Section GeometricSum.
Import Twap.
Local Open Scope Q_scope.

Lemma geometricSum_closed (a r : Q) (n : nat) :
  geometricSum a r n * (1 - r) == a * (1 - r ^ Z.of_nat n).
Proof.
  induction n as [|n IH].
  - cbn [geometricSum]. change (r ^ Z.of_nat 0) with 1. ring.
  - cbn [geometricSum].
    assert (r ^ Z.of_nat (S n) == r * r ^ Z.of_nat n) as ->.
    { destruct n as [|n]; [|rewrite Qpower_succ_nat; ring].
      change (r ^ Z.of_nat 1) with r. change (r ^ Z.of_nat 0) with 1. ring. }
    transitivity (a * (1 - r) + r * (geometricSum a r n * (1 - r))); [ring|].
    rewrite IH. ring.
Qed.

End GeometricSum.

Section GeometricSumTwap.
Context `{NumberOps} `{TwapOps}.
Import Twap.
Local Open Scope Q_scope.

(** X20.  The first increment is sized as the comment on
    [firstDistributionOfBaseSurplus] intends: with a smoothing factor
    [0 <= r < 1] and a horizon of [n >= 1] buckets, the increments
    [a, a r, ..., a r^(n-1)] add up to the whole surplus. *)
Theorem firstDistribution_increments_sum_to_surplus (p : sellTwapLevelProvider)
    (totalSurplus : Q) (totalRemainingBuckets : Z) (n : nat) :
  0 <= exponentialSmoothingFactor p -> exponentialSmoothingFactor p < 1 ->
  (1 <= n)%nat ->
  Qceiling (distributeSurplusOverRemainingIntervalsPercentCeiling p
            * inject_Z totalRemainingBuckets) = Z.of_nat n ->
  geometricSum (firstDistributionOfBaseSurplus p totalSurplus totalRemainingBuckets)
    (exponentialSmoothingFactor p) n == totalSurplus.
Proof.
  intros Hr0 Hr1 Hn Hceil. unfold firstDistributionOfBaseSurplus. rewrite Hceil.
  set (r := exponentialSmoothingFactor p) in *.
  destruct n as [|k]; [lia|].
  destruct (geometric_bound r k Hr0 Hr1) as (Hx0 & Hxr & _).
  pose proof (geometricSum_closed (totalSurplus * (r - 1) / (r ^ Z.of_nat (S k) - 1)) r (S k))
    as Hclosed.
  set (x := r ^ Z.of_nat (S k)) in *.
  set (g := geometricSum _ r (S k)) in *.
  assert (totalSurplus * (r - 1) / (x - 1) * (1 - x) == totalSurplus * (1 - r)) as Ha
    by (field; lra).
  rewrite Ha in Hclosed.
  assert (g * (1 - r) == totalSurplus * (1 - r)) as Hmul by exact Hclosed.
  apply Qmult_inj_r in Hmul; [exact Hmul|lra].
Qed.

End GeometricSumTwap.

Section TwapMoreRuns.
Import Reference Scenario Twap.

(** The factory accepts two buckets of twelve hours: twelve hours divide
    the day in two. *)
Lemma factory_checks_witness :
  makeSellTwapLevelProvider (0%Q : rateOffset) (orderConstraints twoBuckets)
    (repeat everyDay 7) 24 43200 1 (1 # 2) 0 42
  = Ok (set_random twoBuckets [])
  /\ 0 < parentBucketSizeSeconds (set_random twoBuckets []) <= secondsInDay
  /\ makeRoundID (set_random twoBuckets []) = 0.
Proof.
  split; [reflexivity|].
  pose proof (@factory_checks_its_arguments numbers twap (0%Q : rateOffset)
                (orderConstraints twoBuckets) (repeat everyDay 7) 24 43200 1 (1 # 2) 0 42
                (set_random twoBuckets []) eq_refl)
    as ((_ & Hsize & _) & _ & _ & _ & _ & Hround).
  split; assumption.
Defined.

(** A day of calls, one of them with the price feed down, and the first call
    of the next day (which fails): the bucket stays well formed. *)
Lemma bucket_invariant_witness :
  wellFormed (runCalls 0 0 [quiet 0; quiet 10; feedDown 43200; quiet 43210; quiet 86410]
                (set_random twoBuckets [])).
Proof.
  exact (@bucket_invariant_in_every_reachable_state numbers twap (0%Q : rateOffset)
           (orderConstraints twoBuckets) (repeat everyDay 7) 24 43200 1 (1 # 2) 0 42
           (set_random twoBuckets []) 0%Q 0%Q
           [quiet 0; quiet 10; feedDown 43200; quiet 43210; quiet 86410] eq_refl).
Defined.

(** The second call of the day, ten seconds after the first: round 1 in
    bucket 0. *)
Lemma GetLevels_success_witness :
  previousRoundID (snd (GetLevels 0 0 (quiet 10) afterMidnight)) = Some 1
  /\ makeRoundID (snd (GetLevels 0 0 (quiet 10) afterMidnight)) = 2.
Proof.
  edestruct (@GetLevels_success_shape numbers twap 0%Q 0%Q (quiet 10) afterMidnight
               (snd (GetLevels 0 0 (quiet 10) afterMidnight)))
    as (_ & Hprev & Hnext & _); [reflexivity|].
  split; [exact Hprev | exact Hnext].
Defined.

(** The index alone decides: ten seconds into the next day the index is 0
    again, the call succeeds, and the bucket stored is still the one of the
    first day, from second 0 to second 86400. *)
Example GetLevels_same_index_next_day :
  exists levels bucket,
    fst (GetLevels 0 0 (quiet 86410) afterMidnight) = Ok levels
    /\ activeBucket (snd (GetLevels 0 0 (quiet 86410) afterMidnight)) = Some bucket
    /\ ID bucket = 0 /\ startTime bucket = 0 /\ endTime bucket = 86400
    /\ floorDate 86410 = 86400.
Proof. eexists _, _. repeat split; reflexivity. Qed.

(** Ten seconds after the first call the index is the same: the bucket
    stored keeps its times and capacity and is no longer marked new. *)
Lemma GetLevels_same_bucket_witness :
  exists bucket,
    activeBucket (snd (GetLevels 0 0 (quiet 10) afterMidnight)) = Some bucket
    /\ startTime bucket = 0 /\ endTime bucket = 86400
    /\ (baseCapacity bucket == 100)%Q
    /\ isNew (dynamicValues bucket) = false
    /\ roundID_ (dynamicValues bucket) = 1.
Proof.
  edestruct (@GetLevels_same_bucket_keeps_frame numbers twap 0%Q 0%Q (quiet 10) afterMidnight
               (snd (GetLevels 0 0 (quiet 10) afterMidnight)))
    as (bucket & volFilter & values & Hactive & _ & _
        & (_ & Hstart & Hend & _ & _ & _ & _ & _ & Hcapacity & _) & Hnew & Hround & _);
    [reflexivity..|].
  exists bucket. split; [exact Hactive|].
  split; [rewrite Hstart; reflexivity|]. split; [rewrite Hend; reflexivity|].
  split; [rewrite Hcapacity; reflexivity|]. split; [exact Hnew|exact Hround].
Defined.

(** At noon the index moves from bucket 0 to bucket 1. *)
Lemma GetLevels_new_bucket_witness :
  bucketIndex afterMidnight (quiet 43200) = 1
  /\ exists bucket,
       activeBucket (snd (GetLevels 0 0 (quiet 43200) afterMidnight)) = Some bucket
       /\ ID bucket = 1 /\ isNew (dynamicValues bucket) = true.
Proof.
  edestruct (@GetLevels_new_bucket_is_next numbers twap 0%Q 0%Q (quiet 43200) afterMidnight
               (snd (GetLevels 0 0 (quiet 43200) afterMidnight)))
    as (Hnext & bucket & Hactive & Hid & Hnew & _);
    [reflexivity | vm_compute; discriminate | reflexivity |].
  split; [exact Hnext|]. exists bucket. split; [exact Hactive|]. split; [exact Hid | exact Hnew].
Defined.

(** The second round of bucket 0 draws one quarter: the order is a quarter
    of what is left of the bucket. *)
Lemma makeRoundInfo_size_witness :
  exists bucket round rnd,
    activeBucket afterMidnight = Some bucket
    /\ makeRoundInfo afterMidnight (quiet 10) 1 bucket = (Ok round, rnd)
    /\ (sizeBaseCapped round <= baseRemaining bucket)%Q.
Proof.
  pose (bucket := set_dynamicValues
                    {| ID := 0; startTime := 0; endTime := 86400; totalBuckets := 2;
                       totalBucketsTargeted := 2; dayBaseSoldStart := 0;
                       dayBaseCapacity := 200; baseSurplusIncluded := 0;
                       baseCapacity := 200 / inject_Z 2;
                       minOrderSizeBase := 0 * (200 / inject_Z 2);
                       dynamicValues := mkDynamicBucketValues true 0 0 0 |}
                    (mkDynamicBucketValues true 0 0 0)).
  exists bucket. eexists _, _. split; [reflexivity|]. split; [reflexivity|].
  edestruct (@makeRoundInfo_size_bounds numbers twap afterMidnight (quiet 10) 1 bucket)
    as (Hle & _); [reflexivity | |exact Hle].
  vm_compute. split; discriminate.
Defined.

(** Fifty thousand seconds into a day of two buckets is in bucket 1. *)
Lemma bucketIndex_within_day_witness :
  0 <= bucketIndex twoBuckets (quiet 50000) < 2.
Proof.
  pose proof (@bucketIndex_within_day numbers twap twoBuckets (quiet 50000)
                ltac:(reflexivity) eq_refl) as (Hrange & _).
  exact Hrange.
Defined.

(** Three remaining buckets, a surplus of 50, ratio one half: the three
    increments add up to 50. *)
Lemma firstDistribution_sum_witness :
  (geometricSum (firstDistributionOfBaseSurplus fourBuckets 50 3) (1 # 2) 3 == 50)%Q.
Proof.
  apply (@firstDistribution_increments_sum_to_surplus numbers twap fourBuckets 50%Q 3 3%nat).
  - vm_compute. discriminate.
  - reflexivity.
  - lia.
  - reflexivity.
Defined.

End TwapMoreRuns.

Section TwapNoPanic.
Context `{NumberOps} `{TwapOps}.
Import Twap.

Lemma Weekday_range (t : Z) : 0 <= Weekday t < 7.
Proof. unfold Weekday. apply Z.mod_pos_bound. lia. Qed.

(** X21.  A call does not panic on its own account.  With the seven
    filters of the week in place and a bucket size other than zero (which
    the factory checks), a call panics only if one of its collaborators
    does: the cap of the day's filter, the volume store or the price feed.
    In particular the lookup of the day's filter is always in range and the
    division by the bucket size is never a division by zero. *)
Theorem GetLevels_panics_only_with_a_collaborator (a b : Q) (w : World)
    (p : sellTwapLevelProvider) :
  length (dowFilter p) = 7%nat ->
  parentBucketSizeSeconds p <> 0 ->
  (forall f, In f (dowFilter p) -> mustGetBaseAssetCapInBaseUnits f <> Panic) ->
  (forall f d, dailyValuesByDate w f d <> Panic) ->
  GetPrice w <> Panic ->
  fst (GetLevels a b w p) <> Panic.
Proof.
  intros Hweek Hsize Hcap Hstore Hfeed. unfold GetLevels.
  pose proof (Weekday_range (now w)) as Hday.
  destruct (dowFilter p !! Z.to_nat (Weekday (now w))) as [volFilter|] eqn:Hfilter.
  2:{ apply lookup_ge_None in Hfilter. lia. }
  assert (In volFilter (dowFilter p)) as Hin.
  { apply list_elem_of_In. eapply list_elem_of_lookup_2. exact Hfilter. }
  assert (forall se bID rID,
             makeFirstBucketFrame p w volFilter (floorDate (now w)) se bID rID <> Panic)
    as Hframe.
  { intros se bID rID. unfold makeFirstBucketFrame.
    pose proof (Hcap volFilter Hin) as Hc.
    destruct (mustGetBaseAssetCapInBaseUnits volFilter); try discriminate; [|congruence].
    pose proof (Hstore volFilter (dateOf (now w))) as Hs.
    destruct (dailyValuesByDate w volFilter (dateOf (now w))); try discriminate. congruence. }
  assert (makeBucketInfo p w volFilter (makeRoundID p) <> Panic) as Hbucket.
  { unfold makeBucketInfo.
    destruct (Z.eqb_spec (parentBucketSizeSeconds p) 0); [contradiction|].
    destruct (activeBucket p) as [active|] eqn:Hactive.
    - destruct (bucketIndex p w =? ID active).
      + unfold updateExistingBucket. rewrite Hactive.
        pose proof (Hstore volFilter (dateOf (now w))) as Hs.
        destruct (dailyValuesByDate w volFilter (dateOf (now w))); try discriminate. congruence.
      + unfold cutoverToNewBucket. rewrite Hactive.
        destruct (negb _); [discriminate|].
        pose proof (Hframe (now w - floorDate (now w)) (bucketIndex p w) (makeRoundID p)) as Hf.
        destruct (makeFirstBucketFrame _ _ _ _ _ _ _); try discriminate. congruence.
    - pose proof (Hframe (now w - floorDate (now w)) (bucketIndex p w) (makeRoundID p)) as Hf.
      destruct (makeFirstBucketFrame _ _ _ _ _ _ _); try discriminate. congruence. }
  destruct (makeBucketInfo p w volFilter (makeRoundID p)) as [bucket|e|];
    [|discriminate|congruence].
  unfold makeRoundInfo.
  destruct (if Qleb _ _ then _ else _) as [size rnd0].
  destruct (GetPrice w); [|discriminate|congruence].
  destruct (offsetApply _ _). discriminate.
Qed.

End TwapNoPanic.

Section TwapNoPanicRuns.
Import Reference Scenario Twap.

(** The two-bucket provider in the quiet world: the call does not panic. *)
Lemma GetLevels_no_panic_witness :
  fst (GetLevels 0 0 (quiet 10) twoBuckets) <> Panic.
Proof.
  apply (@GetLevels_panics_only_with_a_collaborator numbers twap 0%Q 0%Q (quiet 10) twoBuckets).
  - reflexivity.
  - vm_compute. discriminate.
  - intros f Hin. apply repeat_spec in Hin. subst f. discriminate.
  - intros f d. discriminate.
  - discriminate.
Defined.

End TwapNoPanicRuns.

(** ** The process registry *)

Section KelposFacts.
Context `{ProcessOps}.
Import Kelpos.

Lemma KelpOS_eta (kos : KelpOS) : {| processes := processes kos |} = kos.
Proof. destruct kos. reflexivity. Qed.

(** X22.  [register] takes a free namespace and refuses a taken one: on a
    free namespace it succeeds and [GetProcess] then finds the process; on
    a taken one it returns an error and the registry is as before.  The
    other namespaces are never affected. *)
Theorem register_free_or_refused (namespace : string) (p : Process) (kos : KelpOS) :
  (processes kos !! namespace = None ->
   fst (register namespace p kos) = Ok tt
   /\ GetProcess namespace (snd (register namespace p kos)) = (p, true))
  /\ (forall q, processes kos !! namespace = Some q ->
      (exists e, fst (register namespace p kos) = Err e)
      /\ snd (register namespace p kos) = kos
      /\ GetProcess namespace (snd (register namespace p kos)) = (q, true))
  /\ (forall other, other <> namespace ->
      GetProcess other (snd (register namespace p kos)) = GetProcess other kos).
Proof.
  unfold register, GetProcess. split; [|split].
  - intros ->. cbn. rewrite lookup_insert_eq. auto.
  - intros q Hq. rewrite Hq. cbn. rewrite Hq. eauto.
  - intros other Hother. destruct (processes kos !! namespace); [reflexivity|].
    cbn. rewrite lookup_insert_ne by congruence. reflexivity.
Qed.

(** X23.  Registering under a free namespace and unregistering it again
    gives back the registry one started from. *)
Theorem register_Unregister_round_trip (namespace : string) (p : Process) (kos kos1 : KelpOS) :
  processes kos !! namespace = None ->
  register namespace p kos = (Ok tt, kos1) ->
  Unregister namespace kos1 = (Ok tt, kos).
Proof.
  unfold register, Unregister. intros Hfree Hrun. rewrite Hfree in Hrun.
  injection Hrun as <-. cbn. rewrite lookup_insert_eq.
  rewrite delete_insert_id by exact Hfree. rewrite KelpOS_eta. reflexivity.
Qed.

(** X24.  After [SafeUnregister] the namespace is free, whether it was
    taken or not, and the other namespaces are as before; unregistering a
    free namespace is an error that changes nothing. *)
Theorem SafeUnregister_frees (namespace : string) (kos : KelpOS) :
  GetProcess namespace (SafeUnregister namespace kos) = (zeroProcess, false)
  /\ (forall other, other <> namespace ->
      GetProcess other (SafeUnregister namespace kos) = GetProcess other kos)
  /\ (exists e, fst (Unregister namespace (SafeUnregister namespace kos)) = Err e)
  /\ SafeUnregister namespace (SafeUnregister namespace kos) = SafeUnregister namespace kos.
Proof.
  unfold SafeUnregister, Unregister, GetProcess.
  destruct (processes kos !! namespace) as [q|] eqn:Hq; cbn.
  - rewrite !lookup_delete_eq. cbn. repeat split; eauto.
    intros other Hother. rewrite lookup_delete_ne by congruence. reflexivity.
  - rewrite !Hq. cbn. repeat split; eauto.
Qed.

(** X25.  [Stop] on a free namespace is an error and does nothing.  On a
    taken namespace it sends the kill signal to exactly the process
    registered there and returns what the kill returned; the namespace is
    free afterwards in either case, also when the kill has failed. *)
Theorem Stop_kills_the_registered_process (namespace : string) (kos kos' : KelpOS)
    (sent sent' : list Process) (r : result unit) :
  Stop namespace (kos, sent) = (r, (kos', sent')) ->
  (processes kos !! namespace = None ->
   (exists e, r = Err e) /\ kos' = kos /\ sent' = sent)
  /\ (forall p, processes kos !! namespace = Some p ->
      sent' = sent ++ [p]
      /\ r = match Kill p with Some e => Err e | None => Ok tt end
      /\ kos' = SafeUnregister namespace kos)
  /\ GetProcess namespace kos' = (zeroProcess, false).
Proof.
  unfold Stop, SafeUnregister, GetProcess, Unregister. intros Hrun.
  destruct (processes kos !! namespace) as [q|] eqn:Hq; cbn in Hrun.
  - injection Hrun as <- <- <-. split; [discriminate|]. split.
    + intros p [= <-]. auto.
    + cbn. rewrite lookup_delete_eq. reflexivity.
  - injection Hrun as <- <- <-. split; [eauto|]. split; [discriminate|].
    rewrite Hq. reflexivity.
Qed.

End KelposFacts.

Section KelposRuns.
Import Reference Scenario Kelpos.

(** A third process under a free namespace, unregistered again. *)
Lemma register_Unregister_witness :
  Unregister "feed" (snd (register "feed" 99 twoProcesses)) = (Ok tt, twoProcesses).
Proof.
  apply (@register_Unregister_round_trip processOps "feed" 99 twoProcesses).
  - reflexivity.
  - reflexivity.
Defined.

(** Stopping the finished process: the kill fails, the namespace is free
    all the same. *)
Lemma Stop_witness :
  GetProcess "done" (fst (snd (Stop "done" (twoProcesses, [])))) = (0, false).
Proof.
  refine (proj2 (proj2 (@Stop_kills_the_registered_process processOps "done" twoProcesses
            (fst (snd (Stop "done" (twoProcesses, []))))
            [] (snd (snd (Stop "done" (twoProcesses, []))))
            (fst (Stop "done" (twoProcesses, []))) _))).
  reflexivity.
Defined.

End KelposRuns.
